(** * paps: paragraph segmentation and line-flow pagination

    A shallow embedding of [src/paps.c]: the file reader [read_file], the
    paragraph scanner [split_text_into_paragraphs], the line splitter
    [split_paragraphs_into_lines] and the pagination loop [output_pages]
    with the drawing helpers it calls.

    Conventions.
    - C [int] values are integers of [Z].  Signed overflow is undefined in C
      and the pagination counters stay below the column height plus one line,
      so no wrap-around is written out for them.
    - C [double] values ([lpi], [cpi], page size, cairo coordinates) are
      rationals of [Q]: floating point rounding is idealised away.
    - Bytes are integers of [Z] in 0..255; a C string is the list of its
      bytes without the terminating NUL.
    - Pointers into the text buffer are offsets of [nat]. *)

From Stdlib Require Import ZArith QArith Qround List Bool Lia.
From Stdlib Require Import Sorted.
Import ListNotations.

#[local] Open Scope Z_scope.

(** ** Outcomes of the C functions *)

(** A run of a C function either returns, calls [exit (1)], runs into
    behaviour the C standard leaves undefined (an out-of-bounds read), or is
    cut off by the model's fuel. *)
Inductive outcome (A : Type) : Type :=
| Ok (a : A)
| Exit
| Undefined
| OutOfFuel.

Arguments Ok {A} a.
Arguments Exit {A}.
Arguments Undefined {A}.
Arguments OutOfFuel {A}.

Definition bind {A B : Type} (m : outcome A) (k : A -> outcome B) : outcome B :=
  match m with
  | Ok a => k a
  | Exit => Exit
  | Undefined => Undefined
  | OutOfFuel => OutOfFuel
  end.

Notation "x <- m ;; k" := (bind m (fun x => k))
  (at level 61, m at next level, right associativity).

Definition PANGO_SCALE : Z := 1024.
Definition BUFSIZE : nat := 1024.

Definition newline : Z := 10.   (* '\n' *)
Definition formfeed_char : Z := 12.   (* '\f' *)

(** [(int) d] for a double [d]: truncation towards zero. *)
Definition Qtrunc (q : Q) : Z := Z.quot (Qnum q) (Zpos (Qden q)).

(** ** read_file *)

(** The [FILE] is the list of the bytes still to be read; a read error
    ([ferror]) is not modelled. *)

Module ReadFile.

(** The bytes of a C string stored in a buffer: everything before the first
    NUL ([strlen], [g_string_append]). *)
Fixpoint c_str (buffer : list Z) : list Z :=
  match buffer with
  | [] => []
  | c :: rest => if c =? 0 then [] else c :: c_str rest
  end.

(** [fgets (buffer, n, file)] stores at most [n - 1] bytes and stops after a
    newline; [fgets_take] is given [n - 1]. *)
Fixpoint fgets_take (k : nat) (file : list Z) : list Z * list Z :=
  match k, file with
  | O, _ => ([], file)
  | _, [] => ([], [])
  | S k', c :: rest =>
      if c =? newline then ([c], rest)
      else let (line, rest') := fgets_take k' rest in (c :: line, rest')
  end.

(** [None] is the NULL that [fgets] returns at end of file. *)
Definition fgets (n : nat) (file : list Z) : option (list Z * list Z) :=
  match file with
  | [] => None
  | _ => Some (fgets_take (n - 1) file)
  end.

Section WithHandle.

(** The [GIConv] handle: [None] is the NULL handle, [Some conv] converts the
    bytes of one chunk and answers [None] where [g_iconv] returns -1. *)
Variable handle : option (list Z -> option (list Z)).

Definition convert (bp : list Z) : outcome (list Z) :=
  match handle with
  | None => Ok (c_str bp)
  | Some conv =>
      match conv (c_str bp) with
      | None => Exit
      | Some obuffer => Ok (c_str obuffer)
      end
  end.

(** The [while (1)] loop of [read_file]; [inbuf] is the [GString]. *)
Fixpoint read_loop (fuel : nat) (file inbuf : list Z) : outcome (list Z) :=
  match fuel with
  | O => OutOfFuel
  | S fuel' =>
      match fgets (BUFSIZE - 1) file with
      | None => Ok inbuf
      | Some (buffer, rest) =>
          bp <- convert buffer ;;
          read_loop fuel' rest (inbuf ++ bp)
      end
  end.

(** [inbuf->str[inbuf->len-1]]: with [len = 0] the unsigned index wraps
    around and lies outside the string. *)
Definition last_byte (inbuf : list Z) : outcome Z :=
  match inbuf with
  | [] => Undefined
  | _ => Ok (last inbuf 0)
  end.

Definition read_file (file : list Z) : outcome (list Z) :=
  inbuf <- read_loop (S (length file)) file [] ;;
  c <- last_byte inbuf ;;
  if negb (c =? newline) then Ok (inbuf ++ [newline]) else Ok inbuf.

End WithHandle.

End ReadFile.

(** ** Page layout and Pango objects *)

Inductive PangoDirection := PANGO_DIRECTION_LTR | PANGO_DIRECTION_RTL.
Inductive PangoAlignment := PANGO_ALIGN_LEFT | PANGO_ALIGN_RIGHT.
Inductive PangoWrapMode := PANGO_WRAP_WORD | PANGO_WRAP_WORD_CHAR.
Inductive output_format_t := FORMAT_POSTSCRIPT | FORMAT_PDF | FORMAT_SVG.

Definition direction_eqb (a b : PangoDirection) : bool :=
  match a, b with
  | PANGO_DIRECTION_LTR, PANGO_DIRECTION_LTR => true
  | PANGO_DIRECTION_RTL, PANGO_DIRECTION_RTL => true
  | _, _ => false
  end.

(** The fields of [page_layout_t] that the modelled functions read or
    write. *)
Record page_layout_t := {
  column_width : Z;
  column_height : Z;
  num_columns : Z;
  gutter_width : Z;
  top_margin : Z;
  bottom_margin : Z;
  left_margin : Z;
  right_margin : Z;
  page_width : Q;
  page_height : Q;
  header_sep : Z;
  header_height : Z;
  footer_height : Z;
  scale_x : Q;
  scale_y : Q;
  do_landscape : bool;
  do_justify : bool;
  do_separation_line : bool;
  do_wordwrap : bool;
  do_use_markup : bool;
  do_stretch_chars : bool;
  pango_dir : PangoDirection;
  lpi : Q;
  cpi : Q;
  cups_mode : bool   (* false when built without HAVE_CUPS *)
}.

Definition set_scale_y (pl : page_layout_t) (s : Q) : page_layout_t :=
  {| column_width := column_width pl; column_height := column_height pl;
     num_columns := num_columns pl; gutter_width := gutter_width pl;
     top_margin := top_margin pl; bottom_margin := bottom_margin pl;
     left_margin := left_margin pl; right_margin := right_margin pl;
     page_width := page_width pl; page_height := page_height pl;
     header_sep := header_sep pl; header_height := header_height pl;
     footer_height := footer_height pl;
     scale_x := scale_x pl; scale_y := s;
     do_landscape := do_landscape pl; do_justify := do_justify pl;
     do_separation_line := do_separation_line pl;
     do_wordwrap := do_wordwrap pl; do_use_markup := do_use_markup pl;
     do_stretch_chars := do_stretch_chars pl; pango_dir := pango_dir pl;
     lpi := lpi pl; cpi := cpi pl; cups_mode := cups_mode pl |}.

Definition set_header_height (pl : page_layout_t) (h : Z) : page_layout_t :=
  {| column_width := column_width pl; column_height := column_height pl;
     num_columns := num_columns pl; gutter_width := gutter_width pl;
     top_margin := top_margin pl; bottom_margin := bottom_margin pl;
     left_margin := left_margin pl; right_margin := right_margin pl;
     page_width := page_width pl; page_height := page_height pl;
     header_sep := header_sep pl; header_height := h;
     footer_height := footer_height pl;
     scale_x := scale_x pl; scale_y := scale_y pl;
     do_landscape := do_landscape pl; do_justify := do_justify pl;
     do_separation_line := do_separation_line pl;
     do_wordwrap := do_wordwrap pl; do_use_markup := do_use_markup pl;
     do_stretch_chars := do_stretch_chars pl; pango_dir := pango_dir pl;
     lpi := lpi pl; cpi := cpi pl; cups_mode := cups_mode pl |}.

Definition set_footer_height (pl : page_layout_t) (h : Z) : page_layout_t :=
  {| column_width := column_width pl; column_height := column_height pl;
     num_columns := num_columns pl; gutter_width := gutter_width pl;
     top_margin := top_margin pl; bottom_margin := bottom_margin pl;
     left_margin := left_margin pl; right_margin := right_margin pl;
     page_width := page_width pl; page_height := page_height pl;
     header_sep := header_sep pl; header_height := header_height pl;
     footer_height := h;
     scale_x := scale_x pl; scale_y := scale_y pl;
     do_landscape := do_landscape pl; do_justify := do_justify pl;
     do_separation_line := do_separation_line pl;
     do_wordwrap := do_wordwrap pl; do_use_markup := do_use_markup pl;
     do_stretch_chars := do_stretch_chars pl; pango_dir := pango_dir pl;
     lpi := lpi pl; cpi := cpi pl; cups_mode := cups_mode pl |}.

Record PangoRectangle := { rect_x : Z; rect_y : Z; rect_width : Z; rect_height : Z }.

(** A shaped line, as the shaping engine hands it out: the core reads its
    extents only. *)
Record PangoLayoutLine := { line_ink : PangoRectangle; line_logical : PangoRectangle }.

(** A [PangoLayout] is what the core has told Pango about it. *)
Record PangoLayout := {
  layout_text : list Z;
  layout_is_markup : bool;
  layout_width : Z;           (* -1: no wrap width *)
  layout_wrap : PangoWrapMode;
  layout_justify : bool;
  layout_alignment : PangoAlignment
}.

(** [struct _Paragraph]; [para_text] is the offset of [text] in the buffer. *)
Record Paragraph := {
  para_text : nat;
  para_length : Z;
  para_height : Z;
  para_formfeed : Z;
  para_layout : PangoLayout
}.

Record LineLink := {
  pango_line : PangoLayoutLine;
  logical_rect : PangoRectangle;
  ink_rect : PangoRectangle;
  formfeed : Z
}.

(** ** UTF-8 helpers of GLib, as [paps.c] calls them *)

Module Utf8.

(** [(gunichar)-1] *)
Definition invalid_char : Z := 4294967295.

(** [p[i]], the terminating NUL included. *)
Definition byte_at (text : list Z) (p : nat) : Z := nth p text 0.

(** [*p] for a pointer the scanner has moved by itself: the bytes of the
    text and its terminating NUL can be read, an offset behind the NUL lies
    outside the buffer. *)
Definition read_at (text : list Z) (p : nat) : outcome Z :=
  if (length text <? p)%nat then Undefined else Ok (byte_at text p).

(** The table [g_utf8_skip] behind [g_utf8_next_char]. *)
Definition g_utf8_skip (c : Z) : nat :=
  if c <? 0xc0 then 1
  else if c <? 0xe0 then 2
  else if c <? 0xf0 then 3
  else if c <? 0xf8 then 4
  else if c <? 0xfc then 5
  else if c <? 0xfe then 6
  else 1.

Definition g_utf8_next_char (text : list Z) (p : nat) : nat :=
  (p + g_utf8_skip (byte_at text p))%nat.

(** Mask and length of a sequence from its first byte; [None] for a byte
    that starts no sequence. *)
Definition utf8_compute (c : Z) : option (Z * nat) :=
  if c <? 128 then Some (0x7f, 1%nat)
  else if Z.land c 0xe0 =? 0xc0 then Some (0x1f, 2%nat)
  else if Z.land c 0xf0 =? 0xe0 then Some (0x0f, 3%nat)
  else if Z.land c 0xf8 =? 0xf0 then Some (0x07, 4%nat)
  else if Z.land c 0xfc =? 0xf8 then Some (0x03, 5%nat)
  else if Z.land c 0xfe =? 0xfc then Some (0x01, 6%nat)
  else None.

Definition is_continuation (c : Z) : bool := Z.land c 0xc0 =? 0x80.

(** Folding in [count] continuation bytes from offset [p] on. *)
Fixpoint utf8_get (text : list Z) (p : nat) (count : nat) (result : Z) : Z :=
  match count with
  | O => result
  | S count' =>
      let c := byte_at text p in
      if is_continuation c
      then utf8_get text (S p) count' (Z.lor (Z.shiftl result 6) (Z.land c 0x3f))
      else invalid_char
  end.

Definition g_utf8_get_char (text : list Z) (p : nat) : Z :=
  let c := byte_at text p in
  match utf8_compute c with
  | None => invalid_char
  | Some (mask, len) => utf8_get text (S p) (len - 1) (Z.land c mask)
  end.

(** [g_utf8_prev_char (p)] steps back over continuation bytes; from the start
    of the buffer it reads in front of it. *)
Fixpoint g_utf8_prev_char (text : list Z) (p : nat) : outcome nat :=
  match p with
  | O => Undefined
  | S p' => if is_continuation (byte_at text p') then g_utf8_prev_char text p' else Ok p'
  end.

Definition g_utf8_offset_to_pointer (text : list Z) (p : nat) (offset : nat) : nat :=
  Nat.iter offset (g_utf8_next_char text) p.

(** The counting loop of [g_utf8_strlen (p, max)] for [max >= 0]. *)
Fixpoint strlen_loop (fuel : nat) (text : list Z) (start : nat) (max : Z)
         (p : nat) (len : Z) : Z :=
  match fuel with
  | O => len
  | S fuel' =>
      if (Z.of_nat p - Z.of_nat start <? max) && negb (byte_at text p =? 0)
      then strlen_loop fuel' text start max (g_utf8_next_char text p) (len + 1)
      else if Z.of_nat p - Z.of_nat start <=? max then len + 1 else len
  end.

Definition g_utf8_strlen (text : list Z) (start : nat) (max : Z) : Z :=
  if (max =? 0) || (byte_at text start =? 0) then 0
  else strlen_loop (Z.to_nat max) text start max (g_utf8_next_char text start) 0.

(** The least code point a sequence of this first byte may encode; GLib's
    validating decoder rejects shorter ("overlong") values. *)
Definition utf8_min_code (c : Z) : Z :=
  if c <? 0x80 then 0
  else if c <? 0xe0 then 0x80
  else if c <? 0xf0 then 0x800
  else if c <? 0xf8 then 0x10000
  else if c <? 0xfc then 0x200000
  else 0x4000000.

Definition char_accepted (text : list Z) (p : nat) : bool :=
  let wc := g_utf8_get_char text p in
  negb (wc =? invalid_char) && (utf8_min_code (byte_at text p) <=? wc).

(** [g_utf8_to_ucs4 (str, len, NULL, NULL, NULL)]: the characters of the
    [len] bytes from [start]; [None] is the NULL it returns for a sequence
    it does not accept. *)
Fixpoint to_ucs4_loop (fuel : nat) (text : list Z) (stop : nat) (p : nat)
  : option (list Z) :=
  match fuel with
  | O => Some []
  | S fuel' =>
      if (p <? stop)%nat && negb (byte_at text p =? 0) then
        if char_accepted text p then
          match to_ucs4_loop fuel' text stop (g_utf8_next_char text p) with
          | Some wtext => Some (g_utf8_get_char text p :: wtext)
          | None => None
          end
        else None
      else Some []
  end.

Definition g_utf8_to_ucs4 (text : list Z) (start : nat) (len : Z) : option (list Z) :=
  to_ucs4_loop (Z.to_nat len) text (start + Z.to_nat len) start.

(** Bytes [start .. stop) of the buffer. *)
Definition slice (text : list Z) (start stop : nat) : list Z :=
  firstn (stop - start) (skipn start text).

End Utf8.

(** ** split_text_into_paragraphs *)

(** [d > 0.0L] for a double [d]. *)
Definition Qpositive (q : Q) : bool := 0 <? Qnum q.

Definition alignment_of (dir : PangoDirection) : PangoAlignment :=
  if direction_eqb dir PANGO_DIRECTION_LTR then PANGO_ALIGN_LEFT else PANGO_ALIGN_RIGHT.

Module Segmenter.
Import Utf8.

(** The locals of the scanning loop. *)
Record scan_state := {
  p : nat;
  last_para : nat;
  paint_width : Z;
  result : list Paragraph      (* built with g_list_prepend *)
}.

Inductive control := Continue (st : scan_state) | Break (st : scan_state).

Definition set_p (st : scan_state) (next : nat) : scan_state :=
  {| p := next; last_para := last_para st;
     paint_width := paint_width st; result := result st |}.

Section Scanner.

(** [wcwidth] of the C library, which depends on the locale. *)
Variable wcwidth : Z -> Z.
(** [pango_layout_get_extents]: the logical width, in Pango units, of a
    fresh layout that holds the given text. *)
Variable layout_extents_width : list Z -> Z.
(** What a field of a [g_new]ed struct holds before it is assigned. *)
Variable uninitialised : Z.

Variable page_layout : page_layout_t.
Variable text : list Z.

(** The layout of the markup branch and of the branch without CPI. *)
Definition wrapped_layout (markup : bool) (txt : list Z) (paint_w : Z) : PangoLayout :=
  {| layout_text := txt;
     layout_is_markup := markup;
     layout_width := if do_wordwrap page_layout then paint_w * PANGO_SCALE else -1;
     layout_wrap := if do_wordwrap page_layout then PANGO_WRAP_WORD_CHAR else PANGO_WRAP_WORD;
     layout_justify := do_justify page_layout;
     layout_alignment := alignment_of (pango_dir page_layout) |}.

(** The layout of the CPI branch: the width is set to -1, the wrap mode is
    left alone. *)
Definition cpi_layout (txt : list Z) : PangoLayout :=
  {| layout_text := txt;
     layout_is_markup := false;
     layout_width := -1;
     layout_wrap := PANGO_WRAP_WORD;
     layout_justify := do_justify page_layout;
     layout_alignment := alignment_of (pango_dir page_layout) |}.

Definition markup_paragraph (paint_w : Z) : Paragraph :=
  {| para_text := 0;
     para_length := Z.of_nat (length (ReadFile.c_str text));
     para_height := 0;
     para_formfeed := uninitialised;
     para_layout := wrapped_layout true (ReadFile.c_str text) paint_w |}.

(** [col = page_layout->column_width / 72.0 * page_layout->cpi], stored in a
    [gsize]. *)
Definition cpi_columns : Z :=
  Qtrunc (inject_Z (column_width page_layout) / 72 * cpi page_layout).

(** The [for] loop over [wtext]: the index [i] at which it stops. *)
Fixpoint wrap_prefix (wtext : list Z) (col wwidth : Z) (i : nat) : nat :=
  match wtext with
  | [] => i
  | c :: rest =>
      let w := wcwidth c in
      let wwidth' := if 0 <=? w then wwidth + w else wwidth in
      if col <? wwidth' then i else wrap_prefix rest col wwidth' (S i)
  end.

(** The tail of the boundary block: [last_para = next], the form-feed flag,
    the prepend, and then [if (!wc) break; p = next;]. *)
Definition close_paragraph (st : scan_state) (paint_w : Z) (len : Z)
           (layout : PangoLayout) (wc : Z) (next : nat) : control :=
  let para := {| para_text := last_para st;
                 para_length := len;
                 para_height := 0;
                 para_formfeed := if wc =? formfeed_char then 1 else 0;
                 para_layout := layout |} in
  let st' := {| p := p st; last_para := next;
                paint_width := paint_w; result := para :: result st |} in
  if wc =? 0 then Break st' else Continue (set_p st' next).

(** The boundary block, entered at [p] with the character [wc]. *)
Definition emit_paragraph (st : scan_state) (wc : Z) (next : nat) : outcome control :=
  let len0 := Z.of_nat (p st) - Z.of_nat (last_para st) in
  let para_bytes := slice text (last_para st) (p st) in
  if Qpositive (cpi page_layout) && do_wordwrap page_layout then
    match g_utf8_to_ucs4 text (last_para st) len0 with
    | None =>
        if cups_mode page_layout then Ok (Continue (set_p st next)) else Exit
    | Some wtext =>
        let len := g_utf8_strlen text (last_para st) len0 in
        let col := cpi_columns in
        if col <? len then
          let i := wrap_prefix wtext col 0 0 in
          let next' := g_utf8_offset_to_pointer text (last_para st) i in
          (* the first [i] characters, encoded again: their own bytes *)
          let newtext := slice text (last_para st) next' in
          let paint_w := Z.quot (layout_extents_width newtext) PANGO_SCALE in
          q <- g_utf8_prev_char text next' ;;
          let wc' := g_utf8_get_char text q in
          Ok (close_paragraph st paint_w (Z.of_nat i) (cpi_layout newtext) wc' next')
        else
          Ok (close_paragraph st (paint_width st) len0 (cpi_layout para_bytes) wc next)
    end
  else
    Ok (close_paragraph st (paint_width st) len0
          (wrapped_layout false para_bytes (paint_width st)) wc next).

(** One turn of the [while] loop, entered with [*p] not NUL. *)
Definition scan_body (st : scan_state) : outcome control :=
  let wc := g_utf8_get_char text (p st) in
  let next := g_utf8_next_char text (p st) in
  if (wc =? invalid_char) && cups_mode page_layout then
    (* try to continue parsing text *)
    Ok (Continue (set_p st next))
  else
    let wc := if wc =? invalid_char then 0 else wc in
    if (byte_at text (p st) =? 0) || (wc =? 0) || (wc =? newline) || (wc =? formfeed_char)
    then emit_paragraph st wc next
    else Ok (Continue (set_p st next)).

Fixpoint scan_loop (fuel : nat) (st : scan_state) : outcome (list Paragraph) :=
  match fuel with
  | O => OutOfFuel
  | S fuel' =>
      b <- read_at text (p st) ;;
      if b =? 0 then Ok (result st)
      else
        c <- scan_body st ;;
        match c with
        | Continue st' => scan_loop fuel' st'
        | Break st' => Ok (result st')
        end
  end.

(** [fuel] bounds the turns of the [while] loop, which the C code does not
    bound. *)
Definition split_text_into_paragraphs (fuel : nat) (paint_w : Z)
  : outcome (list Paragraph) :=
  if do_use_markup page_layout then Ok (rev [markup_paragraph paint_w])
  else
    r <- scan_loop fuel {| p := 0; last_para := 0; paint_width := paint_w; result := [] |} ;;
    Ok (rev r).

End Scanner.

(** A [wcwidth] as the C library gives it in a UTF-8 locale, on the ranges
    the examples use: control characters have no width, combining marks
    width 0, East Asian wide and full-width characters width 2. *)
Definition wcwidth_utf8 (c : Z) : Z :=
  if c =? 0 then 0
  else if (c <? 32) || ((127 <=? c) && (c <? 160)) then -1
  else if (0x300 <=? c) && (c <=? 0x36f) then 0
  else if ((0x1100 <=? c) && (c <=? 0x115f))
          || ((0x2e80 <=? c) && (c <=? 0xa4cf))
          || ((0xac00 <=? c) && (c <=? 0xd7a3))
          || ((0xf900 <=? c) && (c <=? 0xfaff))
          || ((0xfe30 <=? c) && (c <=? 0xfe6f))
          || ((0xff00 <=? c) && (c <=? 0xff60))
          || ((0xffe0 <=? c) && (c <=? 0xffe6)) then 2
  else 1.

(** The cells a run of characters takes: the sum the wrapping loop keeps. *)
Definition cells (wcwidth : Z -> Z) (wtext : list Z) : Z :=
  fold_right (fun c acc => (if 0 <=? wcwidth c then wcwidth c else 0) + acc) 0 wtext.

End Segmenter.

(** ** split_paragraphs_into_lines *)

Module Lines.

Section Splitter.

(** The shaping engine: the lines a layout breaks into
    ([pango_layout_get_line_count], [pango_layout_get_line]). *)
Variable layout_lines : PangoLayout -> list PangoLayoutLine.

(** The [for] loop over the lines of one paragraph; [lines] are the lines
    from index [i] on, [line_list] is built with [g_list_prepend]. *)
Fixpoint lines_loop (para : Paragraph) (para_num_lines : Z)
         (lines : list PangoLayoutLine) (i : Z)
         (line_list : list LineLink) (max_height : Z) : list LineLink * Z :=
  match lines with
  | [] => (line_list, max_height)
  | line :: rest =>
      let line_link :=
        {| pango_line := line;
           logical_rect := line_logical line;
           ink_rect := line_ink line;
           formfeed := if negb (para_formfeed para =? 0) && (i =? para_num_lines - 1)
                       then 1 else 0 |} in
      let max_height' :=
        if max_height <? rect_height (line_logical line)
        then rect_height (line_logical line) else max_height in
      lines_loop para para_num_lines rest (i + 1) (line_link :: line_list) max_height'
  end.

(** The [while (par_list)] loop. *)
Fixpoint paragraphs_loop (par_list : list Paragraph)
         (line_list : list LineLink) (max_height : Z) : list LineLink * Z :=
  match par_list with
  | [] => (line_list, max_height)
  | para :: next =>
      let lines := layout_lines (para_layout para) in
      let (line_list', max_height') :=
        lines_loop para (Z.of_nat (length lines)) lines 0 line_list max_height in
      paragraphs_loop next line_list' max_height'
  end.

(** [1.0 / lpi * 72.0 * PANGO_SCALE / max_height]; the division by a zero
    [max_height] is infinite in C and 0 in [Q]. *)
Definition stretch_scale (lpi : Q) (max_height : Z) : Q :=
  (1 / lpi * 72 * inject_Z PANGO_SCALE / inject_Z max_height)%Q.

(** The function writes [page_layout->scale_y] and returns the line list. *)
Definition split_paragraphs_into_lines (page_layout : page_layout_t)
           (paragraphs : list Paragraph) : page_layout_t * list LineLink :=
  let (line_list, max_height) := paragraphs_loop paragraphs [] 0 in
  let page_layout' :=
    if do_stretch_chars page_layout && Qpositive (lpi page_layout)
    then set_scale_y page_layout (stretch_scale (lpi page_layout) max_height)
    else page_layout in
  (page_layout', rev line_list).

End Splitter.

End Lines.

(** ** The rendering surface *)

Inductive dsc_comment := PageOrientation_Landscape | PageOrientation_Portrait.

(** The cairo and pango-cairo calls [paps.c] makes while it draws. *)
Inductive cairo_op :=
| cairo_identity_matrix
| cairo_translate (tx ty : Q)
| cairo_rotate_half_pi                       (* cairo_rotate (cr, M_PI/2) *)
| cairo_scale (sx sy : Q)
| cairo_ps_surface_dsc_begin_page_setup
| cairo_ps_surface_dsc_comment (c : dsc_comment)
| cairo_move_to (x y : Q)
| cairo_line_to (x y : Q)
| cairo_set_line_width (w : Q)
| cairo_stroke
| pango_cairo_show_layout_line (line : PangoLayoutLine)
| cairo_show_page.

(** The calls [output_pages] makes, with their arguments. *)
Inductive call :=
| call_start_page (page_idx : Z)
| call_draw_page_header (page : Z)
| call_eject_page
| call_eject_column (column_idx : Z)
| call_draw_line_to_page (column_idx column_pos : Z) (line : PangoLayoutLine).

(** One call together with what it sent to cairo. *)
Record call_record := { the_call : call; the_ops : list cairo_op }.

(** ** output_pages and the functions it calls *)

Module Flow.

Definition is_rtl (page_layout : page_layout_t) : bool :=
  direction_eqb (pango_dir page_layout) PANGO_DIRECTION_RTL.

(** [total_gutter_width] as [main] computes it. *)
Definition total_gutter_width (num_columns gutter_width : Z) : Z :=
  if num_columns =? 1 then 0 else gutter_width * (num_columns - 1).

(** [page_layout.column_width] as [main] computes it. *)
Definition main_column_width (page_width : Q) (left_margin right_margin : Z)
           (num_columns gutter_width : Z) : Z :=
  Qtrunc ((page_width - inject_Z left_margin - inject_Z right_margin
           - inject_Z (total_gutter_width num_columns gutter_width))
          / inject_Z num_columns).

Definition eject_page : list cairo_op := [cairo_show_page].

Section Drawing.

(** The global [output_format]. *)
Variable output_format : output_format_t.

(** The three shaped lines of the header of a page; they depend on the
    clock, the file name and the header font. *)
Variable header_line : Z -> Z -> PangoLayoutLine.

Definition is_postscript : bool :=
  match output_format with FORMAT_POSTSCRIPT => true | _ => false end.

Definition start_page (page_layout : page_layout_t) (page_idx : Z) : list cairo_op :=
  [cairo_identity_matrix]
  ++ (if is_postscript then [cairo_ps_surface_dsc_begin_page_setup] else [])
  ++ (if do_landscape page_layout then
        if is_postscript then
          [cairo_ps_surface_dsc_comment PageOrientation_Landscape;
           cairo_translate (page_height page_layout) 0;
           cairo_rotate_half_pi]
        else []
      else
        if is_postscript then [cairo_ps_surface_dsc_comment PageOrientation_Portrait]
        else []).

(** The x position [eject_column] draws the separation line at. *)
Definition separator_x (page_layout : page_layout_t) (column_idx : Z) : Q :=
  let column_idx :=
    if is_rtl page_layout then num_columns page_layout - column_idx else column_idx in
  let total_gutter :=
    if column_idx =? 1 then (1 * inject_Z (gutter_width page_layout) / 2)%Q
    else ((inject_Z column_idx - (1 # 2)) * inject_Z (gutter_width page_layout))%Q in
  (inject_Z (left_margin page_layout + column_width page_layout * column_idx)
   + total_gutter)%Q.

Definition eject_column (page_layout : page_layout_t) (column_idx : Z) : list cairo_op :=
  if negb (do_separation_line page_layout) then []
  else
    let x_pos := separator_x page_layout column_idx in
    let y_top := inject_Z (top_margin page_layout + header_height page_layout
                           + Z.quot (header_sep page_layout) 2) in
    let y_bot := (page_height page_layout - inject_Z (bottom_margin page_layout)
                  - inject_Z (footer_height page_layout))%Q in
    [cairo_move_to x_pos y_top; cairo_line_to x_pos y_bot;
     cairo_set_line_width (1 # 10); cairo_stroke].

(** The x position [draw_line_to_page] moves to. *)
Definition line_x (page_layout : page_layout_t) (column_idx : Z)
           (line : PangoLayoutLine) : Z :=
  let x_pos := left_margin page_layout
               + column_idx * (column_width page_layout + gutter_width page_layout) in
  (* Do RTL column layout for RTL direction *)
  let x_pos :=
    if is_rtl page_layout then
      left_margin page_layout
      + (num_columns page_layout - 1 - column_idx)
        * (column_width page_layout + gutter_width page_layout)
    else x_pos in
  if is_rtl page_layout then
    x_pos + (column_width page_layout
             - Z.quot (rect_width (line_logical line)) PANGO_SCALE)
  else x_pos.

Definition line_y (page_layout : page_layout_t) (column_pos : Z) : Z :=
  top_margin page_layout + header_sep page_layout + Z.quot column_pos PANGO_SCALE.

Definition draw_line_to_page (column_idx column_pos : Z)
           (page_layout : page_layout_t) (line : PangoLayoutLine) : list cairo_op :=
  [cairo_move_to (inject_Z (line_x page_layout column_idx line))
                 (inject_Z (line_y page_layout column_pos));
   pango_cairo_show_layout_line line].

(** The function writes [header_height] or [footer_height] into the page
    layout; its return value is not used by [output_pages]. *)
Definition draw_page_header_line_to_page (is_footer : bool)
           (page_layout : page_layout_t) (page : Z) : page_layout_t * list cairo_op :=
  let line0 := header_line page 0 in
  let line1 := header_line page 1 in
  let line2 := header_line page 2 in
  let x_left := inject_Z (left_margin page_layout) in
  let height :=
    Qtrunc (inject_Z (Z.quot (rect_height (line_logical line0)) PANGO_SCALE) / 3) in
  let y_pos :=
    if is_footer then (page_height page_layout - inject_Z (bottom_margin page_layout))%Q
    else inject_Z (top_margin page_layout + height) in
  let page_layout' :=
    if is_footer then set_footer_height page_layout height
    else set_header_height page_layout height in
  let x_center :=
    ((page_width page_layout
      - inject_Z (Z.quot (rect_width (line_logical line1)) PANGO_SCALE)) / 2)%Q in
  let x_right :=
    (page_width page_layout - inject_Z (right_margin page_layout)
     - inject_Z (Z.quot (rect_width (line_logical line2)) PANGO_SCALE))%Q in
  let line_pos := inject_Z (top_margin page_layout' + header_height page_layout'
                            + Z.quot (header_sep page_layout') 2) in
  (page_layout',
   [cairo_move_to x_left y_pos; pango_cairo_show_layout_line line0;
    cairo_move_to x_center y_pos; pango_cairo_show_layout_line line1;
    cairo_move_to x_right y_pos; pango_cairo_show_layout_line line2;
    cairo_move_to (inject_Z (left_margin page_layout')) line_pos;
    cairo_line_to (page_width page_layout' - inject_Z (right_margin page_layout'))%Q line_pos;
    cairo_set_line_width (1 # 10);
    cairo_stroke]).

(** The locals of [output_pages], the page layout it points to, and the
    calls made so far. *)
Record flow_state := {
  column_idx : Z;
  column_y_pos : Z;
  page_idx : Z;
  prev_line_link : option LineLink;
  layout : page_layout_t;
  trace : list call_record
}.

Definition record (c : call) (ops : list cairo_op) (st : flow_state) : flow_state :=
  {| column_idx := column_idx st; column_y_pos := column_y_pos st;
     page_idx := page_idx st; prev_line_link := prev_line_link st;
     layout := layout st;
     trace := trace st ++ [{| the_call := c; the_ops := ops |}] |}.

(** [if (need_header) draw_page_header_line_to_page (...)] *)
Definition header_if_needed (need_header : bool) (st : flow_state) : flow_state :=
  if need_header then
    let (layout', ops) := draw_page_header_line_to_page false (layout st) (page_idx st) in
    {| column_idx := column_idx st; column_y_pos := column_y_pos st;
       page_idx := page_idx st; prev_line_link := prev_line_link st;
       layout := layout';
       trace := trace st ++ [{| the_call := call_draw_page_header (page_idx st);
                                the_ops := ops |}] |}
  else st.

(** The test "Check if we need to move to next column". *)
Definition needs_break (st : flow_state) (line_link : LineLink) : bool :=
  (column_height (layout st) * PANGO_SCALE
     <=? column_y_pos st + rect_height (logical_rect line_link))
  || match prev_line_link st with
     | Some prev => negb (formfeed prev =? 0)
     | None => false
     end.

(** The block run when a break is needed. *)
Definition break_column (need_header : bool) (st : flow_state) : flow_state :=
  let column_idx' := column_idx st + 1 in
  if column_idx' =? num_columns (layout st) then
    let st1 := record call_eject_page eject_page st in
    let st2 := {| column_idx := 0; column_y_pos := 0;
                  page_idx := page_idx st1 + 1; prev_line_link := prev_line_link st1;
                  layout := layout st1; trace := trace st1 |} in
    let st3 := record (call_start_page (page_idx st2))
                      (start_page (layout st2) (page_idx st2)) st2 in
    header_if_needed need_header st3
  else
    let st1 := {| column_idx := column_idx'; column_y_pos := 0;
                  page_idx := page_idx st; prev_line_link := prev_line_link st;
                  layout := layout st; trace := trace st |} in
    record (call_eject_column column_idx') (eject_column (layout st1) column_idx') st1.

(** The calls a break adds to the trace. *)
Definition break_calls (need_header : bool) (st : flow_state) : list call_record :=
  if column_idx st + 1 =? num_columns (layout st) then
    {| the_call := call_eject_page; the_ops := eject_page |}
    :: {| the_call := call_start_page (page_idx st + 1);
          the_ops := start_page (layout st) (page_idx st + 1) |}
    :: (if need_header then
          [{| the_call := call_draw_page_header (page_idx st + 1);
              the_ops := snd (draw_page_header_line_to_page false (layout st)
                                                            (page_idx st + 1)) |}]
        else [])
  else
    [{| the_call := call_eject_column (column_idx st + 1);
        the_ops := eject_column (layout st) (column_idx st + 1) |}].

(** The vertical advance of a line. *)
Definition line_advance (page_layout : page_layout_t) (line_link : LineLink) : Z :=
  if Qpositive (lpi page_layout)
  then Qtrunc (1 / lpi page_layout * 72 * inject_Z PANGO_SCALE)
  else rect_height (logical_rect line_link).

(** The body of the [while (pango_lines)] loop. *)
Definition place_line (need_header : bool) (st : flow_state) (line_link : LineLink)
  : flow_state :=
  let st1 := if needs_break st line_link then break_column need_header st else st in
  let height := line_advance (layout st1) line_link in
  let st2 := record (call_draw_line_to_page (column_idx st1) (column_y_pos st1 + height)
                                            (pango_line line_link))
                    (draw_line_to_page (column_idx st1) (column_y_pos st1 + height)
                                       (layout st1) (pango_line line_link)) st1 in
  {| column_idx := column_idx st2; column_y_pos := column_y_pos st2 + height;
     page_idx := page_idx st2; prev_line_link := Some line_link;
     layout := layout st2; trace := trace st2 |}.

Definition flow_lines (need_header : bool) (st : flow_state) (pango_lines : list LineLink)
  : flow_state :=
  fold_left (place_line need_header) pango_lines st.

(** The state when the loop is entered: the first page is started. *)
Definition initial_state (page_layout : page_layout_t) (need_header : bool) : flow_state :=
  let st0 := {| column_idx := 0; column_y_pos := 0; page_idx := 1;
                prev_line_link := None; layout := page_layout; trace := [] |} in
  header_if_needed need_header
    (record (call_start_page 1) (start_page page_layout 1) st0).

(** [output_pages]: the state after the final [eject_page]; the C function
    returns its [page_idx]. *)
Definition output_pages (pango_lines : list LineLink) (page_layout : page_layout_t)
           (need_header : bool) : flow_state :=
  record call_eject_page eject_page
         (flow_lines need_header (initial_state page_layout need_header) pango_lines).

(** The states in which the lines are placed: the state after each turn of
    the loop. *)
Fixpoint placed_states (need_header : bool) (st : flow_state)
         (pango_lines : list LineLink) : list flow_state :=
  match pango_lines with
  | [] => []
  | line_link :: rest =>
      let st' := place_line need_header st line_link in
      st' :: placed_states need_header st' rest
  end.

End Drawing.

(** Everything sent to cairo, in order. *)
Definition cairo_log (tr : list call_record) : list cairo_op :=
  concat (map the_ops tr).

(** Page, column and vertical position of every line drawn, read off the
    calls: the page is the one of the latest [start_page]. *)
Fixpoint assignments_from (page : Z) (tr : list call_record) : list (Z * Z * Z) :=
  match tr with
  | [] => []
  | r :: rest =>
      match the_call r with
      | call_start_page page_idx => assignments_from page_idx rest
      | call_draw_line_to_page column_idx column_pos _ =>
          (page, column_idx, column_pos) :: assignments_from page rest
      | _ => assignments_from page rest
      end
  end.

Definition assignments (tr : list call_record) : list (Z * Z * Z) :=
  assignments_from 0 tr.

Definition is_eject_column (c : call) : bool :=
  match c with call_eject_column _ => true | _ => false end.

(** The transformation matrix of cairo, as far as [paps.c] shapes it: the
    transformations applied since the last [cairo_identity_matrix].  The
    result lists every line shown with the matrix in force at that moment. *)
Fixpoint shows_with_ctm (ctm : list cairo_op) (ops : list cairo_op)
  : list (list cairo_op * PangoLayoutLine) :=
  match ops with
  | [] => []
  | op :: rest =>
      match op with
      | cairo_identity_matrix => shows_with_ctm [] rest
      | cairo_translate _ _ | cairo_rotate_half_pi | cairo_scale _ _ =>
          shows_with_ctm (ctm ++ [op]) rest
      | pango_cairo_show_layout_line line => (ctm, line) :: shows_with_ctm ctm rest
      | _ => shows_with_ctm ctm rest
      end
  end.

Definition is_scale (op : cairo_op) : bool :=
  match op with cairo_scale _ _ => true | _ => false end.

Section Rendering.

Variable output_format : output_format_t.
Variable header_line : Z -> Z -> PangoLayoutLine.
Variable layout_lines : PangoLayout -> list PangoLayoutLine.

(** The end of [main]: the paragraphs are split into lines, the scale is
    handed to cairo, the pages are put out.  The result is the cairo log. *)
Definition render (page_layout : page_layout_t) (paragraphs : list Paragraph)
           (do_draw_header : bool) : list cairo_op :=
  let (page_layout', pango_lines) :=
    Lines.split_paragraphs_into_lines layout_lines page_layout paragraphs in
  cairo_scale (scale_x page_layout') (scale_y page_layout')
  :: cairo_log (trace (output_pages output_format header_line
                                    pango_lines page_layout' do_draw_header)).

End Rendering.

(** The page layout without what [draw_page_header_line_to_page] writes
    into it. *)
Definition forget_header (page_layout : page_layout_t) : page_layout_t :=
  set_header_height page_layout 0.

(** Page, column and vertical position a state stands at. *)
Definition assignment_of (st : flow_state) : Z * Z * Z :=
  (page_idx st, column_idx st, column_y_pos st).

(** The page of the latest [start_page] of a trace. *)
Fixpoint last_page (page : Z) (tr : list call_record) : Z :=
  match tr with
  | [] => page
  | r :: rest =>
      match the_call r with
      | call_start_page page_idx => last_page page_idx rest
      | _ => last_page page rest
      end
  end.

(** The form-feed flags of the lines of one paragraph, as the data model
    words them: set on the last line of a paragraph that a form feed ends,
    and nowhere else. *)
Definition last_line_flags (para_formfeed : Z) (num_lines : nat) : list Z :=
  match num_lines with
  | O => []
  | S n => repeat 0 n ++ [if para_formfeed =? 0 then 0 else 1]
  end.

(** Two runs stand at the same place: same cursor, same previous line, the
    same geometry where the loop reads it, and the same lines drawn so far
    at the same places. *)
Definition same_cursor (s1 s2 : flow_state) : Prop :=
  column_idx s1 = column_idx s2 /\
  column_y_pos s1 = column_y_pos s2 /\
  page_idx s1 = page_idx s2 /\
  prev_line_link s1 = prev_line_link s2 /\
  lpi (layout s1) = lpi (layout s2) /\
  num_columns (layout s1) = num_columns (layout s2) /\
  column_height (layout s1) = column_height (layout s2) /\
  last_page 0 (trace s1) = page_idx s1 /\
  last_page 0 (trace s2) = page_idx s2 /\
  assignments (trace s1) = assignments (trace s2).

(** A call that a run with one column makes: no [eject_column], and lines
    are drawn in column 0 at the left margin, set flush right in the column
    when the direction is right to left. *)
Definition one_column_call (page_layout : page_layout_t) (r : call_record) : Prop :=
  match the_call r with
  | call_eject_column _ => False
  | call_draw_line_to_page column_idx column_pos line =>
      column_idx = 0 /\
      the_ops r
      = [cairo_move_to
           (inject_Z (left_margin page_layout
                      + (if is_rtl page_layout
                         then column_width page_layout
                              - Z.quot (rect_width (line_logical line)) PANGO_SCALE
                         else 0)))
           (inject_Z (line_y page_layout column_pos));
         pango_cairo_show_layout_line line]
  | _ => True
  end.

Definition no_scale (ops : list cairo_op) : bool :=
  forallb (fun op => negb (is_scale op)) ops.

End Flow.

(** ** Layouts and inputs of the examples *)

Module Examples.
Import Utf8 Segmenter.

(** The layout the examples run under: the defaults of [main] for A4 paper
    with one column; [lpi], [cpi], direction and the flags vary. *)
Definition example_layout (width columns : Z) (dir : PangoDirection)
           (lines_per_inch chars_per_inch : Q) (stretch cups : bool) : page_layout_t :=
  {| column_width := width; column_height := 769; num_columns := columns;
     gutter_width := 40;
     top_margin := 36; bottom_margin := 36; left_margin := 36; right_margin := 36;
     page_width := 59528 # 100; page_height := 84189 # 100;
     header_sep := 0; header_height := 0; footer_height := 0;
     scale_x := 1; scale_y := 1;
     do_landscape := false; do_justify := false; do_separation_line := true;
     do_wordwrap := true; do_use_markup := false; do_stretch_chars := stretch;
     pango_dir := dir; lpi := lines_per_inch; cpi := chars_per_inch;
     cups_mode := cups |}.

Definition plain_layout : page_layout_t :=
  example_layout 523 1 PANGO_DIRECTION_LTR 0 0 false false.

(** Ten characters per inch on a column of 360 points. *)
Definition cpi_layout_360 : page_layout_t :=
  example_layout 360 1 PANGO_DIRECTION_LTR 0 10 false false.

(** The characters of a piece of text, [None] where they do not decode. *)
Definition chars_of (txt : list Z) : option (list Z) :=
  g_utf8_to_ucs4 txt 0 (Z.of_nat (length txt)).

(** Offset, character count and cells of the text each paragraph hands to
    Pango. *)
Definition fragment_summary (para : Paragraph) : nat * option (nat * Z) :=
  (para_text para,
   option_map (fun wtext => (length wtext, cells wcwidth_utf8 wtext))
              (chars_of (layout_text (para_layout para)))).

Definition fragments (r : outcome (list Paragraph))
  : outcome (list (nat * option (nat * Z))) :=
  paragraphs <- r ;; Ok (map fragment_summary paragraphs).

(** The paragraph the branch without CPI emits at [p] for a character that
    is not a form feed. *)
Definition boundary_paragraph (page_layout : page_layout_t) (text : list Z)
           (st : scan_state) : Paragraph :=
  {| para_text := last_para st;
     para_length := Z.of_nat (p st) - Z.of_nat (last_para st);
     para_height := 0;
     para_formfeed := 0;
     para_layout :=
       wrapped_layout page_layout false
                      (slice text (last_para st) (p st)) (paint_width st) |}.

(** A CUPS filter run of the same layout. *)
Definition cups_layout : page_layout_t :=
  example_layout 523 1 PANGO_DIRECTION_LTR 0 0 false true.

(** "a", the stray continuation byte 0x80, "b", newline. *)
Definition text_with_invalid_byte : list Z := [97; 128; 98; 10].

(** The scanner standing on the invalid byte, "a" accumulated. *)
Definition at_invalid_byte : scan_state :=
  {| p := 1; last_para := 0; paint_width := 523; result := [] |}.

(** 120 times the letter "a" (one cell each), newline. *)
Definition ascii_120 : list Z := repeat 97 120 ++ [newline].

(** 60 times HIRAGANA LETTER A, U+3042 (two cells each), newline. *)
Definition wide_60 : list Z := concat (repeat [227; 129; 130] 60) ++ [newline].

(** Pango is not asked for widths that matter in these runs. *)
Definition no_extents (txt : list Z) : Z := 0.

(** A shaped line of the given logical width and height, in Pango units. *)
Definition shaped_line (width height : Z) : PangoLayoutLine :=
  {| line_ink := {| rect_x := 0; rect_y := 0; rect_width := width; rect_height := height |};
     line_logical :=
       {| rect_x := 0; rect_y := 0; rect_width := width; rect_height := height |} |}.

Definition line_link_of (line : PangoLayoutLine) (flag : Z) : LineLink :=
  {| pango_line := line; logical_rect := line_logical line;
     ink_rect := line_ink line; formfeed := flag |}.

(** A stand-in for the shaping engine: one line for every byte of the text,
    50 points wide and as many points high as the value of the byte. *)
Definition toy_lines (l : PangoLayout) : list PangoLayoutLine :=
  map (fun c => shaped_line (50 * PANGO_SCALE) (c * PANGO_SCALE)) (layout_text l).

(** A header of three lines 100 points wide and 12 points high. *)
Definition toy_header (page index : Z) : PangoLayoutLine :=
  shaped_line (100 * PANGO_SCALE) (12 * PANGO_SCALE).

Definition toy_paragraph (heights : list Z) (flag : Z) : Paragraph :=
  {| para_text := 0; para_length := 0; para_height := 0; para_formfeed := flag;
     para_layout := {| layout_text := heights; layout_is_markup := false;
                       layout_width := -1; layout_wrap := PANGO_WRAP_WORD;
                       layout_justify := false;
                       layout_alignment := PANGO_ALIGN_LEFT |} |}.

(** The cursor of [output_pages] at a given place, nothing drawn yet. *)
Definition cursor (column y page : Z) (prev : option LineLink)
           (page_layout : page_layout_t) : Flow.flow_state :=
  {| Flow.column_idx := column; Flow.column_y_pos := y; Flow.page_idx := page;
     Flow.prev_line_link := prev; Flow.layout := page_layout; Flow.trace := [] |}.

(** Three columns of 150 points, left to right and right to left. *)
Definition three_columns (dir : PangoDirection) : page_layout_t :=
  example_layout 150 3 dir 0 0 false false.

(** One column, right to left. *)
Definition one_column_rtl : page_layout_t :=
  example_layout 523 1 PANGO_DIRECTION_RTL 0 0 false false.

(** Six lines per inch, characters stretched. *)
Definition lpi_6_stretched : page_layout_t :=
  example_layout 523 1 PANGO_DIRECTION_LTR 6 0 true false.

(** A line 50 points wide and 12 points high. *)
Definition line_12pt : LineLink := line_link_of (shaped_line 51200 12288) 0.

(** The same line, ending a paragraph that a form feed closes. *)
Definition line_12pt_formfeed : LineLink := line_link_of (shaped_line 51200 12288) 1.

(** A line 50 points wide and 14 points high. *)
Definition line_14pt : LineLink := line_link_of (shaped_line 51200 14336) 0.

(** Two paragraphs of one line each, 10 and 14 points high. *)
Definition paragraphs_10_14 : list Paragraph :=
  [toy_paragraph [10] 0; toy_paragraph [14] 0].

(** Six lines per inch, 13 points left in the column. *)
Definition cursor_13pt_left : Flow.flow_state :=
  cursor 0 ((769 - 13) * PANGO_SCALE) 1 None lpi_6_stretched.

(** Natural line heights, 12 points left in the column. *)
Definition cursor_12pt_left : Flow.flow_state :=
  cursor 0 ((769 - 12) * PANGO_SCALE) 1 None plain_layout.

(** "A", newline, "B", form feed, " C", newline. *)
Definition text_a_b_c : list Z := [65; 10; 66; 12; 32; 67; 10].

(** A stand-in for the shaping engine that sets every paragraph on one line
    of 12 points, 6 points wide for each byte. *)
Definition single_line (l : PangoLayout) : list PangoLayoutLine :=
  [shaped_line (6 * Z.of_nat (length (layout_text l)) * PANGO_SCALE) (12 * PANGO_SCALE)].

(** One column that is 20 points high: room for one line of 12 points. *)
Definition one_line_pages : page_layout_t :=
  {| column_width := 523; column_height := 20; num_columns := 1; gutter_width := 40;
     top_margin := 36; bottom_margin := 36; left_margin := 36; right_margin := 36;
     page_width := 59528 # 100; page_height := 92;
     header_sep := 0; header_height := 0; footer_height := 0;
     scale_x := 1; scale_y := 1;
     do_landscape := false; do_justify := false; do_separation_line := true;
     do_wordwrap := true; do_use_markup := false; do_stretch_chars := false;
     pango_dir := PANGO_DIRECTION_LTR; lpi := 0; cpi := 0; cups_mode := false |}.

(** A converter whose output is empty, as [g_iconv] leaves it for a chunk
    that holds nothing but shift sequences. *)
Definition empty_conversion (bytes : list Z) : option (list Z) := Some [].

(** A tenth of a character per inch: the budget of a column of 523 points
    is no character at all. *)
Definition cpi_budget_zero : page_layout_t :=
  example_layout 523 1 PANGO_DIRECTION_LTR 0 (1 # 10) false false.


End Examples.

(** ** Reference functions for the further properties *)

Module Reference.
Import Utf8 Segmenter.

Definition is_boundary (c : Z) : bool := (c =? newline) || (c =? formfeed_char).

(** The runs of a text of one-byte characters: for every newline or form
    feed the offset of the run it ends, the bytes of the run, and 1 for a
    form feed.  [cur] is the run read so far, [start] its offset.  What
    follows the last boundary is no run. *)
Fixpoint text_runs (start : nat) (cur : list Z) (rest : list Z)
  : list (nat * list Z * Z) :=
  match rest with
  | [] => []
  | c :: rest' =>
      if is_boundary c
      then (start, cur, if c =? formfeed_char then 1 else 0)
             :: text_runs (start + length cur + 1) [] rest'
      else text_runs start (cur ++ [c]) rest'
  end.

(** The paragraph of a run, in the branch without CPI. *)
Definition paragraph_of_run (page_layout : page_layout_t) (paint_w : Z)
           (run : nat * list Z * Z) : Paragraph :=
  let '(start, bytes, flag) := run in
  {| para_text := start;
     para_length := Z.of_nat (length bytes);
     para_height := 0;
     para_formfeed := flag;
     para_layout := wrapped_layout page_layout false bytes paint_w |}.

(** A paragraph with the byte that ended it. *)
Definition with_boundary (para : Paragraph) : list Z :=
  layout_text (para_layout para)
  ++ [if para_formfeed para =? 0 then newline else formfeed_char].

Definition is_ascii (c : Z) : Prop := 0 < c < 128.

(** A file given line by line: every line followed by its newline, and then
    what follows the last newline. *)
Definition file_of_lines (lines : list (list Z)) (tail : list Z) : list Z :=
  concat (map (fun line => line ++ [newline]) lines) ++ tail.

(** The same file with every line, its newline included, cut at its first
    NUL byte. *)
Definition lines_cut_at_nul (lines : list (list Z)) (tail : list Z) : list Z :=
  concat (map (fun line => ReadFile.c_str (line ++ [newline])) lines)
  ++ ReadFile.c_str tail.

End Reference.

(** ** Readings of the trace of [output_pages] *)

Module TraceReading.

(** The lines handed to [draw_line_to_page], in the order of the calls. *)
Fixpoint drawn_lines (tr : list call_record) : list PangoLayoutLine :=
  match tr with
  | [] => []
  | r :: rest =>
      match the_call r with
      | call_draw_line_to_page _ _ line => line :: drawn_lines rest
      | _ => drawn_lines rest
      end
  end.

(** The page numbers handed to [start_page], in the order of the calls. *)
Fixpoint started_pages (tr : list call_record) : list Z :=
  match tr with
  | [] => []
  | r :: rest =>
      match the_call r with
      | call_start_page page_idx => page_idx :: started_pages rest
      | _ => started_pages rest
      end
  end.

(** The page numbers handed to [draw_page_header_line_to_page]. *)
Fixpoint header_pages (tr : list call_record) : list Z :=
  match tr with
  | [] => []
  | r :: rest =>
      match the_call r with
      | call_draw_page_header page => page :: header_pages rest
      | _ => header_pages rest
      end
  end.

(** The number of calls of [eject_page]. *)
Fixpoint ejected_pages (tr : list call_record) : nat :=
  match tr with
  | [] => O
  | r :: rest =>
      match the_call r with
      | call_eject_page => S (ejected_pages rest)
      | _ => ejected_pages rest
      end
  end.

(** The pages 1, 2, ..., n. *)
Definition pages_up_to (n : nat) : list Z := map Z.of_nat (seq 1 n).

(** Reading order of places: an earlier page, or the same page and an
    earlier column, or the same column and not further down. *)
Definition not_after (a b : Z * Z * Z) : Prop :=
  let '(page_a, column_a, y_a) := a in
  let '(page_b, column_b, y_b) := b in
  page_a < page_b
  \/ (page_a = page_b /\ column_a < column_b)
  \/ (page_a = page_b /\ column_a = column_b /\ y_a <= y_b).

(** The pages of a run so far: [k] pages started, numbered 1 to [k], the
    first [k - 1] of them ejected, a header drawn on each if headers are
    wanted. *)
Definition pages_so_far (need_header : bool) (st : Flow.flow_state) (k : nat) : Prop :=
  (1 <= k)%nat
  /\ Flow.page_idx st = Z.of_nat k
  /\ started_pages (Flow.trace st) = pages_up_to k
  /\ ejected_pages (Flow.trace st) = (k - 1)%nat
  /\ header_pages (Flow.trace st) = (if need_header then pages_up_to k else []).

(** A link carries the extents of its own line. *)
Definition own_extents (l : LineLink) : Prop :=
  logical_rect l = line_logical (pango_line l) /\ ink_rect l = line_ink (pango_line l).

End TraceReading.

(** ** Option callbacks and [get_language] *)

Module Options.

Inductive paper_type_t :=
  PAPER_TYPE_A4 | PAPER_TYPE_US_LETTER | PAPER_TYPE_US_LEGAL | PAPER_TYPE_A3.

(** [paper_sizes[]]: width and height in points. *)
Definition paper_sizes (paper_type : paper_type_t) : Q * Q :=
  match paper_type with
  | PAPER_TYPE_A4 => (59528 # 100, 84189 # 100)
  | PAPER_TYPE_US_LETTER => (612 # 1, 792 # 1)
  | PAPER_TYPE_US_LEGAL => (612 # 1, 1008 # 1)
  | PAPER_TYPE_A3 => (842 # 1, 1190 # 1)
  end.

(** [g_ascii_tolower] of GLib. *)
Definition g_ascii_tolower (c : Z) : Z :=
  if (65 <=? c) && (c <=? 90) then c + 32 else c.

(** [g_ascii_strcasecmp] of GLib on two C strings: the difference of the
    first two lowered bytes that differ, NUL standing for the end. *)
Fixpoint g_ascii_strcasecmp (s1 s2 : list Z) : Z :=
  match s1, s2 with
  | c1 :: r1, c2 :: r2 =>
      if g_ascii_tolower c1 =? g_ascii_tolower c2
      then g_ascii_strcasecmp r1 r2
      else g_ascii_tolower c1 - g_ascii_tolower c2
  | [], [] => 0
  | [], c2 :: _ => 0 - c2
  | c1 :: _, [] => c1 - 0
  end.

(* "legal", "letter", "a4", "a3" *)
Definition str_legal : list Z := [108; 101; 103; 97; 108].
Definition str_letter : list Z := [108; 101; 116; 116; 101; 114].
Definition str_a4 : list Z := [97; 52].
Definition str_a3 : list Z := [97; 51].
(* "pdf", "ps", "postscript", "svg" *)
Definition str_pdf : list Z := [112; 100; 102].
Definition str_ps : list Z := [112; 115].
Definition str_postscript : list Z := [112; 111; 115; 116; 115; 99; 114; 105; 112; 116].
Definition str_svg : list Z := [115; 118; 103].

(** [_paps_arg_paper_cb]: the value ([None] for NULL) and the global
    [paper_type] go in, the return value and the global come out. *)
Definition _paps_arg_paper_cb (value : option (list Z)) (paper_type : paper_type_t)
  : bool * paper_type_t :=
  match value with
  | Some ((_ :: _) as v) =>
      if g_ascii_strcasecmp v str_legal =? 0 then (true, PAPER_TYPE_US_LEGAL)
      else if g_ascii_strcasecmp v str_letter =? 0 then (true, PAPER_TYPE_US_LETTER)
      else if g_ascii_strcasecmp v str_a4 =? 0 then (true, PAPER_TYPE_A4)
      else if g_ascii_strcasecmp v str_a3 =? 0 then (true, PAPER_TYPE_A3)
      else (false, paper_type)
  | _ => (false, paper_type)
  end.

(** [_paps_arg_format_cb], with the global [output_format]. *)
Definition _paps_arg_format_cb (value : option (list Z)) (output_format : output_format_t)
  : bool * output_format_t :=
  match value with
  | Some ((_ :: _) as v) =>
      if g_ascii_strcasecmp v str_pdf =? 0 then (true, FORMAT_PDF)
      else if (g_ascii_strcasecmp v str_ps =? 0)
              || (g_ascii_strcasecmp v str_postscript =? 0)
      then (true, FORMAT_POSTSCRIPT)
      else if g_ascii_strcasecmp v str_svg =? 0 then (true, FORMAT_SVG)
      else (false, output_format)
  | _ => (false, output_format)
  end.

(** [strchr (lang, c)] followed by [*p = 0]: the string is cut at the first
    [c], if there is one. *)
Fixpoint cut_at (c : Z) (lang : list Z) : list Z :=
  match lang with
  | [] => []
  | x :: rest => if x =? c then [] else x :: cut_at c rest
  end.

(** The string [get_language] hands to [pango_language_from_string], from
    the locale name that [setlocale] returns. *)
Definition get_language (locale : list Z) : list Z :=
  cut_at 64 (cut_at 46 locale).   (* '@', '.' *)

End Options.

(** ** The page size in main *)

Module PageSetup.
Import Options.

(** The size handed to the cairo surface and the size written into the
    page layout. *)
Record page_size := {
  surface_page_width : Q;
  surface_page_height : Q;
  layout_page_width : Q;
  layout_page_height : Q
}.

(** [main]: a size not given on the command line (negative) comes from
    [paper_sizes]; the surface swaps width and height for landscape unless
    the format is PostScript; the layout swaps them for landscape through
    [int tmp], which drops the fraction of the width. *)
Definition main_page_size (page_width page_height : Q) (paper_type : paper_type_t)
           (output_format : output_format_t) (do_landscape : bool) : page_size :=
  let page_width :=
    if Qnum page_width <? 0 then fst (paper_sizes paper_type) else page_width in
  let page_height :=
    if Qnum page_height <? 0 then snd (paper_sizes paper_type) else page_height in
  let swap_surface :=
    match output_format with
    | FORMAT_POSTSCRIPT => false
    | _ => do_landscape
    end in
  {| surface_page_width := if swap_surface then page_height else page_width;
     surface_page_height := if swap_surface then page_width else page_height;
     layout_page_width := if do_landscape then page_height else page_width;
     layout_page_height :=
       if do_landscape then inject_Z (Qtrunc page_width) else page_height |}.

End PageSetup.

(** * Theorems *)

Module ReadFileFacts.
Import ReadFile.

Lemma fgets_take_length (k : nat) (file : list Z) :
  (length (snd (fgets_take k file)) <= length file)%nat.
Proof.
  revert file; induction k as [|k IH]; intros [|c rest]; simpl; try lia.
  destruct (c =? newline); simpl; [lia|].
  specialize (IH rest). destruct (fgets_take k rest); simpl in *; lia.
Qed.

Lemma fgets_take_shrinks (k : nat) (c : Z) (rest : list Z) :
  (length (snd (fgets_take (S k) (c :: rest))) < length (c :: rest))%nat.
Proof.
  simpl. destruct (c =? newline); simpl; [lia|].
  pose proof (fgets_take_length k rest).
  destruct (fgets_take k rest); simpl in *; lia.
Qed.

Lemma read_loop_cons (fuel : nat) (c : Z) (rest inbuf : list Z) :
  read_loop None (S fuel) (c :: rest) inbuf =
  read_loop None fuel (snd (fgets_take 1022 (c :: rest)))
            (inbuf ++ c_str (fst (fgets_take 1022 (c :: rest)))).
Proof.
  cbn [read_loop fgets]. change (BUFSIZE - 1 - 1)%nat with 1022%nat.
  destruct (fgets_take 1022 (c :: rest)) as [buffer rest']. reflexivity.
Qed.

(** With the NULL handle the loop never exits and never runs out of the fuel
    [read_file] gives it. *)
Lemma read_loop_returns (fuel : nat) (file inbuf : list Z) :
  (length file < fuel)%nat ->
  exists out, read_loop None fuel file inbuf = Ok (inbuf ++ out).
Proof.
  revert file inbuf; induction fuel as [|fuel IH]; intros file inbuf Hlen; [lia|].
  destruct file as [|c rest].
  - exists []. simpl. now rewrite app_nil_r.
  - rewrite read_loop_cons.
    pose proof (fgets_take_shrinks 1021 c rest) as Hs.
    destruct (IH (snd (fgets_take 1022 (c :: rest)))
                 (inbuf ++ c_str (fst (fgets_take 1022 (c :: rest)))))
      as [out Hout]; [change (length (c :: rest)) with (S (length rest)) in *; lia|].
    exists (c_str (fst (fgets_take 1022 (c :: rest))) ++ out).
    now rewrite Hout, app_assoc.
Qed.

Lemma c_str_first_chunk (k : nat) (c : Z) (rest : list Z) :
  c <> 0 -> c_str (fst (fgets_take (S k) (c :: rest))) <> [].
Proof.
  intros Hc. apply Z.eqb_neq in Hc. simpl. destruct (c =? newline) eqn:E; simpl.
  - now rewrite Hc.
  - destruct (fgets_take k rest). simpl. now rewrite Hc.
Qed.

(** Where the trailing newline is added: a file whose first byte is not NUL
    is returned with a final newline. *)
Lemma read_file_ends_with_newline (c : Z) (rest : list Z) :
  c <> 0 ->
  exists text, read_file None (c :: rest) = Ok text /\ last text 0 = newline.
Proof.
  intros Hc. unfold read_file. rewrite read_loop_cons.
  pose proof (fgets_take_shrinks 1021 c rest) as Hs.
  pose proof (c_str_first_chunk 1021 c rest Hc) as Hne.
  destruct (read_loop_returns (length (c :: rest))
              (snd (fgets_take 1022 (c :: rest)))
              ([] ++ c_str (fst (fgets_take 1022 (c :: rest)))))
    as [out Hout]; [exact Hs|].
  rewrite Hout. cbn [bind app].
  destruct (c_str (fst (fgets_take 1022 (c :: rest))) ++ out) as [|b text] eqn:Ebuf.
  - apply app_eq_nil in Ebuf. tauto.
  - cbn [last_byte bind].
    destruct (last (b :: text) 0 =? newline) eqn:El; cbn [negb].
    + exists (b :: text). split; [reflexivity|]. now apply Z.eqb_eq.
    + exists ((b :: text) ++ [newline]). split; [reflexivity|]. apply last_last.
Qed.

(** The same happens with a converter when no chunk of the file converts to
    any byte: the buffer stays empty and the test reads outside it. *)
Lemma read_loop_empty_conversion (fuel : nat) (file : list Z) :
  (length file < fuel)%nat ->
  read_loop (Some Examples.empty_conversion) fuel file [] = Ok [].
Proof.
  revert file; induction fuel as [|fuel IH]; intros file Hlen; [lia|].
  destruct file as [|c rest]; [reflexivity|].
  cbn [read_loop fgets]. change (BUFSIZE - 1 - 1)%nat with 1022%nat.
  pose proof (fgets_take_shrinks 1021 c rest) as Hs.
  destruct (fgets_take 1022 (c :: rest)) as [buffer rest'] eqn:E.
  cbn [convert Examples.empty_conversion bind c_str app]. apply IH.
  change (length (c :: rest)) with (S (length rest)) in *.
  cbn [snd] in Hs. lia.
Qed.

Lemma read_file_empty_conversion (file : list Z) :
  read_file (Some Examples.empty_conversion) file = Undefined.
Proof.
  unfold read_file. rewrite read_loop_empty_conversion by lia. reflexivity.
Qed.

(** C10.  [read_file] is meant to return a buffer that ends with a newline
    for every non-empty input stream.  On the stream that holds the single
    byte NUL, [fgets] delivers a chunk whose C string is empty, nothing is
    appended to [inbuf], and the test [inbuf->str[inbuf->len-1] != '\n']
    reads outside the string: the run is undefined and no buffer ending with
    a newline is returned. *)
Theorem C10_read_file_nul_stream :
  read_file None [0] = Undefined /\
  (forall text, read_file None [0] = Ok text -> last text 0 = newline -> False).
Proof.
  split; [reflexivity|]. intros text H. discriminate H.
Qed.

End ReadFileFacts.

Module SegmenterFacts.
Import Utf8 Segmenter Examples.

Section ScannerFacts.

Variable wcwidth : Z -> Z.
Variable layout_extents_width : list Z -> Z.
Variable uninitialised : Z.

Lemma read_at_inside (text : list Z) (p : nat) :
  (byte_at text p =? 0) = false -> read_at text p = Ok (byte_at text p).
Proof.
  intros H. unfold read_at. destruct (length text <? p)%nat eqn:E; [|reflexivity].
  apply Nat.ltb_lt in E. unfold byte_at in H.
  rewrite nth_overflow in H by lia. discriminate H.
Qed.

(** One turn of the loop on a byte that is not the NUL. *)
Lemma scan_loop_turn (page_layout : page_layout_t) (text : list Z)
      (fuel : nat) (st : scan_state) :
  (byte_at text (p st) =? 0) = false ->
  scan_loop wcwidth layout_extents_width page_layout text (S fuel) st
  = (c <- scan_body wcwidth layout_extents_width page_layout text st ;;
     match c with
     | Continue st' => scan_loop wcwidth layout_extents_width page_layout text fuel st'
     | Break st' => Ok (result st')
     end).
Proof.
  intros H. cbn [scan_loop]. rewrite (read_at_inside _ _ H). cbn [bind].
  rewrite H. reflexivity.
Qed.

(** The loop ends at the terminating NUL. *)
Lemma scan_loop_end (page_layout : page_layout_t) (text : list Z)
      (fuel : nat) (st : scan_state) :
  p st = length text ->
  scan_loop wcwidth layout_extents_width page_layout text (S fuel) st = Ok (result st).
Proof.
  intros H. cbn [scan_loop]. unfold read_at, byte_at.
  rewrite H, Nat.ltb_irrefl, nth_overflow by lia. reflexivity.
Qed.

(** X22.  In CUPS mode the scanner steps over an invalid sequence by the
    length its first byte announces.  When that leads behind the terminating
    NUL the next test of the loop reads outside the buffer. *)
Lemma cups_skip_leaves_the_buffer (page_layout : page_layout_t) (text : list Z)
      (fuel : nat) (st : scan_state) :
  (byte_at text (p st) =? 0) = false ->
  g_utf8_get_char text (p st) = invalid_char ->
  cups_mode page_layout = true ->
  (length text < g_utf8_next_char text (p st))%nat ->
  scan_loop wcwidth layout_extents_width page_layout text (S (S fuel)) st = Undefined.
Proof.
  intros Hnul Hinv Hcups Hout. rewrite scan_loop_turn by exact Hnul.
  unfold scan_body. rewrite Hinv, Hcups, Z.eqb_refl. cbn [andb bind].
  cbn [scan_loop set_p p]. unfold read_at.
  apply Nat.ltb_lt in Hout. rewrite Hout. reflexivity.
Qed.

Lemma cells_cons (c : Z) (wtext : list Z) :
  cells wcwidth (c :: wtext)
  = (if 0 <=? wcwidth c then wcwidth c else 0) + cells wcwidth wtext.
Proof. reflexivity. Qed.

Lemma cells_nonneg (wtext : list Z) : 0 <= cells wcwidth wtext.
Proof.
  induction wtext as [|c wtext IH]; [discriminate|].
  rewrite cells_cons. destruct (0 <=? wcwidth c) eqn:E; [apply Z.leb_le in E|]; lia.
Qed.

(** The wrapping loop stops at the longest prefix whose cells fit: started
    at index [i] with [wwidth] cells counted, it takes [k] more characters,
    these fit, and one more would not. *)
Lemma wrap_prefix_longest (wtext : list Z) (col wwidth : Z) (i : nat) :
  wwidth <= col ->
  exists k : nat,
    wrap_prefix wcwidth wtext col wwidth i = (i + k)%nat /\
    (k <= length wtext)%nat /\
    wwidth + cells wcwidth (firstn k wtext) <= col /\
    ((k < length wtext)%nat -> col < wwidth + cells wcwidth (firstn (S k) wtext)).
Proof.
  revert wwidth i; induction wtext as [|c wtext IH]; intros wwidth i Hle.
  - exists 0%nat. cbn. repeat split; try lia.
  - cbn [wrap_prefix].
    set (w := if 0 <=? wcwidth c then wwidth + wcwidth c else wwidth).
    assert (Hw : w = wwidth + (if 0 <=? wcwidth c then wcwidth c else 0))
      by (subst w; destruct (0 <=? wcwidth c); lia).
    destruct (col <? w) eqn:E.
    + apply Z.ltb_lt in E. exists 0%nat.
      repeat split; cbn [firstn length]; try lia.
      * cbn. lia.
      * intros _. rewrite cells_cons. cbn [firstn cells fold_right]. lia.
    + apply Z.ltb_ge in E. destruct (IH w (S i) E) as (k & Hk & Hlen & Hfit & Hnext).
      exists (S k). repeat split.
      * rewrite Hk. lia.
      * cbn [length]. lia.
      * cbn [firstn]. rewrite cells_cons. lia.
      * intros Hlt. cbn [length] in Hlt.
        change (firstn (S (S k)) (c :: wtext)) with (c :: firstn (S k) wtext).
        rewrite cells_cons. specialize (Hnext ltac:(lia)). lia.
Qed.

(** When the re-wrap cuts a paragraph, the paragraph emitted holds the
    characters before the cut, and the scan goes on at the cut: the rest of
    the text starts the next paragraph there. *)
Lemma rewrap_resumes_at_cut (page_layout : page_layout_t) (text : list Z)
      (st : scan_state) (wc : Z) (next : nat) (wtext : list Z) (q : nat) :
  Qpositive (cpi page_layout) && do_wordwrap page_layout = true ->
  g_utf8_to_ucs4 text (last_para st) (Z.of_nat (p st) - Z.of_nat (last_para st))
  = Some wtext ->
  (cpi_columns page_layout
   <? g_utf8_strlen text (last_para st) (Z.of_nat (p st) - Z.of_nat (last_para st)))
  = true ->
  let i := wrap_prefix wcwidth wtext (cpi_columns page_layout) 0 0 in
  let cut := g_utf8_offset_to_pointer text (last_para st) i in
  g_utf8_prev_char text cut = Ok q ->
  (g_utf8_get_char text q =? 0) = false ->
  exists para,
    emit_paragraph wcwidth layout_extents_width page_layout text st wc next
    = Ok (Continue {| p := cut; last_para := cut;
                      paint_width :=
                        Z.quot (layout_extents_width (slice text (last_para st) cut))
                               PANGO_SCALE;
                      result := para :: result st |})
    /\ para_text para = last_para st
    /\ para_length para = Z.of_nat i
    /\ layout_text (para_layout para) = slice text (last_para st) cut
    /\ layout_width (para_layout para) = -1.
Proof.
  intros Hcpi Hwtext Hlen i cut Hprev Hwc.
  unfold emit_paragraph. rewrite Hcpi, Hwtext, Hlen.
  fold i. fold cut. rewrite Hprev. cbn [bind]. unfold close_paragraph.
  rewrite Hwc. eexists. split; [reflexivity|]. repeat split.
Qed.

Section AtInvalid.

Variable page_layout : page_layout_t.
Variable text : list Z.

(** C4, as the code has it.  At an invalid codepoint the scanner of a build
    or run without CUPS mode and without CPI re-wrapping emits the paragraph
    accumulated so far and halts: what follows in the buffer is not scanned.
    In CUPS mode the invalid sequence is no boundary: it is skipped, and
    when the skip ends inside the buffer the scan goes on behind it with the
    accumulated paragraph still open. *)
Theorem C4_invalid_codepoint_halts (fuel : nat) (st : scan_state) :
  (byte_at text (p st) =? 0) = false ->
  g_utf8_get_char text (p st) = invalid_char ->
  (cups_mode page_layout = false ->
   Qpositive (cpi page_layout) && do_wordwrap page_layout = false ->
   scan_loop wcwidth layout_extents_width page_layout text (S fuel) st
   = Ok (boundary_paragraph page_layout text st :: result st))
  /\
  (cups_mode page_layout = true ->
   (g_utf8_next_char text (p st) <= length text)%nat ->
   scan_loop wcwidth layout_extents_width page_layout text (S fuel) st
   = scan_loop wcwidth layout_extents_width page_layout text fuel
               {| p := g_utf8_next_char text (p st); last_para := last_para st;
                  paint_width := paint_width st; result := result st |}).
Proof.
  intros Hnul Hinv. split.
  - intros Hcups Hcpi. rewrite scan_loop_turn by exact Hnul.
    unfold scan_body. rewrite Hinv, Hcups, Z.eqb_refl. cbn [andb].
    rewrite Hnul. cbn [orb Z.eqb].
    unfold emit_paragraph. rewrite Hcpi. cbn [bind close_paragraph Z.eqb result].
    reflexivity.
  - intros Hcups _. rewrite scan_loop_turn by exact Hnul.
    unfold scan_body. rewrite Hinv, Hcups, Z.eqb_refl. reflexivity.
Qed.

End AtInvalid.

End ScannerFacts.

Lemma C4_invalid_codepoint_halts_witness :
  (* without CUPS mode: the paragraph "a", and the scan is over *)
  scan_loop wcwidth_utf8 no_extents plain_layout text_with_invalid_byte 1 at_invalid_byte
  = Ok [boundary_paragraph plain_layout text_with_invalid_byte at_invalid_byte]
  /\
  (* in CUPS mode: one paragraph at the newline, which holds all three bytes *)
  scan_loop wcwidth_utf8 no_extents cups_layout text_with_invalid_byte 4 at_invalid_byte
  = Ok [boundary_paragraph cups_layout text_with_invalid_byte
          {| p := 3; last_para := 0; paint_width := 523; result := [] |}]
  /\
  layout_text (para_layout
                 (boundary_paragraph cups_layout text_with_invalid_byte
                    {| p := 3; last_para := 0; paint_width := 523; result := [] |}))
  = [97; 128; 98].
Proof.
  split; [|split; [|reflexivity]].
  - apply (proj1 (C4_invalid_codepoint_halts wcwidth_utf8 no_extents plain_layout
                    text_with_invalid_byte 0 at_invalid_byte eq_refl eq_refl));
      reflexivity.
  - rewrite (proj2 (C4_invalid_codepoint_halts wcwidth_utf8 no_extents cups_layout
                      text_with_invalid_byte 3 at_invalid_byte eq_refl eq_refl)
                   eq_refl);
      [reflexivity|cbn; lia].
Defined.

(** In CUPS mode on "caf", 0xE9, newline: the byte 0xE9 announces three
    bytes, two are left, and the step over it ends behind the terminating
    NUL. *)
Lemma cups_skip_leaves_the_buffer_witness :
  split_text_into_paragraphs wcwidth_utf8 no_extents 0 cups_layout
                             [99; 97; 102; 233; 10] 100 523
  = Undefined.
Proof.
  unfold split_text_into_paragraphs. change (do_use_markup cups_layout) with false.
  cbv iota.
  assert (Hwalk : scan_loop wcwidth_utf8 no_extents cups_layout [99; 97; 102; 233; 10] 100
                            {| p := 0; last_para := 0; paint_width := 523; result := [] |}
                  = scan_loop wcwidth_utf8 no_extents cups_layout [99; 97; 102; 233; 10] 97
                              {| p := 3; last_para := 0; paint_width := 523; result := [] |})
    by reflexivity.
  rewrite Hwalk.
  rewrite (cups_skip_leaves_the_buffer wcwidth_utf8 no_extents cups_layout
             [99; 97; 102; 233; 10] 95
             {| p := 3; last_para := 0; paint_width := 523; result := [] |});
    [reflexivity|reflexivity|reflexivity|reflexivity|cbn; lia].
Defined.

(** C4 as the claim words it fails: in the buffer "a", 0x80, "b", newline the
    byte at offset 1 is an invalid codepoint; the scan emits the paragraph
    "a" and stops there, and no paragraph is emitted for the "b" that
    follows. *)
Lemma C4_scan_does_not_continue :
  g_utf8_get_char text_with_invalid_byte 1 = invalid_char /\
  fragments (split_text_into_paragraphs wcwidth_utf8 no_extents 0 plain_layout
               text_with_invalid_byte 100 523)
  = Ok [(0%nat, Some (1%nat, 1))] /\
  ~ (exists paragraphs para,
        split_text_into_paragraphs wcwidth_utf8 no_extents 0 plain_layout
          text_with_invalid_byte 100 523 = Ok paragraphs /\
        In para paragraphs /\ para_text para = 2%nat).
Proof.
  split; [reflexivity|]. split; [reflexivity|].
  intros (paragraphs & para & Hrun & Hin & Hoff).
  vm_compute in Hrun. injection Hrun as <-.
  destruct Hin as [<-|[]]. discriminate Hoff.
Qed.

(** The budget of the scenario: ten characters per inch on 360 points. *)
Lemma cpi_budget_50 : cpi_columns cpi_layout_360 = 50.
Proof. reflexivity. Qed.

(** On one-cell characters the re-wrap does what the scenario says: 120
    letters come out as three fragments of 50, 50 and 20 cells. *)
Lemma cpi_rewrap_ascii_120 :
  fragments (split_text_into_paragraphs wcwidth_utf8 no_extents 0 cpi_layout_360
               ascii_120 1000 360)
  = Ok [(0%nat, Some (50%nat, 50)); (50%nat, Some (50%nat, 50));
        (100%nat, Some (20%nat, 20))].
Proof. vm_compute. reflexivity. Qed.

(** C2.  The budget is 50 cells, and the paragraph of 60 two-cell characters
    takes 120 cells.  The scanner compares the number of characters, not of
    cells, with the budget: the first pass cuts after 25 characters (50
    cells), the remaining 35 characters are not more than 50, so they are
    handed on whole, as a fragment of 70 cells.  Two fragments come out, one
    of them over the budget. *)
Theorem C2_wide_paragraph_over_budget :
  cpi_columns cpi_layout_360 = 50 /\
  option_map (cells wcwidth_utf8) (chars_of (removelast wide_60)) = Some 120 /\
  fragments (split_text_into_paragraphs wcwidth_utf8 no_extents 0 cpi_layout_360
               wide_60 1000 360)
  = Ok [(0%nat, Some (25%nat, 50)); (75%nat, Some (35%nat, 70))].
Proof. vm_compute. repeat split. Qed.

End SegmenterFacts.

Module FlowFacts.
Import Lines Flow Examples.

Lemma Qtrunc_floor (q : Q) : (0 <= q)%Q -> Qtrunc q = Qfloor q.
Proof.
  destruct q as [n d]. unfold Qle, Qtrunc, Qfloor. cbn. intros H.
  apply Z.quot_div_nonneg; lia.
Qed.

Lemma Qpositive_lt (q : Q) : Qpositive q = true -> (0 < q)%Q.
Proof.
  destruct q as [n d]. unfold Qpositive, Qlt. cbn. intros H.
  apply Z.ltb_lt in H. lia.
Qed.

Lemma lpi_height_nonneg (q : Q) :
  Qpositive q = true -> (0 <= 1 / q * 72 * inject_Z PANGO_SCALE)%Q.
Proof.
  intros H. apply Qpositive_lt in H.
  apply Qmult_le_0_compat; [apply Qmult_le_0_compat|]; try discriminate.
  unfold Qdiv. rewrite Qmult_1_l. apply Qinv_le_0_compat. now apply Qlt_le_weak.
Qed.

Section StepFacts.

Variable output_format : output_format_t.
Variable header_line : Z -> Z -> PangoLayoutLine.

#[local] Abbreviation place_line := (place_line output_format header_line).
#[local] Abbreviation break_column := (break_column output_format header_line).
#[local] Abbreviation header_if_needed := (header_if_needed header_line).

Lemma header_if_needed_fields (need_header : bool) (st : flow_state) :
  column_idx (header_if_needed need_header st) = column_idx st /\
  column_y_pos (header_if_needed need_header st) = column_y_pos st /\
  page_idx (header_if_needed need_header st) = page_idx st /\
  prev_line_link (header_if_needed need_header st) = prev_line_link st /\
  forget_header (layout (header_if_needed need_header st)) = forget_header (layout st).
Proof. destruct need_header; cbn; repeat split; reflexivity. Qed.

(** What a break does to the cursor. *)
Lemma break_column_fields (need_header : bool) (st : flow_state) :
  column_y_pos (break_column need_header st) = 0 /\
  prev_line_link (break_column need_header st) = prev_line_link st /\
  forget_header (layout (break_column need_header st)) = forget_header (layout st) /\
  (if column_idx st + 1 =? num_columns (layout st)
   then column_idx (break_column need_header st) = 0 /\
        page_idx (break_column need_header st) = page_idx st + 1
   else column_idx (break_column need_header st) = column_idx st + 1 /\
        page_idx (break_column need_header st) = page_idx st).
Proof.
  unfold Flow.break_column.
  destruct (column_idx st + 1 =? num_columns (layout st)).
  - destruct need_header; cbn; repeat split; reflexivity.
  - cbn. repeat split; reflexivity.
Qed.

Lemma forget_header_fields (a b : page_layout_t) :
  forget_header a = forget_header b ->
  lpi a = lpi b /\ num_columns a = num_columns b /\
  column_height a = column_height b /\ column_width a = column_width b /\
  gutter_width a = gutter_width b /\ left_margin a = left_margin b /\
  pango_dir a = pango_dir b /\ do_separation_line a = do_separation_line b /\
  top_margin a = top_margin b /\ header_sep a = header_sep b.
Proof.
  intros H.
  pose proof (f_equal top_margin H) as H9. pose proof (f_equal header_sep H) as H10.
  pose proof (f_equal lpi H) as H1. pose proof (f_equal num_columns H) as H2.
  pose proof (f_equal column_height H) as H3. pose proof (f_equal column_width H) as H4.
  pose proof (f_equal gutter_width H) as H5. pose proof (f_equal left_margin H) as H6.
  pose proof (f_equal pango_dir H) as H7. pose proof (f_equal do_separation_line H) as H8.
  cbn in *. repeat split; assumption.
Qed.

(** The cursor after one turn of the loop. *)
Lemma place_line_fields (need_header : bool) (st : flow_state) (line_link : LineLink) :
  let st' := place_line need_header st line_link in
  forget_header (layout st') = forget_header (layout st) /\
  prev_line_link st' = Some line_link /\
  column_y_pos st'
  = (if needs_break st line_link then 0 else column_y_pos st)
    + line_advance (layout st) line_link /\
  (if needs_break st line_link then
     if column_idx st + 1 =? num_columns (layout st)
     then column_idx st' = 0 /\ page_idx st' = page_idx st + 1
     else column_idx st' = column_idx st + 1 /\ page_idx st' = page_idx st
   else column_idx st' = column_idx st /\ page_idx st' = page_idx st).
Proof.
  unfold Flow.place_line. cbn zeta.
  destruct (needs_break st line_link).
  - destruct (break_column_fields need_header st) as (Hy & Hprev & Hl & Hc).
    cbn [layout prev_line_link column_y_pos column_idx page_idx record].
    repeat split; try assumption.
    + rewrite Hy. f_equal. unfold line_advance.
      destruct (forget_header_fields _ _ Hl) as (-> & _). reflexivity.
  - cbn. repeat split; reflexivity.
Qed.

Lemma break_column_trace (need_header : bool) (st : flow_state) :
  trace (break_column need_header st) = trace st ++ break_calls output_format header_line need_header st.
Proof.
  unfold Flow.break_column, break_calls.
  destruct (column_idx st + 1 =? num_columns (layout st)).
  - destruct need_header; cbn; rewrite <- !app_assoc; reflexivity.
  - reflexivity.
Qed.

(** What one turn of the loop adds to the trace: the calls of the break, if
    there is one, and then the drawing of the line at the new cursor. *)
Lemma place_line_trace (need_header : bool) (st : flow_state) (line_link : LineLink) :
  let st' := place_line need_header st line_link in
  trace st' =
  trace st
  ++ (if needs_break st line_link
      then break_calls output_format header_line need_header st else [])
  ++ [{| the_call := call_draw_line_to_page (column_idx st') (column_y_pos st')
                                            (pango_line line_link);
         the_ops := draw_line_to_page (column_idx st') (column_y_pos st')
                                      (layout st') (pango_line line_link) |}].
Proof.
  unfold Flow.place_line. cbn zeta.
  destruct (needs_break st line_link).
  - cbn [trace record column_idx column_y_pos layout].
    rewrite break_column_trace, <- app_assoc. reflexivity.
  - reflexivity.
Qed.

(** A turn of the loop that leaves the column: the calls of the break come
    first, and the line is then drawn in the column entered, one advance
    below its top. *)
Lemma place_line_break_trace (need_header : bool) (st : flow_state) (line_link : LineLink) :
  needs_break st line_link = true ->
  let st' := place_line need_header st line_link in
  trace st' =
    trace st
    ++ (if column_idx st + 1 =? num_columns (layout st) then
          [{| the_call := call_eject_page; the_ops := [cairo_show_page] |};
           {| the_call := call_start_page (page_idx st + 1);
              the_ops := start_page output_format (layout st) (page_idx st + 1) |}]
          ++ (if need_header then
                [{| the_call := call_draw_page_header (page_idx st + 1);
                    the_ops := snd (draw_page_header_line_to_page
                                      header_line false (layout st) (page_idx st + 1)) |}]
              else [])
        else
          [{| the_call := call_eject_column (column_idx st + 1);
              the_ops := eject_column (layout st) (column_idx st + 1) |}])
    ++ [{| the_call :=
             call_draw_line_to_page
               (if column_idx st + 1 =? num_columns (layout st)
                then 0 else column_idx st + 1)
               (line_advance (layout st) line_link) (pango_line line_link);
           the_ops :=
             [cairo_move_to
                (inject_Z (line_x (layout st)
                                  (if column_idx st + 1 =? num_columns (layout st)
                                   then 0 else column_idx st + 1)
                                  (pango_line line_link)))
                (inject_Z (line_y (layout st) (line_advance (layout st) line_link)));
              pango_cairo_show_layout_line (pango_line line_link)] |}].
Proof.
  intros Hb st'.
  pose proof (place_line_trace need_header st line_link) as Ht.
  destruct (place_line_fields need_header st line_link) as (Hl & _ & Hy & Hc).
  fold st' in Ht, Hl, Hy, Hc. rewrite Hb in Ht, Hy, Hc. rewrite Ht.
  destruct (forget_header_fields _ _ Hl)
    as (_ & Hn & _ & Hw & Hg & Hm & Hd & _ & Ht' & Hs).
  assert (Hx : forall column line, line_x (layout st') column line
                                   = line_x (layout st) column line)
    by (intros; unfold line_x, is_rtl; rewrite Hn, Hw, Hg, Hm, Hd; reflexivity).
  assert (Hly : forall pos, line_y (layout st') pos = line_y (layout st) pos)
    by (intros; unfold line_y; rewrite Ht', Hs; reflexivity).
  unfold draw_line_to_page. rewrite Hx, Hly, Hy, Z.add_0_l.
  unfold break_calls.
  destruct (column_idx st + 1 =? num_columns (layout st));
    destruct Hc as (-> & _); reflexivity.
Qed.

(** C3.  With [lpi] set, whether the column is left is decided with the
    natural logical height of the line (or by the form feed of the line
    before), and the cursor then advances by the height derived from [lpi],
    [floor (1 / lpi * 72 * PANGO_SCALE)]: two different heights. *)
Theorem C3_lpi_advance_natural_test
        (need_header : bool) (st : flow_state) (line_link : LineLink) :
  Qpositive (lpi (layout st)) = true ->
  let st' := place_line need_header st line_link in
  (needs_break st line_link = true <->
   (column_height (layout st) * PANGO_SCALE
    <= column_y_pos st + rect_height (logical_rect line_link)
    \/ exists prev, prev_line_link st = Some prev /\ formfeed prev <> 0))
  /\ column_y_pos st'
     = (if needs_break st line_link then 0 else column_y_pos st)
       + Qfloor (1 / lpi (layout st) * 72 * inject_Z PANGO_SCALE)
  /\ (if needs_break st line_link then
        if column_idx st + 1 =? num_columns (layout st)
        then column_idx st' = 0 /\ page_idx st' = page_idx st + 1
        else column_idx st' = column_idx st + 1 /\ page_idx st' = page_idx st
      else column_idx st' = column_idx st /\ page_idx st' = page_idx st).
Proof.
  intros Hlpi st'.
  destruct (place_line_fields need_header st line_link) as (_ & _ & Hy & Hc).
  fold st' in Hy, Hc. split; [|split].
  - unfold needs_break. rewrite orb_true_iff, Z.leb_le.
    split; (intros [H|H]; [now left|right]).
    + destruct (prev_line_link st) as [prev|]; [|discriminate].
      exists prev. split; [reflexivity|].
      apply negb_true_iff in H. now apply Z.eqb_neq.
    + destruct H as (prev & -> & Hff). apply negb_true_iff. now apply Z.eqb_neq.
  - rewrite Hy. f_equal. unfold line_advance. rewrite Hlpi.
    apply Qtrunc_floor, lpi_height_nonneg, Hlpi.
  - exact Hc.
Qed.

(** C5.  A line whose natural height fills the rest of the column exactly
    does not stay in it: the test is greater-or-equal, the column is left
    before the line is placed.  The calls of the turn are those of the
    break (the page is ejected and the next one started when the column was
    the last one, the column is ejected when not) followed by the drawing of
    the line, in the column entered and one advance below its top. *)
Theorem C5_exact_fit_breaks
        (need_header : bool) (st : flow_state) (line_link : LineLink) :
  column_y_pos st + rect_height (logical_rect line_link)
  = column_height (layout st) * PANGO_SCALE ->
  let st' := place_line need_header st line_link in
  needs_break st line_link = true
  /\ column_y_pos st' = line_advance (layout st) line_link
  /\ (if column_idx st + 1 =? num_columns (layout st)
      then column_idx st' = 0 /\ page_idx st' = page_idx st + 1
      else column_idx st' = column_idx st + 1 /\ page_idx st' = page_idx st)
  /\ trace st' =
       trace st
       ++ (if column_idx st + 1 =? num_columns (layout st) then
             [{| the_call := call_eject_page; the_ops := [cairo_show_page] |};
              {| the_call := call_start_page (page_idx st + 1);
                 the_ops := start_page output_format (layout st) (page_idx st + 1) |}]
             ++ (if need_header then
                   [{| the_call := call_draw_page_header (page_idx st + 1);
                       the_ops := snd (draw_page_header_line_to_page
                                         header_line false (layout st) (page_idx st + 1)) |}]
                 else [])
           else
             [{| the_call := call_eject_column (column_idx st + 1);
                 the_ops := eject_column (layout st) (column_idx st + 1) |}])
       ++ [{| the_call :=
                call_draw_line_to_page
                  (if column_idx st + 1 =? num_columns (layout st)
                   then 0 else column_idx st + 1)
                  (line_advance (layout st) line_link) (pango_line line_link);
              the_ops :=
                [cairo_move_to
                   (inject_Z (line_x (layout st)
                                     (if column_idx st + 1 =? num_columns (layout st)
                                      then 0 else column_idx st + 1)
                                     (pango_line line_link)))
                   (inject_Z (line_y (layout st) (line_advance (layout st) line_link)));
                 pango_cairo_show_layout_line (pango_line line_link)] |}].
Proof.
  intros Hfit st'.
  assert (Hb : needs_break st line_link = true).
  { unfold needs_break. rewrite Hfit, Z.leb_refl. reflexivity. }
  destruct (place_line_fields need_header st line_link) as (_ & _ & Hy & Hc).
  fold st' in Hy, Hc. rewrite Hb in Hy, Hc.
  split; [exact Hb|]. split; [rewrite Hy; lia|]. split; [exact Hc|].
  exact (place_line_break_trace need_header st line_link Hb).
Qed.

End StepFacts.

Section SplitterFacts.

Variable layout_lines : PangoLayout -> list PangoLayoutLine.

Lemma max_height_step (max_height h : Z) :
  (if max_height <? h then h else max_height) = Z.max max_height h.
Proof. destruct (max_height <? h) eqn:E; [apply Z.ltb_lt in E|apply Z.ltb_ge in E]; lia. Qed.

(** The lines of one paragraph, in order: the flag is set on the last one
    when the paragraph has it, and the greatest height is kept. *)
Lemma lines_loop_spec (para : Paragraph) (lines : list PangoLayoutLine) :
  forall (n i : Z) (line_list : list LineLink) (max_height : Z),
    n = i + Z.of_nat (length lines) ->
    exists links,
      lines_loop para n lines i line_list max_height
      = (rev links ++ line_list,
         fold_left Z.max (map (fun l => rect_height (logical_rect l)) links) max_height)
      /\ map formfeed links = last_line_flags (para_formfeed para) (length lines)
      /\ map pango_line links = lines.
Proof.
  induction lines as [|line rest IH]; intros n i line_list max_height Hn.
  - exists []. repeat split.
  - cbn [lines_loop]. rewrite max_height_step.
    set (link := {| pango_line := line; logical_rect := line_logical line;
                    ink_rect := line_ink line;
                    formfeed := if negb (para_formfeed para =? 0) && (i =? n - 1)
                                then 1 else 0 |}).
    destruct (IH n (i + 1) (link :: line_list)
                 (Z.max max_height (rect_height (line_logical line))))
      as (links & Hrun & Hflags & Hlines).
    { cbn [length] in Hn. lia. }
    exists (link :: links). split; [|split].
    + rewrite Hrun. cbn [rev map fold_left]. now rewrite <- app_assoc.
    + cbn [map]. rewrite Hflags. cbn [formfeed link].
      destruct rest as [|line' rest'].
      * cbn [length] in Hn. replace (i =? n - 1) with true by (symmetry; apply Z.eqb_eq; lia).
        cbn. destruct (para_formfeed para =? 0); reflexivity.
      * cbn [length] in Hn.
        replace (i =? n - 1) with false by (symmetry; apply Z.eqb_neq; lia).
        rewrite andb_false_r. reflexivity.
    + cbn [map]. now rewrite Hlines.
Qed.

Lemma paragraphs_loop_spec (paragraphs : list Paragraph) :
  forall (line_list : list LineLink) (max_height : Z),
    exists links,
      paragraphs_loop layout_lines paragraphs line_list max_height
      = (rev links ++ line_list,
         fold_left Z.max (map (fun l => rect_height (logical_rect l)) links) max_height)
      /\ map formfeed links
         = concat (map (fun para =>
                          last_line_flags (para_formfeed para)
                                          (length (layout_lines (para_layout para))))
                       paragraphs)
      /\ map pango_line links
         = concat (map (fun para => layout_lines (para_layout para)) paragraphs).
Proof.
  induction paragraphs as [|para rest IH]; intros line_list max_height.
  - exists []. repeat split.
  - cbn [paragraphs_loop].
    destruct (lines_loop_spec para (layout_lines (para_layout para))
                (Z.of_nat (length (layout_lines (para_layout para)))) 0
                line_list max_height eq_refl)
      as (links1 & Hrun1 & Hflags1 & Hlines1).
    rewrite Hrun1.
    destruct (IH (rev links1 ++ line_list)
                 (fold_left Z.max (map (fun l => rect_height (logical_rect l)) links1)
                            max_height))
      as (links2 & Hrun2 & Hflags2 & Hlines2).
    exists (links1 ++ links2). split; [|split].
    + rewrite Hrun2, rev_app_distr, map_app, fold_left_app, <- app_assoc. reflexivity.
    + rewrite map_app, Hflags1, Hflags2. reflexivity.
    + rewrite map_app, Hlines1, Hlines2. reflexivity.
Qed.

(** The line stream: the lines of the paragraphs in order, flagged as the
    data model says; [scale_y] is written when characters are stretched. *)
Lemma split_paragraphs_into_lines_spec
      (page_layout : page_layout_t) (paragraphs : list Paragraph) :
  let (page_layout', pango_lines) :=
    split_paragraphs_into_lines layout_lines page_layout paragraphs in
  map formfeed pango_lines
  = concat (map (fun para =>
                   last_line_flags (para_formfeed para)
                                   (length (layout_lines (para_layout para))))
                paragraphs)
  /\ map pango_line pango_lines
     = concat (map (fun para => layout_lines (para_layout para)) paragraphs)
  /\ page_layout'
     = if do_stretch_chars page_layout && Qpositive (lpi page_layout)
       then set_scale_y page_layout
              (stretch_scale (lpi page_layout)
                 (fold_left Z.max
                    (map (fun l => rect_height (logical_rect l)) pango_lines) 0))
       else page_layout.
Proof.
  unfold split_paragraphs_into_lines.
  destruct (paragraphs_loop_spec paragraphs [] 0) as (links & Hrun & Hflags & Hlines).
  rewrite Hrun, app_nil_r, rev_involutive. repeat split; assumption.
Qed.

End SplitterFacts.

Lemma C3_lpi_advance_natural_test_witness :
  Qpositive (lpi (layout cursor_13pt_left)) = true /\
  needs_break cursor_13pt_left line_14pt = true /\
  column_y_pos (place_line FORMAT_POSTSCRIPT toy_header false cursor_13pt_left line_14pt)
  = 0 + Qfloor (1 / 6 * 72 * inject_Z PANGO_SCALE).
Proof.
  split; [reflexivity|].
  destruct (C3_lpi_advance_natural_test FORMAT_POSTSCRIPT toy_header false
              cursor_13pt_left line_14pt eq_refl) as (Hb & Hy & _).
  assert (H : needs_break cursor_13pt_left line_14pt = true)
    by (apply Hb; left; vm_compute; discriminate).
  split; [exact H|]. rewrite H in Hy. exact Hy.
Defined.

Lemma C5_exact_fit_breaks_witness :
  column_y_pos cursor_12pt_left + rect_height (logical_rect line_12pt)
  = column_height (layout cursor_12pt_left) * PANGO_SCALE /\
  needs_break cursor_12pt_left line_12pt = true /\
  column_y_pos (place_line FORMAT_POSTSCRIPT toy_header false cursor_12pt_left line_12pt)
  = line_advance (layout cursor_12pt_left) line_12pt /\
  (* one column: page 1 is ejected, page 2 started, the line drawn at its top *)
  map the_call
      (trace (place_line FORMAT_POSTSCRIPT toy_header false cursor_12pt_left line_12pt))
  = [call_eject_page; call_start_page 2;
     call_draw_line_to_page 0 12288 (pango_line line_12pt)].
Proof.
  split; [reflexivity|].
  destruct (C5_exact_fit_breaks FORMAT_POSTSCRIPT toy_header false
              cursor_12pt_left line_12pt eq_refl) as (Hb & Hy & _ & Ht).
  split; [exact Hb|]. split; [exact Hy|].
  rewrite Ht. reflexivity.
Defined.

(** C1.  The form-feed flag sits on the last line of every paragraph that a
    form feed ends and on no other line; and in every run of [output_pages]
    the line after a flagged line is placed after a break: the column offset
    is reset (the line ends at one advance from the top), the column index
    advances, and when it reaches the number of columns it rolls over to
    column 0 of the next page.  The space left in the column plays no part.
    The calls made for that line are those of the break (the page is ejected
    and the next one started when the column was the last one, the column is
    ejected when not) followed by the drawing of the line, in the column
    entered and one advance below its top. *)
Theorem C1_formfeed_forces_break
        (layout_lines : PangoLayout -> list PangoLayoutLine)
        (output_format : output_format_t)
        (header_line : Z -> Z -> PangoLayoutLine) :
  (forall (page_layout : page_layout_t) (paragraphs : list Paragraph),
      map formfeed
          (snd (split_paragraphs_into_lines layout_lines page_layout paragraphs))
      = concat (map (fun para =>
                       last_line_flags (para_formfeed para)
                                       (length (layout_lines (para_layout para))))
                    paragraphs))
  /\
  (forall (page_layout : page_layout_t) (need_header : bool)
          (before : list LineLink) (a b : LineLink) (after : list LineLink),
      formfeed a <> 0 ->
      let s := flow_lines output_format header_line need_header
                          (initial_state output_format header_line page_layout need_header)
                          before in
      let sa := place_line output_format header_line need_header s a in
      let sb := place_line output_format header_line need_header sa b in
      output_pages output_format header_line (before ++ a :: b :: after)
                   page_layout need_header
      = record call_eject_page eject_page
               (flow_lines output_format header_line need_header sb after)
      /\ needs_break sa b = true
      /\ column_y_pos sb = 0 + line_advance (layout sa) b
      /\ (if column_idx sa + 1 =? num_columns (layout sa)
          then column_idx sb = 0 /\ page_idx sb = page_idx sa + 1
          else column_idx sb = column_idx sa + 1 /\ page_idx sb = page_idx sa)
      /\ trace sb =
           trace sa
           ++ (if column_idx sa + 1 =? num_columns (layout sa) then
                 [{| the_call := call_eject_page; the_ops := [cairo_show_page] |};
                  {| the_call := call_start_page (page_idx sa + 1);
                     the_ops := start_page output_format (layout sa) (page_idx sa + 1) |}]
                 ++ (if need_header then
                       [{| the_call := call_draw_page_header (page_idx sa + 1);
                           the_ops := snd (draw_page_header_line_to_page
                                             header_line false (layout sa) (page_idx sa + 1)) |}]
                     else [])
               else
                 [{| the_call := call_eject_column (column_idx sa + 1);
                     the_ops := eject_column (layout sa) (column_idx sa + 1) |}])
           ++ [{| the_call :=
                    call_draw_line_to_page
                      (if column_idx sa + 1 =? num_columns (layout sa)
                       then 0 else column_idx sa + 1)
                      (line_advance (layout sa) b) (pango_line b);
                  the_ops :=
                    [cairo_move_to
                       (inject_Z (line_x (layout sa)
                                         (if column_idx sa + 1 =? num_columns (layout sa)
                                          then 0 else column_idx sa + 1)
                                         (pango_line b)))
                       (inject_Z (line_y (layout sa) (line_advance (layout sa) b)));
                     pango_cairo_show_layout_line (pango_line b)] |}]).
Proof.
  split.
  - intros page_layout paragraphs.
    pose proof (split_paragraphs_into_lines_spec layout_lines page_layout paragraphs) as H.
    destruct (split_paragraphs_into_lines layout_lines page_layout paragraphs).
    apply H.
  - intros page_layout need_header before a b after Hff s sa sb.
    assert (Hprev : prev_line_link sa = Some a)
      by apply (place_line_fields output_format header_line need_header s a).
    assert (Hb : needs_break sa b = true).
    { unfold needs_break. rewrite Hprev.
      apply Z.eqb_neq in Hff. rewrite Hff. apply orb_true_r. }
    destruct (place_line_fields output_format header_line need_header sa b)
      as (_ & _ & Hy & Hc).
    fold sb in Hy, Hc. rewrite Hb in Hy, Hc.
    split; [|split; [exact Hb|split; [exact Hy|split; [exact Hc|]]]].
    + unfold output_pages, flow_lines. rewrite fold_left_app. reflexivity.
    + exact (place_line_break_trace output_format header_line need_header sa b Hb).
Qed.

Lemma C1_formfeed_forces_break_witness :
  let sa := place_line FORMAT_POSTSCRIPT toy_header false
              (initial_state FORMAT_POSTSCRIPT toy_header plain_layout false)
              line_12pt_formfeed in
  let sb := place_line FORMAT_POSTSCRIPT toy_header false sa line_12pt in
  formfeed line_12pt_formfeed <> 0 /\
  column_y_pos sb = 0 + line_advance (layout sa) line_12pt /\
  (column_idx sb = 0 /\ page_idx sb = page_idx sa + 1) /\
  (* the first line on page 1, the page ejected, the second line on page 2 *)
  map the_call (trace sb)
  = [call_start_page 1;
     call_draw_line_to_page 0 12288 (pango_line line_12pt_formfeed);
     call_eject_page; call_start_page 2;
     call_draw_line_to_page 0 12288 (pango_line line_12pt)].
Proof.
  intros sa sb.
  assert (H : formfeed line_12pt_formfeed <> 0) by (vm_compute; discriminate).
  split; [exact H|].
  destruct (proj2 (C1_formfeed_forces_break toy_lines FORMAT_POSTSCRIPT toy_header)
                  plain_layout false [] line_12pt_formfeed line_12pt [] H)
    as (_ & _ & Hy & Hc & Ht).
  split; [exact Hy|]. split; [exact Hc|].
  refine (eq_trans (f_equal (map the_call) Ht) _). reflexivity.
Defined.

(** C7.  Left to right, column [i] starts at
    [left_margin + i * (column_width + gutter_width)].  Right to left the
    columns are mirrored and the line is set flush right in its column:
    [left_margin + (num_columns - 1 - i) * (column_width + gutter_width)
     + (column_width - width)], the width being the logical width of the line
    in points.  With three columns, column 0 takes the last of the three
    places, two columns with their gutters from the left margin, and lies
    [i] columns with their gutters beyond column [i].  [eject_column] draws
    the separation line (when the layout asks for one, as [main] always
    does), from [y_top] to [y_bot], at an x that is computed for index [i]
    left to right and for the mirrored index [num_columns - i] right to
    left. *)
Theorem C7_column_placement
        (page_layout : page_layout_t) (i column_pos : Z) (line : PangoLayoutLine) :
  draw_line_to_page i column_pos page_layout line
  = [cairo_move_to (inject_Z (line_x page_layout i line))
                   (inject_Z (line_y page_layout column_pos));
     pango_cairo_show_layout_line line]
  /\ (pango_dir page_layout = PANGO_DIRECTION_LTR ->
      line_x page_layout i line
      = left_margin page_layout
        + i * (column_width page_layout + gutter_width page_layout))
  /\ (pango_dir page_layout = PANGO_DIRECTION_RTL ->
      line_x page_layout i line
      = left_margin page_layout
        + (num_columns page_layout - 1 - i)
          * (column_width page_layout + gutter_width page_layout)
        + (column_width page_layout
           - Z.quot (rect_width (line_logical line)) PANGO_SCALE))
  /\ (pango_dir page_layout = PANGO_DIRECTION_RTL ->
      num_columns page_layout = 3 ->
      line_x page_layout 0 line
      = left_margin page_layout
        + 2 * (column_width page_layout + gutter_width page_layout)
        + (column_width page_layout
           - Z.quot (rect_width (line_logical line)) PANGO_SCALE)
      /\ line_x page_layout 0 line
         = line_x page_layout i line
           + i * (column_width page_layout + gutter_width page_layout))
  /\ eject_column page_layout i
     = (if do_separation_line page_layout then
          [cairo_move_to (separator_x page_layout i)
                         (inject_Z (top_margin page_layout + header_height page_layout
                                    + Z.quot (header_sep page_layout) 2));
           cairo_line_to (separator_x page_layout i)
                         (page_height page_layout - inject_Z (bottom_margin page_layout)
                          - inject_Z (footer_height page_layout))%Q;
           cairo_set_line_width (1 # 10);
           cairo_stroke]
        else [])
  /\ (pango_dir page_layout = PANGO_DIRECTION_LTR ->
      separator_x page_layout i
      == inject_Z (left_margin page_layout + column_width page_layout * i)
         + (inject_Z i - (1 # 2)) * inject_Z (gutter_width page_layout))%Q
  /\ (pango_dir page_layout = PANGO_DIRECTION_RTL ->
      separator_x page_layout i
      == inject_Z (left_margin page_layout
                   + column_width page_layout * (num_columns page_layout - i))
         + (inject_Z (num_columns page_layout - i) - (1 # 2))
           * inject_Z (gutter_width page_layout))%Q.
Proof.
  assert (Hsep : forall k g : Z,
             ((if k =? 1 then 1 * inject_Z g / 2 else (inject_Z k - (1 # 2)) * inject_Z g)
              == (inject_Z k - (1 # 2)) * inject_Z g)%Q).
  { intros k g. destruct (k =? 1) eqn:E; [|reflexivity].
    apply Z.eqb_eq in E. subst k. field. }
  split; [reflexivity|].
  unfold line_x, separator_x, is_rtl.
  split; [|split; [|split; [|split; [|split]]]].
  - intros Hdir; rewrite Hdir; reflexivity.
  - intros Hdir; rewrite Hdir; reflexivity.
  - intros Hdir Hn; rewrite Hdir, Hn; cbn [direction_eqb]. split; [f_equal; lia|lia].
  - unfold eject_column. destruct (do_separation_line page_layout); reflexivity.
  - intros Hdir; rewrite Hdir; cbn [direction_eqb]. rewrite Hsep. reflexivity.
  - intros Hdir; rewrite Hdir; cbn [direction_eqb]. rewrite Hsep. reflexivity.
Qed.

Lemma C7_column_placement_witness :
  line_x (three_columns PANGO_DIRECTION_LTR) 1 (shaped_line 51200 12288) = 36 + 1 * (150 + 40)
  /\ line_x (three_columns PANGO_DIRECTION_RTL) 1 (shaped_line 51200 12288)
     = 36 + (3 - 1 - 1) * (150 + 40) + (150 - 50)
  /\ line_x (three_columns PANGO_DIRECTION_RTL) 0 (shaped_line 51200 12288)
     = line_x (three_columns PANGO_DIRECTION_RTL) 1 (shaped_line 51200 12288)
       + 1 * (150 + 40)
  /\ eject_column (three_columns PANGO_DIRECTION_RTL) 1
     = [cairo_move_to (separator_x (three_columns PANGO_DIRECTION_RTL) 1) (inject_Z 36);
        cairo_line_to (separator_x (three_columns PANGO_DIRECTION_RTL) 1)
                      ((84189 # 100) - inject_Z 36 - inject_Z 0)%Q;
        cairo_set_line_width (1 # 10);
        cairo_stroke]
  /\ (separator_x (three_columns PANGO_DIRECTION_LTR) 1 == 206)%Q
  /\ (separator_x (three_columns PANGO_DIRECTION_RTL) 1 == 396)%Q.
Proof.
  pose proof (C7_column_placement (three_columns PANGO_DIRECTION_LTR) 1 0
                                  (shaped_line 51200 12288))
    as (_ & Hltr & _ & _ & _ & Hsl & _).
  pose proof (C7_column_placement (three_columns PANGO_DIRECTION_RTL) 1 0
                                  (shaped_line 51200 12288))
    as (_ & _ & Hrtl & Hlast & Hdrawn & _ & Hsr).
  split; [exact (Hltr eq_refl)|].
  split; [exact (Hrtl eq_refl)|].
  split; [exact (proj2 (Hlast eq_refl eq_refl))|].
  split; [exact Hdrawn|].
  split; [rewrite (Hsl eq_refl); reflexivity|rewrite (Hsr eq_refl); reflexivity].
Defined.

(** When a column with its gutter has a width that is not negative, no
    column lies to the right of column 0 in the right-to-left layout. *)
Lemma rtl_column_0_is_rightmost
      (page_layout : page_layout_t) (i : Z) (line : PangoLayoutLine) :
  pango_dir page_layout = PANGO_DIRECTION_RTL ->
  0 <= column_width page_layout + gutter_width page_layout ->
  0 <= i ->
  line_x page_layout i line <= line_x page_layout 0 line.
Proof.
  intros Hdir Hw Hi. unfold line_x, is_rtl. rewrite Hdir. cbn [direction_eqb]. nia.
Qed.

(** *** Whole runs *)

Lemma assignments_from_app (page : Z) (t1 t2 : list call_record) :
  assignments_from page (t1 ++ t2)
  = assignments_from page t1 ++ assignments_from (last_page page t1) t2.
Proof.
  revert page; induction t1 as [|r t1 IH]; intros page; [reflexivity|].
  cbn [app assignments_from last_page].
  destruct (the_call r); rewrite ?IH; reflexivity.
Qed.

Lemma last_page_app (page : Z) (t1 t2 : list call_record) :
  last_page page (t1 ++ t2) = last_page (last_page page t1) t2.
Proof.
  revert page; induction t1 as [|r t1 IH]; intros page; [reflexivity|].
  cbn [app last_page]. destruct (the_call r); apply IH.
Qed.

Section RunFacts.

Variable output_format : output_format_t.
Variable header_line : Z -> Z -> PangoLayoutLine.
Variable need_header : bool.

#[local] Abbreviation place := (place_line output_format header_line need_header).
#[local] Abbreviation flow := (flow_lines output_format header_line need_header).
#[local] Abbreviation calls_of_break := (break_calls output_format header_line need_header).

Lemma flow_lines_invariant (P : flow_state -> Prop) :
  (forall st line_link, P st -> P (place st line_link)) ->
  forall pango_lines st, P st -> P (flow st pango_lines).
Proof.
  intros Hstep pango_lines; induction pango_lines as [|l rest IH]; intros st Hst.
  - exact Hst.
  - apply IH, Hstep, Hst.
Qed.

(** A break draws no line; it starts a page when the columns are used up. *)
Lemma break_calls_pages (st : flow_state) (page : Z) :
  assignments_from page (calls_of_break st) = [] /\
  last_page page (calls_of_break st)
  = if column_idx st + 1 =? num_columns (layout st) then page_idx st + 1 else page.
Proof.
  unfold break_calls. destruct (column_idx st + 1 =? num_columns (layout st)).
  - destruct need_header; split; reflexivity.
  - split; reflexivity.
Qed.

(** Every turn of the loop draws one line, at the place the cursor has
    after the turn. *)
Lemma place_line_assignments (st : flow_state) (line_link : LineLink) :
  last_page 0 (trace st) = page_idx st ->
  last_page 0 (trace (place st line_link)) = page_idx (place st line_link) /\
  assignments (trace (place st line_link))
  = assignments (trace st) ++ [assignment_of (place st line_link)].
Proof.
  intros Hpage.
  pose proof (place_line_trace output_format header_line need_header st line_link) as Ht.
  destruct (place_line_fields output_format header_line need_header st line_link)
    as (_ & _ & _ & Hc).
  cbn zeta in Ht, Hc. unfold assignments. rewrite Ht.
  rewrite !last_page_app, !assignments_from_app, Hpage.
  unfold assignment_of. cbn [assignments_from the_call last_page].
  destruct (needs_break st line_link).
  - destruct (break_calls_pages st (page_idx st)) as (-> & ->).
    destruct (column_idx st + 1 =? num_columns (layout st));
      destruct Hc as (Hc1 & Hc2); rewrite Hc2; split; reflexivity.
  - destruct Hc as (Hc1 & Hc2). rewrite Hc2. split; reflexivity.
Qed.

Lemma initial_state_page (page_layout : page_layout_t) :
  let st := initial_state output_format header_line page_layout need_header in
  last_page 0 (trace st) = page_idx st /\ assignments (trace st) = [] /\
  column_idx st = 0 /\ column_y_pos st = 0 /\ page_idx st = 1 /\
  prev_line_link st = None /\
  forget_header (layout st) = forget_header page_layout.
Proof. unfold initial_state. destruct need_header; cbn; repeat split; reflexivity. Qed.

(** The geometry the loop reads stays what it was. *)
Lemma flow_lines_layout (pango_lines : list LineLink) (st : flow_state) :
  forget_header (layout (flow st pango_lines)) = forget_header (layout st).
Proof.
  apply (flow_lines_invariant
           (fun s => forget_header (layout s) = forget_header (layout st)));
    [|reflexivity].
  intros s l Hs.
  destruct (place_line_fields output_format header_line need_header s l) as (Hl & _).
  cbn zeta in Hl. congruence.
Qed.

End RunFacts.

(** Two runs that stand at the same place place the next line alike, whatever
    the output format, the header lines and the header switch of each. *)
Lemma same_cursor_place
      (fmt1 fmt2 : output_format_t) (hl1 hl2 : Z -> Z -> PangoLayoutLine)
      (nh1 nh2 : bool) (s1 s2 : flow_state) (line_link : LineLink) :
  same_cursor s1 s2 ->
  same_cursor (place_line fmt1 hl1 nh1 s1 line_link)
              (place_line fmt2 hl2 nh2 s2 line_link).
Proof.
  intros (Hc & Hy & Hp & Hprev & Hlpi & Hn & Hh & Hp1 & Hp2 & Ha).
  assert (Hb : needs_break s1 line_link = needs_break s2 line_link)
    by (unfold needs_break; rewrite Hh, Hy, Hprev; reflexivity).
  assert (Hadv : line_advance (layout s1) line_link = line_advance (layout s2) line_link)
    by (unfold line_advance; rewrite Hlpi; reflexivity).
  destruct (place_line_fields fmt1 hl1 nh1 s1 line_link) as (Hl1 & Hq1 & Hy1 & Hc1).
  destruct (place_line_fields fmt2 hl2 nh2 s2 line_link) as (Hl2 & Hq2 & Hy2 & Hc2).
  destruct (place_line_assignments fmt1 hl1 nh1 s1 line_link Hp1) as (Hlp1 & Ha1).
  destruct (place_line_assignments fmt2 hl2 nh2 s2 line_link Hp2) as (Hlp2 & Ha2).
  cbn zeta in *.
  destruct (forget_header_fields _ _ Hl1) as (Hlpi1 & Hn1 & Hh1 & _).
  destruct (forget_header_fields _ _ Hl2) as (Hlpi2 & Hn2 & Hh2 & _).
  rewrite <- ?Hb, <- ?Hadv, <- ?Hy in Hy2.
  rewrite <- ?Hb, <- ?Hc, <- ?Hn, <- ?Hp in Hc2.
  assert (Hcp : column_idx (place_line fmt1 hl1 nh1 s1 line_link)
                = column_idx (place_line fmt2 hl2 nh2 s2 line_link)
                /\ page_idx (place_line fmt1 hl1 nh1 s1 line_link)
                   = page_idx (place_line fmt2 hl2 nh2 s2 line_link)).
  { destruct (needs_break s1 line_link);
      [destruct (column_idx s1 + 1 =? num_columns (layout s1))|];
      destruct Hc1 as (-> & ->); destruct Hc2 as (-> & ->); split; reflexivity. }
  destruct Hcp as (Hcc & Hpp).
  unfold same_cursor. repeat split; try congruence.
  rewrite Ha1, Ha2, Ha. unfold assignment_of. congruence.
Qed.

Lemma same_cursor_flow
      (fmt1 fmt2 : output_format_t) (hl1 hl2 : Z -> Z -> PangoLayoutLine)
      (nh1 nh2 : bool) (pango_lines : list LineLink) :
  forall s1 s2,
    same_cursor s1 s2 ->
    same_cursor (flow_lines fmt1 hl1 nh1 s1 pango_lines)
                (flow_lines fmt2 hl2 nh2 s2 pango_lines).
Proof.
  induction pango_lines as [|l rest IH]; intros s1 s2 H; [exact H|].
  apply IH, same_cursor_place, H.
Qed.

Lemma same_cursor_initial
      (fmt1 fmt2 : output_format_t) (hl1 hl2 : Z -> Z -> PangoLayoutLine)
      (nh1 nh2 : bool) (pl1 pl2 : page_layout_t) :
  forget_header pl1 = forget_header pl2 ->
  same_cursor (initial_state fmt1 hl1 pl1 nh1) (initial_state fmt2 hl2 pl2 nh2).
Proof.
  intros H.
  destruct (initial_state_page fmt1 hl1 nh1 pl1) as (A1 & B1 & C1 & D1 & E1 & F1 & G1).
  destruct (initial_state_page fmt2 hl2 nh2 pl2) as (A2 & B2 & C2 & D2 & E2 & F2 & G2).
  cbn zeta in *.
  assert (G : forget_header (layout (initial_state fmt1 hl1 pl1 nh1))
              = forget_header (layout (initial_state fmt2 hl2 pl2 nh2))) by congruence.
  destruct (forget_header_fields _ _ G) as (Hlpi & Hn & Hh & _).
  unfold same_cursor. repeat split; congruence.
Qed.

Lemma assignments_eject_page (st : flow_state) :
  assignments (trace (record call_eject_page eject_page st)) = assignments (trace st).
Proof.
  unfold assignments. cbn [record trace]. rewrite assignments_from_app.
  cbn. apply app_nil_r.
Qed.

(** The lines drawn, one for every line of the stream. *)
Lemma flow_lines_count
      (fmt : output_format_t) (hl : Z -> Z -> PangoLayoutLine) (nh : bool)
      (pango_lines : list LineLink) :
  forall st,
    last_page 0 (trace st) = page_idx st ->
    length (assignments (trace (flow_lines fmt hl nh st pango_lines)))
    = (length (assignments (trace st)) + length pango_lines)%nat.
Proof.
  induction pango_lines as [|l rest IH]; intros st Hp; cbn [flow_lines fold_left length].
  - lia.
  - destruct (place_line_assignments fmt hl nh st l Hp) as (Hp' & Ha).
    unfold flow_lines in IH. rewrite (IH _ Hp'), Ha, length_app. cbn [length]. lia.
Qed.

(** The places read off the calls are the places the cursor takes, one
    after the other. *)
Lemma assignments_placed_states
      (fmt : output_format_t) (hl : Z -> Z -> PangoLayoutLine) (nh : bool)
      (pango_lines : list LineLink) :
  forall st,
    last_page 0 (trace st) = page_idx st ->
    assignments (trace (flow_lines fmt hl nh st pango_lines))
    = assignments (trace st)
      ++ map assignment_of (placed_states fmt hl nh st pango_lines).
Proof.
  induction pango_lines as [|l rest IH]; intros st Hp;
    cbn [flow_lines fold_left placed_states map].
  - now rewrite app_nil_r.
  - destruct (place_line_assignments fmt hl nh st l Hp) as (Hp' & Ha).
    unfold flow_lines in IH. rewrite (IH _ Hp'), Ha, <- app_assoc. reflexivity.
Qed.

(** With one column [main] leaves the gutter out of the column width. *)
Lemma single_column_width_ignores_gutter
      (width : Q) (left right gutter gutter' : Z) :
  main_column_width width left right 1 gutter
  = main_column_width width left right 1 gutter'.
Proof. reflexivity. Qed.

(** C9.  The places the lines get are a function of the line stream and of
    the page layout alone.  A second run over the same stream and layout
    assigns every line the same page, column and vertical position as the
    first, whatever the output format and whatever the header lines measure
    at the time; so does a run on the page layout as the first run left it,
    with the header height written into it.  Every line of the stream gets
    one place. *)
Theorem C9_output_pages_deterministic
        (fmt1 fmt2 : output_format_t) (hl1 hl2 : Z -> Z -> PangoLayoutLine)
        (pango_lines : list LineLink) (page_layout : page_layout_t)
        (need_header : bool) :
  let run1 := output_pages fmt1 hl1 pango_lines page_layout need_header in
  let run2 := output_pages fmt2 hl2 pango_lines page_layout need_header in
  let again := output_pages fmt2 hl2 pango_lines (layout run1) need_header in
  assignments (trace run1) = assignments (trace run2)
  /\ page_idx run1 = page_idx run2
  /\ assignments (trace again) = assignments (trace run1)
  /\ page_idx again = page_idx run1
  /\ length (assignments (trace run1)) = length pango_lines.
Proof.
  intros run1 run2 again.
  assert (Hl : forget_header (layout run1) = forget_header page_layout).
  { subst run1. unfold output_pages. cbn [record layout].
    rewrite flow_lines_layout. apply initial_state_page. }
  pose proof (same_cursor_flow fmt1 fmt2 hl1 hl2 need_header need_header pango_lines _ _
                (same_cursor_initial fmt1 fmt2 hl1 hl2 need_header need_header
                                     page_layout page_layout eq_refl)) as H12.
  pose proof (same_cursor_flow fmt2 fmt1 hl2 hl1 need_header need_header pango_lines _ _
                (same_cursor_initial fmt2 fmt1 hl2 hl1 need_header need_header
                                     (layout run1) page_layout Hl)) as H21.
  destruct H12 as (_ & _ & Hp12 & _ & _ & _ & _ & _ & _ & Ha12).
  destruct H21 as (_ & _ & Hp21 & _ & _ & _ & _ & _ & _ & Ha21).
  subst run1 run2 again. unfold output_pages in *.
  rewrite !assignments_eject_page. cbn [record page_idx].
  repeat split; try assumption.
  destruct (initial_state_page fmt1 hl1 need_header page_layout) as (Hp0 & Ha0 & _).
  cbn zeta in Hp0, Ha0.
  rewrite (flow_lines_count fmt1 hl1 need_header pango_lines _ Hp0), Ha0. reflexivity.
Qed.

Lemma draw_line_forget_header (a b : page_layout_t) (i y : Z) (line : PangoLayoutLine) :
  forget_header a = forget_header b ->
  draw_line_to_page i y a line = draw_line_to_page i y b line.
Proof.
  intros H.
  destruct (forget_header_fields a b H)
    as (_ & Hn & _ & Hw & Hg & Hl & Hd & _ & Ht & Hs).
  unfold draw_line_to_page, line_x, line_y, is_rtl.
  rewrite Hn, Hw, Hg, Hl, Hd, Ht, Hs. reflexivity.
Qed.

(** With one column the cursor never leaves column 0 and every call is one
    of a one-column run. *)
Lemma one_column_place
      (fmt : output_format_t) (hl : Z -> Z -> PangoLayoutLine) (nh : bool)
      (page_layout : page_layout_t) (st : flow_state) (line_link : LineLink) :
  num_columns page_layout = 1 ->
  forget_header (layout st) = forget_header page_layout /\
  column_idx st = 0 /\ Forall (one_column_call page_layout) (trace st) ->
  let st' := place_line fmt hl nh st line_link in
  forget_header (layout st') = forget_header page_layout /\
  column_idx st' = 0 /\ Forall (one_column_call page_layout) (trace st').
Proof.
  intros Hone (Hl & Hc & Hall) st'.
  destruct (place_line_fields fmt hl nh st line_link) as (Hl' & _ & _ & Hc').
  pose proof (place_line_trace fmt hl nh st line_link) as Ht.
  cbn zeta in Hl', Hc', Ht. fold st' in Hl', Hc', Ht.
  destruct (forget_header_fields _ _ Hl) as (_ & Hn & _).
  assert (Hidx : column_idx st' = 0).
  { rewrite Hc, Hn, Hone in Hc'. change (0 + 1 =? 1) with true in Hc'.
    destruct (needs_break st line_link); destruct Hc' as (H & _); exact H. }
  split; [congruence|]. split; [exact Hidx|].
  rewrite Ht. apply Forall_app. split; [exact Hall|].
  apply Forall_app. split.
  - destruct (needs_break st line_link); [|constructor].
    unfold break_calls. rewrite Hc, Hn, Hone. cbn.
    destruct nh; repeat constructor.
  - constructor; [|constructor]. unfold one_column_call. cbn [the_call the_ops].
    split; [exact Hidx|].
    rewrite (draw_line_forget_header (layout st') page_layout) by congruence.
    rewrite Hidx. unfold draw_line_to_page, line_x, is_rtl. rewrite Hone.
    destruct (direction_eqb (pango_dir page_layout) PANGO_DIRECTION_RTL);
      do 3 f_equal; lia.
Qed.

(** C6, as the code has it.  With one column the gutter takes no width,
    [eject_column] is never called, so no separation line is drawn, and every
    line is drawn in column 0: at [left_margin] when the direction is left to
    right, and at [left_margin + column_width - width] (flush right in the
    column, the width being that of the line in points) when it is right to
    left.  The gutter width occurs in neither. *)
Theorem C6_single_column
        (output_format : output_format_t) (header_line : Z -> Z -> PangoLayoutLine)
        (pango_lines : list LineLink) (page_layout : page_layout_t)
        (need_header : bool) :
  num_columns page_layout = 1 ->
  total_gutter_width (num_columns page_layout) (gutter_width page_layout) = 0
  /\ forall r,
      In r (trace (output_pages output_format header_line pango_lines
                                page_layout need_header)) ->
      is_eject_column (the_call r) = false
      /\ forall column_idx column_pos line,
          the_call r = call_draw_line_to_page column_idx column_pos line ->
          column_idx = 0 /\
          the_ops r
          = [cairo_move_to
               (inject_Z (left_margin page_layout
                          + (if is_rtl page_layout
                             then column_width page_layout
                                  - Z.quot (rect_width (line_logical line)) PANGO_SCALE
                             else 0)))
               (inject_Z (line_y page_layout column_pos));
             pango_cairo_show_layout_line line].
Proof.
  intros Hone. split; [rewrite Hone; reflexivity|].
  assert (Hall : Forall (one_column_call page_layout)
                        (trace (output_pages output_format header_line pango_lines
                                             page_layout need_header))).
  { unfold output_pages. cbn [record trace]. apply Forall_app. split.
    - apply (flow_lines_invariant output_format header_line need_header
               (fun st => forget_header (layout st) = forget_header page_layout /\
                          column_idx st = 0 /\
                          Forall (one_column_call page_layout) (trace st))).
      + intros st l H. now apply one_column_place.
      + unfold initial_state. destruct need_header; cbn; repeat split;
          repeat constructor.
    - repeat constructor. }
  intros r Hin. rewrite Forall_forall in Hall. specialize (Hall r Hin).
  unfold one_column_call in Hall. split.
  - destruct (the_call r); try reflexivity. contradiction.
  - intros c y line Hcall. rewrite Hcall in Hall. exact Hall.
Qed.

Lemma C6_single_column_witness :
  num_columns one_column_rtl = 1 /\
  total_gutter_width (num_columns one_column_rtl) (gutter_width one_column_rtl) = 0 /\
  forall r,
    In r (trace (output_pages FORMAT_POSTSCRIPT toy_header [line_12pt; line_12pt]
                              one_column_rtl true)) ->
    is_eject_column (the_call r) = false.
Proof.
  split; [reflexivity|].
  destruct (C6_single_column FORMAT_POSTSCRIPT toy_header [line_12pt; line_12pt]
                             one_column_rtl true eq_refl) as (Hg & Hr).
  split; [exact Hg|]. intros r Hin. exact (proj1 (Hr r Hin)).
Defined.

(** C6 as the claim words it fails for the direction right to left: with one
    column, a left margin of 36 points and a column of 523 points, a line 50
    points wide is drawn at x = 509, not at the left margin. *)
Lemma C6_rtl_line_not_at_left_margin :
  num_columns one_column_rtl = 1 /\
  left_margin one_column_rtl = 36 /\
  map the_ops (trace (output_pages FORMAT_PDF toy_header [line_12pt]
                                   one_column_rtl false))
  = [[cairo_identity_matrix];
     [cairo_move_to (inject_Z 509) (inject_Z 48);
      pango_cairo_show_layout_line (pango_line line_12pt)];
     [cairo_show_page]] /\
  509 <> left_margin one_column_rtl.
Proof. repeat split. discriminate. Qed.

(** *** The stretch scale *)

(** The scale in points: [72 / lpi] over the greatest line height. *)
Lemma stretch_scale_points (lines_per_inch : Q) (max_height : Z) :
  ~ (lines_per_inch == 0)%Q -> max_height <> 0 ->
  (stretch_scale lines_per_inch max_height
   == (72 / lines_per_inch) / (inject_Z max_height / inject_Z PANGO_SCALE))%Q.
Proof.
  intros Hl Hm. unfold stretch_scale, PANGO_SCALE.
  assert (~ (inject_Z max_height == 0)%Q).
  { unfold Qeq. cbn. lia. }
  field. repeat split; try assumption; discriminate.
Qed.

Lemma no_scale_app (a b : list cairo_op) :
  no_scale (a ++ b) = no_scale a && no_scale b.
Proof. apply forallb_app. Qed.

(** A line is shown under a scale only if a scale is in force before or is
    sent on the way. *)
Lemma shows_without_scale (ops : list cairo_op) :
  forall ctm,
    no_scale ops = true -> no_scale ctm = true ->
    Forall (fun shown => no_scale (fst shown) = true) (shows_with_ctm ctm ops).
Proof.
  induction ops as [|op ops IH]; intros ctm Hops Hctm; [constructor|].
  cbn [no_scale forallb] in Hops. apply andb_true_iff in Hops as (Hop & Hops).
  destruct op; cbn [shows_with_ctm]; try (apply IH; assumption).
  - apply IH; [assumption|]. rewrite no_scale_app, Hctm. reflexivity.
  - apply IH; [assumption|]. rewrite no_scale_app, Hctm. reflexivity.
  - discriminate Hop.
  - constructor; [exact Hctm|]. apply IH; assumption.
Qed.

Lemma no_scale_cons (op : cairo_op) (ops : list cairo_op) :
  no_scale (op :: ops) = negb (is_scale op) && no_scale ops.
Proof. reflexivity. Qed.

Lemma start_page_no_scale (fmt : output_format_t) (page_layout : page_layout_t) (page : Z) :
  exists ops, start_page fmt page_layout page = cairo_identity_matrix :: ops
              /\ no_scale ops = true.
Proof.
  unfold start_page, is_postscript.
  destruct fmt, (do_landscape page_layout); eexists; split; reflexivity.
Qed.

Lemma break_calls_no_scale
      (fmt : output_format_t) (hl : Z -> Z -> PangoLayoutLine) (nh : bool)
      (st : flow_state) :
  no_scale (cairo_log (break_calls fmt hl nh st)) = true.
Proof.
  unfold break_calls, cairo_log.
  destruct (column_idx st + 1 =? num_columns (layout st)).
  - destruct (start_page_no_scale fmt (layout st) (page_idx st + 1)) as (ops & -> & Hops).
    destruct nh; cbn [map concat the_ops];
      rewrite ?app_nil_r, !no_scale_app, no_scale_cons, Hops; reflexivity.
  - cbn. unfold eject_column. destruct (do_separation_line (layout st)); reflexivity.
Qed.

Lemma cairo_log_app (t1 t2 : list call_record) :
  cairo_log (t1 ++ t2) = cairo_log t1 ++ cairo_log t2.
Proof. unfold cairo_log. now rewrite map_app, concat_app. Qed.

(** [output_pages] sends no scale, and what a run adds to the log comes
    after what was there. *)
Lemma flow_lines_log
      (fmt : output_format_t) (hl : Z -> Z -> PangoLayoutLine) (nh : bool)
      (pango_lines : list LineLink) :
  forall st,
    exists ops,
      cairo_log (trace (flow_lines fmt hl nh st pango_lines))
      = cairo_log (trace st) ++ ops
      /\ no_scale ops = true.
Proof.
  induction pango_lines as [|l rest IH]; intros st.
  - exists []. split; [now rewrite app_nil_r|reflexivity].
  - cbn [flow_lines fold_left].
    destruct (IH (place_line fmt hl nh st l)) as (ops & Hlog & Hops).
    unfold flow_lines in Hlog. rewrite Hlog.
    pose proof (place_line_trace fmt hl nh st l) as Ht. cbn zeta in Ht.
    rewrite Ht, !cairo_log_app, <- !app_assoc.
    eexists. split; [reflexivity|].
    rewrite !no_scale_app, Hops.
    destruct (needs_break st l); [rewrite break_calls_no_scale|]; reflexivity.
Qed.

(** In every run the scale that [main] hands to cairo is no longer in force
    when a line is shown: the first [start_page] resets the matrix, and
    nothing sets a scale after it. *)
Lemma stretch_scale_not_in_force
      (fmt : output_format_t) (hl : Z -> Z -> PangoLayoutLine)
      (layout_lines : PangoLayout -> list PangoLayoutLine)
      (page_layout : page_layout_t) (paragraphs : list Paragraph)
      (do_draw_header : bool) :
  Forall (fun shown => no_scale (fst shown) = true)
         (shows_with_ctm [] (render fmt hl layout_lines page_layout paragraphs
                                    do_draw_header)).
Proof.
  unfold render.
  destruct (split_paragraphs_into_lines layout_lines page_layout paragraphs)
    as [page_layout' pango_lines].
  cbn [shows_with_ctm]. unfold output_pages. cbn [record trace].
  rewrite cairo_log_app.
  destruct (flow_lines_log fmt hl do_draw_header pango_lines
              (initial_state fmt hl page_layout' do_draw_header)) as (ops & -> & Hops).
  destruct (start_page_no_scale fmt page_layout' 1) as (ops1 & Hstart & Hops1).
  unfold initial_state.
  destruct do_draw_header; cbn [header_if_needed record trace app cairo_log map concat
                                 the_ops draw_page_header_line_to_page layout page_idx];
    rewrite Hstart; rewrite <- !app_assoc; cbn [app shows_with_ctm];
    (apply shows_without_scale; [|reflexivity]);
    repeat (rewrite no_scale_app || rewrite no_scale_cons);
    rewrite Hops1, Hops; reflexivity.
Qed.

(** C8.  Six lines per inch, characters stretched, two lines 10 and 14
    points high.  The scale is computed once, over the whole stream, as
    (72/6)/14 = 12/14, both lines advance by 12 points, and the scale is the
    first thing handed to cairo.  The [start_page] of the first page then
    resets the matrix: both lines are shown under the identity, not
    stretched. *)
Theorem C8_stretch_scale_reset_before_drawing :
  let split := split_paragraphs_into_lines toy_lines lpi_6_stretched paragraphs_10_14 in
  let log := render FORMAT_PDF toy_header toy_lines lpi_6_stretched paragraphs_10_14 false in
  map (fun l => rect_height (logical_rect l)) (snd split) = [10 * PANGO_SCALE; 14 * PANGO_SCALE]
  /\ (scale_y (fst split) == 12 / 14)%Q
  /\ assignments (trace (output_pages FORMAT_PDF toy_header (snd split) (fst split) false))
     = [(1, 0, 12 * PANGO_SCALE); (1, 0, 2 * (12 * PANGO_SCALE))]
  /\ firstn 2 log = [cairo_scale 1 (scale_y (fst split)); cairo_identity_matrix]
  /\ map fst (shows_with_ctm [] log) = [[]; []].
Proof. vm_compute. repeat split. Qed.

(** *** The end-to-end scenario of the specification *)

(** "A", newline, "B", form feed, " C", newline, one column with room for one
    line: three paragraphs, the second one closed by the form feed; three
    lines, one on each of three pages; the run returns page 3. *)
Lemma three_pages_scenario :
  exists paragraphs,
    Segmenter.split_text_into_paragraphs Segmenter.wcwidth_utf8 no_extents 0
      one_line_pages text_a_b_c 100 523 = Ok paragraphs
    /\ map para_formfeed paragraphs = [0; 1; 0]
    /\ map (fun para => layout_text (para_layout para)) paragraphs = [[65]; [66]; [32; 67]]
    /\ let pango_lines := snd (split_paragraphs_into_lines single_line one_line_pages
                                                            paragraphs) in
       let run := output_pages FORMAT_PDF toy_header pango_lines one_line_pages false in
       map formfeed pango_lines = [0; 1; 0]
       /\ assignments (trace run)
          = [(1, 0, 12 * PANGO_SCALE); (2, 0, 12 * PANGO_SCALE); (3, 0, 12 * PANGO_SCALE)]
       /\ page_idx run = 3.
Proof. eexists. split; [vm_compute; reflexivity|]. vm_compute. repeat split. Qed.

End FlowFacts.

(** * Further properties of the code *)

Module ReadFileMore.
Import ReadFile.

Lemma fgets_take_app (k : nat) (file : list Z) :
  fst (fgets_take k file) ++ snd (fgets_take k file) = file.
Proof.
  revert file; induction k as [|k IH]; intros [|c rest]; try reflexivity.
  cbn [fgets_take]. destruct (c =? newline); [reflexivity|].
  specialize (IH rest). destruct (fgets_take k rest). cbn in *. now rewrite IH.
Qed.

Lemma c_str_nul_free (l : list Z) : Forall (fun c => c <> 0) l -> c_str l = l.
Proof.
  induction 1 as [|c l Hc _ IH]; [reflexivity|].
  cbn. apply Z.eqb_neq in Hc. now rewrite Hc, IH.
Qed.

Lemma c_str_no_nul (l : list Z) : Forall (fun c => c <> 0) (c_str l).
Proof.
  induction l as [|c l IH]; cbn; [constructor|].
  destruct (c =? 0) eqn:E; constructor; [now apply Z.eqb_neq|exact IH].
Qed.

Lemma c_str_app_nul (pre post : list Z) :
  Forall (fun c => c <> 0) pre -> c_str (pre ++ 0 :: post) = pre.
Proof.
  induction 1 as [|c l Hc _ IH]; [reflexivity|].
  cbn. apply Z.eqb_neq in Hc. now rewrite Hc, IH.
Qed.

(** [fgets] delivers a whole line when the line fits. *)
Lemma fgets_take_line (k : nat) (line rest : list Z) :
  Forall (fun c => c <> newline) line ->
  (length line < k)%nat ->
  fgets_take k (line ++ newline :: rest) = (line ++ [newline], rest).
Proof.
  intros Hline; revert k; induction Hline as [|c l Hc _ IH]; intros k Hk.
  - destruct k; [cbn in Hk; lia|reflexivity].
  - destruct k; [cbn in Hk; lia|]. cbn [app fgets_take].
    apply Z.eqb_neq in Hc. rewrite Hc, IH by (cbn in Hk; lia). reflexivity.
Qed.

(** Without NUL bytes the loop rebuilds the file: how [fgets] cuts it into
    chunks does not show. *)
Lemma read_loop_nul_free (fuel : nat) :
  forall file inbuf,
    Forall (fun c => c <> 0) file ->
    (length file < fuel)%nat ->
    read_loop None fuel file inbuf = Ok (inbuf ++ file).
Proof.
  induction fuel as [|fuel IH]; intros file inbuf Hnul Hlen; [lia|].
  destruct file as [|c rest]; [cbn; now rewrite app_nil_r|].
  rewrite ReadFileFacts.read_loop_cons.
  pose proof (ReadFileFacts.fgets_take_shrinks 1021 c rest) as Hs.
  pose proof (fgets_take_app 1022 (c :: rest)) as Happ.
  change (fgets_take (S 1021) (c :: rest)) with (fgets_take 1022 (c :: rest)) in Hs.
  destruct (fgets_take 1022 (c :: rest)) as [chunk rest'].
  cbn [fst snd] in *.
  assert (Hboth : Forall (fun c => c <> 0) chunk /\ Forall (fun c => c <> 0) rest').
  { rewrite <- Happ in Hnul. now apply Forall_app in Hnul. }
  destruct Hboth as (Hchunk & Hrest).
  rewrite (c_str_nul_free chunk Hchunk), IH by (assumption || (cbn [length] in *; lia)).
  now rewrite <- app_assoc, Happ.
Qed.

(** X1.  A file without NUL bytes comes back as it is, with a newline put
    after it when it does not end with one: the chunks of 1022 bytes that
    [fgets] reads do not show in the buffer. *)
Theorem read_file_returns_the_text (file : list Z) :
  file <> [] ->
  Forall (fun c => c <> 0) file ->
  read_file None file
  = Ok (if last file 0 =? newline then file else file ++ [newline]).
Proof.
  intros Hne Hnul. unfold read_file.
  rewrite read_loop_nul_free by (assumption || lia).
  cbn [bind app]. destruct file as [|c rest]; [contradiction|].
  cbn [last_byte bind]. destruct (last (c :: rest) 0 =? newline); reflexivity.
Qed.

Lemma read_file_returns_the_text_witness :
  [104; 105] <> [] /\ read_file None [104; 105] = Ok [104; 105; 10].
Proof.
  assert (H : [104; 105] <> []) by discriminate.
  split; [exact H|].
  apply (read_file_returns_the_text [104; 105] H).
  repeat constructor; discriminate.
Defined.

Section AnyHandle.

Variable handle : option (list Z -> option (list Z)).

Lemma read_loop_no_nul (fuel : nat) :
  forall file inbuf out,
    Forall (fun c => c <> 0) inbuf ->
    read_loop handle fuel file inbuf = Ok out ->
    Forall (fun c => c <> 0) out.
Proof.
  induction fuel as [|fuel IH]; intros file inbuf out Hin Hrun; [discriminate|].
  cbn [read_loop] in Hrun. destruct (fgets (BUFSIZE - 1) file) as [[buffer rest]|].
  - unfold convert in Hrun. destruct handle as [conv|].
    + destruct (conv (c_str buffer)) as [obuffer|]; [|discriminate].
      cbn [bind] in Hrun. eapply IH; [|exact Hrun].
      apply Forall_app. split; [exact Hin|apply c_str_no_nul].
    + cbn [bind] in Hrun. eapply IH; [|exact Hrun].
      apply Forall_app. split; [exact Hin|apply c_str_no_nul].
  - injection Hrun as <-. exact Hin.
Qed.

(** X2.  Whatever the file holds and whatever the converter does, a buffer
    that [read_file] returns is a C string that ends with a newline: it holds
    no NUL byte and its last byte is the newline. *)
Theorem read_file_result_is_terminated_text (file text : list Z) :
  read_file handle file = Ok text ->
  Forall (fun c => c <> 0) text /\ last text 0 = newline /\ text <> [].
Proof.
  unfold read_file. intros Hrun.
  destruct (read_loop handle (S (length file)) file []) as [inbuf| | |] eqn:Hloop;
    try discriminate.
  cbn [bind] in Hrun.
  pose proof (read_loop_no_nul _ _ _ _ (Forall_nil _) Hloop) as Hin.
  destruct inbuf as [|b inbuf]; [discriminate|].
  cbn [last_byte bind] in Hrun.
  destruct (last (b :: inbuf) 0 =? newline) eqn:El; cbn [negb] in Hrun;
    injection Hrun as <-.
  - split; [exact Hin|]. split; [now apply Z.eqb_eq|discriminate].
  - split; [|split].
    + apply (proj2 (Forall_app _ (b :: inbuf) [newline])).
      split; [exact Hin|]. repeat constructor. discriminate.
    + apply (last_last (b :: inbuf)).
    + discriminate.
Qed.

End AnyHandle.

Lemma read_file_result_is_terminated_text_witness :
  read_file None [97; 0; 98] = Ok [97; 10] /\
  Forall (fun c => c <> 0) [97; 10] /\ last [97; 10] 0 = newline /\ [97; 10] <> [].
Proof.
  assert (H : read_file None [97; 0; 98] = Ok [97; 10]) by reflexivity.
  split; [exact H|].
  exact (read_file_result_is_terminated_text None [97; 0; 98] [97; 10] H).
Defined.

Lemma read_loop_chunk (fuel : nat) (file inbuf : list Z) :
  file <> [] ->
  read_loop None (S fuel) file inbuf
  = read_loop None fuel (snd (fgets_take 1022 file))
              (inbuf ++ c_str (fst (fgets_take 1022 file))).
Proof.
  destruct file as [|c rest]; [contradiction|]. intros _.
  apply ReadFileFacts.read_loop_cons.
Qed.

(** [fgets] delivers what is left of the file when it holds no newline and
    fits. *)
Lemma fgets_take_all (tail : list Z) :
  forall k,
    Forall (fun c => c <> newline) tail ->
    (length tail <= k)%nat ->
    fgets_take k tail = (tail, []).
Proof.
  induction tail as [|c tail IH]; intros k Hnl Hk; [now destruct k|].
  destruct k; [cbn in Hk; lia|]. cbn [fgets_take].
  pose proof (Forall_inv Hnl) as Hc. cbv beta in Hc. apply Z.eqb_neq in Hc.
  rewrite Hc, (IH k (Forall_inv_tail Hnl)) by (cbn in Hk; lia). reflexivity.
Qed.

(** The loop reads a file of short lines line by line, and appends every
    line as a C string. *)
Lemma read_loop_lines (lines : list (list Z)) (tail : list Z) :
  Forall (fun line => Forall (fun c => c <> newline) line /\ (length line < 1022)%nat)
         lines ->
  Forall (fun c => c <> newline) tail ->
  (length tail <= 1022)%nat ->
  forall (fuel : nat) (inbuf : list Z),
    (length (Reference.file_of_lines lines tail) < fuel)%nat ->
    read_loop None fuel (Reference.file_of_lines lines tail) inbuf
    = Ok (inbuf ++ Reference.lines_cut_at_nul lines tail).
Proof.
  unfold Reference.file_of_lines, Reference.lines_cut_at_nul.
  intros Hlines Htail Hlen.
  induction Hlines as [|line lines (Hnl & Hshort) _ IH]; intros fuel inbuf Hfuel.
  - cbn [map concat app] in *. destruct fuel as [|fuel]; [lia|].
    destruct tail as [|c tail]; [cbn; now rewrite app_nil_r|].
    rewrite read_loop_chunk by discriminate.
    rewrite (fgets_take_all (c :: tail) 1022 Htail Hlen). cbn [fst snd].
    destruct fuel as [|fuel]; [cbn [length] in Hfuel; lia|]. reflexivity.
  - cbn [map concat] in *. rewrite <- !app_assoc in *. cbn [app] in *.
    destruct fuel as [|fuel]; [lia|].
    rewrite read_loop_chunk by (destruct line; discriminate).
    rewrite (fgets_take_line 1022 line _ Hnl Hshort). cbn [fst snd].
    rewrite IH.
    + now rewrite <- !app_assoc.
    + rewrite length_app in Hfuel. cbn [length] in Hfuel. lia.
Qed.

(** X3.  Lines are read one by one and appended as C strings, so a NUL byte
    in a line swallows the rest of the line, the newline included, and the
    next line is joined to what stood before the NUL.  For a file whose
    lines fit a chunk of [fgets], the buffer is the file with every line cut
    at its first NUL byte, closed by a newline when it does not end with
    one. *)
Theorem read_file_cuts_lines_at_nul (lines : list (list Z)) (tail : list Z) :
  Forall (fun line => Forall (fun c => c <> newline) line /\ (length line < 1022)%nat)
         lines ->
  Forall (fun c => c <> newline) tail ->
  (length tail <= 1022)%nat ->
  Reference.lines_cut_at_nul lines tail <> [] ->
  read_file None (Reference.file_of_lines lines tail)
  = Ok (if last (Reference.lines_cut_at_nul lines tail) 0 =? newline
        then Reference.lines_cut_at_nul lines tail
        else Reference.lines_cut_at_nul lines tail ++ [newline]).
Proof.
  intros Hlines Htail Hlen Hne. unfold read_file.
  rewrite (read_loop_lines lines tail Hlines Htail Hlen) by lia.
  cbn [bind app].
  destruct (Reference.lines_cut_at_nul lines tail) as [|b text]; [contradiction|].
  cbn [last_byte bind]. destruct (last (b :: text) 0 =? newline); reflexivity.
Qed.

Lemma read_file_cuts_lines_at_nul_witness :
  (* "a", newline, "b", NUL, "c", newline, "d", newline *)
  read_file None [97; 10; 98; 0; 99; 10; 100; 10] = Ok [97; 10; 98; 100; 10].
Proof.
  apply (read_file_cuts_lines_at_nul [[97]; [98; 0; 99]; [100]] []);
    [|constructor|cbn; lia|discriminate].
  repeat constructor; try discriminate; cbn; lia.
Defined.

End ReadFileMore.

Module SegmenterMore.
Import Utf8 Segmenter Reference.

Lemma land_127 (c : Z) : 0 <= c < 128 -> Z.land c 0x7f = c.
Proof.
  intros H. change 0x7f with (Z.ones 7). rewrite Z.land_ones by lia.
  apply Z.mod_small. change (2 ^ 7) with 128. lia.
Qed.

Lemma byte_at_app (done rest : list Z) (c : Z) :
  byte_at (done ++ c :: rest) (length done) = c.
Proof. unfold byte_at. rewrite app_nth2, Nat.sub_diag by lia. reflexivity. Qed.

Lemma ascii_get_char (text : list Z) (p : nat) :
  is_ascii (byte_at text p) -> g_utf8_get_char text p = byte_at text p.
Proof.
  unfold is_ascii, g_utf8_get_char, utf8_compute. intros H.
  replace (byte_at text p <? 128) with true by (symmetry; apply Z.ltb_lt; lia).
  cbn [Nat.sub utf8_get]. apply land_127. lia.
Qed.

Lemma ascii_next_char (text : list Z) (p : nat) :
  is_ascii (byte_at text p) -> g_utf8_next_char text p = S p.
Proof.
  unfold is_ascii, g_utf8_next_char, g_utf8_skip. intros H.
  replace (byte_at text p <? 0xc0) with true by (symmetry; apply Z.ltb_lt; lia).
  lia.
Qed.

Lemma slice_middle (done cur rest : list Z) :
  slice (done ++ cur ++ rest) (length done) (length done + length cur) = cur.
Proof.
  unfold slice. rewrite skipn_app, skipn_all, Nat.sub_diag. cbn [skipn app].
  replace (length done + length cur - length done)%nat with (length cur) by lia.
  rewrite firstn_app, firstn_all, Nat.sub_diag. cbn. apply app_nil_r.
Qed.

Section PlainScan.

Variable wcwidth : Z -> Z.
Variable layout_extents_width : list Z -> Z.
Variable page_layout : page_layout_t.

Hypothesis no_rewrap : Qpositive (cpi page_layout) && do_wordwrap page_layout = false.

(** The loop over a text of one-byte characters, from any place in it. *)
Lemma scan_loop_ascii (rest : list Z) :
  forall (text done cur : list Z) (fuel : nat) (st : scan_state),
    text = done ++ cur ++ rest ->
    Forall is_ascii rest ->
    (length rest < fuel)%nat ->
    p st = (length done + length cur)%nat ->
    last_para st = length done ->
    scan_loop wcwidth layout_extents_width page_layout text fuel st
    = Ok (rev (map (paragraph_of_run page_layout (paint_width st))
                   (text_runs (length done) cur rest)) ++ result st).
Proof.
  induction rest as [|c rest IH];
    intros text done cur fuel st Htext Hascii Hfuel Hp Hlast.
  - destruct fuel; [cbn in Hfuel; lia|].
    rewrite SegmenterFacts.scan_loop_end; [reflexivity|].
    rewrite Hp, Htext, !length_app. cbn [length]. lia.
  - destruct fuel; [cbn in Hfuel; lia|].
    pose proof (Forall_inv Hascii) as Hc. pose proof (Forall_inv_tail Hascii) as Hrest.
    assert (Hbyte : byte_at text (p st) = c).
    { rewrite Hp, Htext, app_assoc, <- length_app. apply byte_at_app. }
    assert (Hc' : is_ascii (byte_at text (p st))) by now rewrite Hbyte.
    assert (Hz : (c =? 0) = false) by (apply Z.eqb_neq; unfold is_ascii in Hc; lia).
    assert (Hi : (c =? invalid_char) = false)
      by (apply Z.eqb_neq; unfold is_ascii, invalid_char in *; lia).
    rewrite SegmenterFacts.scan_loop_turn by (rewrite Hbyte; exact Hz).
    unfold scan_body.
    rewrite (ascii_get_char _ _ Hc'), (ascii_next_char _ _ Hc'), Hbyte, Hi, Hz.
    cbn [andb orb text_runs]. unfold is_boundary.
    destruct ((c =? newline) || (c =? formfeed_char)) eqn:Eb.
    + unfold emit_paragraph. rewrite no_rewrap. cbn [bind].
      unfold close_paragraph. rewrite Hz.
      rewrite (IH text (done ++ cur ++ [c]) [] fuel); cbn [set_p p last_para result paint_width].
      * rewrite Hp, Hlast, Htext, slice_middle.
        cbn [map rev paragraph_of_run]. rewrite <- app_assoc. cbn [app].
        rewrite !length_app. cbn [length].
        replace (length done + (length cur + 1))%nat
          with (length done + length cur + 1)%nat by lia.
        do 4 f_equal. f_equal. lia.
      * rewrite Htext, <- !app_assoc. reflexivity.
      * assumption.
      * cbn [length] in Hfuel. lia.
      * rewrite Hp, !length_app. cbn [length]. lia.
      * rewrite Hp, !length_app. cbn [length]. lia.
    + cbn [bind].
      rewrite (IH text done (cur ++ [c]) fuel); cbn [set_p p last_para result paint_width].
      * reflexivity.
      * rewrite Htext, <- !app_assoc. reflexivity.
      * assumption.
      * cbn [length] in Hfuel. lia.
      * rewrite Hp, !length_app. cbn [length]. lia.
      * exact Hlast.
Qed.

End PlainScan.

(** X4.  In plain mode without CPI re-wrapping, a text of one-byte
    characters is split exactly at its newlines and form feeds: there is one
    paragraph for every such byte, it holds the bytes since the boundary
    before, it starts at their offset, and it is flagged when the byte is a
    form feed.  This holds with and without CUPS mode. *)
Theorem plain_scan_splits_at_boundaries
        (wcwidth : Z -> Z) (layout_extents_width : list Z -> Z) (uninitialised : Z)
        (page_layout : page_layout_t) (text : list Z) (fuel : nat) (paint_w : Z) :
  do_use_markup page_layout = false ->
  Qpositive (cpi page_layout) && do_wordwrap page_layout = false ->
  Forall is_ascii text ->
  (length text < fuel)%nat ->
  split_text_into_paragraphs wcwidth layout_extents_width uninitialised
                             page_layout text fuel paint_w
  = Ok (map (paragraph_of_run page_layout paint_w) (text_runs 0 [] text)).
Proof.
  intros Hmarkup Hcpi Hascii Hfuel. unfold split_text_into_paragraphs.
  rewrite Hmarkup.
  rewrite (scan_loop_ascii wcwidth layout_extents_width page_layout Hcpi
                           text text [] [] fuel);
    try reflexivity; try assumption.
  cbn [bind result paint_width length]. now rewrite app_nil_r, rev_involutive.
Qed.

Lemma plain_scan_splits_at_boundaries_witness :
  split_text_into_paragraphs wcwidth_utf8 Examples.no_extents 0
    Examples.plain_layout Examples.text_a_b_c 100 523
  = Ok (map (paragraph_of_run Examples.plain_layout 523)
            [(0%nat, [65], 0); (2%nat, [66], 1); (4%nat, [32; 67], 0)]).
Proof.
  apply (plain_scan_splits_at_boundaries wcwidth_utf8 Examples.no_extents 0
           Examples.plain_layout Examples.text_a_b_c 100 523);
    [reflexivity|reflexivity| |cbn; lia].
  repeat constructor.
Defined.

Lemma text_runs_no_boundary (tail : list Z) :
  forall start cur,
    Forall (fun c => is_boundary c = false) tail -> text_runs start cur tail = [].
Proof.
  induction tail as [|c tail IH]; intros start cur H; [reflexivity|].
  cbn [text_runs]. rewrite (Forall_inv H). apply IH, (Forall_inv_tail H).
Qed.

Lemma text_runs_tail (text tail : list Z) :
  forall start cur,
    Forall (fun c => is_boundary c = false) tail ->
    text_runs start cur (text ++ tail) = text_runs start cur text.
Proof.
  induction text as [|c text IH]; intros start cur H.
  - now apply text_runs_no_boundary.
  - cbn [app text_runs]. destruct (is_boundary c); now rewrite IH.
Qed.

(** X5.  Plain mode without CPI re-wrapping, one-byte characters.  What
    follows the last newline or form feed of the text is not emitted: the
    scanner returns the same paragraphs with and without an unterminated
    last run of such characters. *)
Theorem plain_scan_drops_unterminated_tail
        (wcwidth : Z -> Z) (layout_extents_width : list Z -> Z) (uninitialised : Z)
        (page_layout : page_layout_t) (text tail : list Z) (fuel : nat) (paint_w : Z) :
  do_use_markup page_layout = false ->
  Qpositive (cpi page_layout) && do_wordwrap page_layout = false ->
  Forall is_ascii text ->
  Forall is_ascii tail ->
  Forall (fun c => is_boundary c = false) tail ->
  (length (text ++ tail) < fuel)%nat ->
  split_text_into_paragraphs wcwidth layout_extents_width uninitialised
                             page_layout (text ++ tail) fuel paint_w
  = split_text_into_paragraphs wcwidth layout_extents_width uninitialised
                               page_layout text fuel paint_w.
Proof.
  intros Hmarkup Hcpi Htext Htail Hnb Hfuel.
  rewrite !plain_scan_splits_at_boundaries; try assumption.
  - now rewrite text_runs_tail.
  - rewrite length_app in Hfuel. lia.
  - apply Forall_app. now split.
Qed.

Lemma plain_scan_drops_unterminated_tail_witness :
  split_text_into_paragraphs wcwidth_utf8 Examples.no_extents 0
    Examples.plain_layout ([65; 10] ++ [66; 67]) 100 523
  = split_text_into_paragraphs wcwidth_utf8 Examples.no_extents 0
      Examples.plain_layout [65; 10] 100 523.
Proof.
  apply plain_scan_drops_unterminated_tail;
    [reflexivity|reflexivity| | | |cbn; lia];
    repeat constructor.
Defined.

Lemma runs_round_trip (page_layout : page_layout_t) (paint_w : Z) (rest : list Z) :
  forall start cur,
    Forall (fun c => is_boundary c = false) cur ->
    let paragraphs := map (paragraph_of_run page_layout paint_w)
                          (text_runs start cur rest) in
    Forall (fun para => Forall (fun c => is_boundary c = false)
                               (layout_text (para_layout para))) paragraphs
    /\ exists tail,
        Forall (fun c => is_boundary c = false) tail
        /\ cur ++ rest = concat (map with_boundary paragraphs) ++ tail.
Proof.
  induction rest as [|c rest IH]; intros start cur Hcur; cbn zeta.
  - split; [constructor|]. exists cur. split; [exact Hcur|]. now rewrite app_nil_r.
  - cbn [text_runs]. destruct (is_boundary c) eqn:Eb.
    + destruct (IH (start + length cur + 1)%nat [] (Forall_nil _)) as (Hall & tail & Htail & Heq).
      cbn zeta in Hall, Heq. cbn [map]. split.
      * constructor; [exact Hcur|exact Hall].
      * exists tail. split; [exact Htail|].
        cbn [concat]. rewrite <- app_assoc, <- Heq.
        unfold with_boundary. cbn [paragraph_of_run layout_text para_layout para_formfeed
                                   wrapped_layout app].
        rewrite <- app_assoc. cbn [app]. do 2 f_equal.
        unfold is_boundary in Eb. apply orb_true_iff in Eb.
        destruct (c =? formfeed_char) eqn:Ef.
        -- apply Z.eqb_eq in Ef. now subst c.
        -- destruct Eb as [Eb|Eb]; [|discriminate]. apply Z.eqb_eq in Eb. now subst c.
    + destruct (IH start (cur ++ [c])) as (Hall & tail & Htail & Heq).
      { apply Forall_app. split; [exact Hcur|]. now repeat constructor. }
      cbn zeta in Hall, Heq. split; [exact Hall|].
      exists tail. split; [exact Htail|]. rewrite <- Heq, <- app_assoc. reflexivity.
Qed.

(** X6.  Plain mode without CPI re-wrapping, one-byte characters.  Nothing
    is lost or added between the boundaries: no paragraph holds a newline or
    a form feed, and the paragraphs, each followed by the byte that ended it
    (a form feed when it is flagged, a newline when not), give back the text
    up to an unterminated last run. *)
Theorem plain_scan_round_trip
        (wcwidth : Z -> Z) (layout_extents_width : list Z -> Z) (uninitialised : Z)
        (page_layout : page_layout_t) (text : list Z) (fuel : nat) (paint_w : Z) :
  do_use_markup page_layout = false ->
  Qpositive (cpi page_layout) && do_wordwrap page_layout = false ->
  Forall is_ascii text ->
  (length text < fuel)%nat ->
  exists paragraphs tail,
    split_text_into_paragraphs wcwidth layout_extents_width uninitialised
                               page_layout text fuel paint_w = Ok paragraphs
    /\ Forall (fun para => Forall (fun c => is_boundary c = false)
                                  (layout_text (para_layout para))) paragraphs
    /\ Forall (fun c => is_boundary c = false) tail
    /\ text = concat (map with_boundary paragraphs) ++ tail.
Proof.
  intros Hmarkup Hcpi Hascii Hfuel.
  destruct (runs_round_trip page_layout paint_w text 0%nat [] (Forall_nil _))
    as (Hall & tail & Htail & Heq).
  cbn zeta in Hall, Heq.
  eexists. exists tail. split; [now apply plain_scan_splits_at_boundaries|].
  split; [exact Hall|]. split; [exact Htail|exact Heq].
Qed.

Lemma plain_scan_round_trip_witness :
  exists paragraphs tail,
    split_text_into_paragraphs wcwidth_utf8 Examples.no_extents 0
      Examples.plain_layout Examples.text_a_b_c 100 523 = Ok paragraphs
    /\ Forall (fun para => Forall (fun c => is_boundary c = false)
                                  (layout_text (para_layout para))) paragraphs
    /\ Forall (fun c => is_boundary c = false) tail
    /\ Examples.text_a_b_c = concat (map with_boundary paragraphs) ++ tail.
Proof.
  apply plain_scan_round_trip; [reflexivity|reflexivity| |cbn; lia].
  repeat constructor.
Defined.

Section CpiScan.

Variable wcwidth : Z -> Z.
Variable layout_extents_width : list Z -> Z.
Variable page_layout : page_layout_t.

Hypothesis rewrap : Qpositive (cpi page_layout) && do_wordwrap page_layout = true.

#[local] Abbreviation scan := (scan_loop wcwidth layout_extents_width page_layout).

Lemma scan_step_plain (text : list Z) (st : scan_state) (fuel : nat) :
  is_ascii (byte_at text (p st)) ->
  is_boundary (byte_at text (p st)) = false ->
  scan text (S fuel) st = scan text fuel (set_p st (S (p st))).
Proof.
  intros Hc Hb. pose proof Hc as Hc'. unfold is_ascii in Hc'.
  rewrite SegmenterFacts.scan_loop_turn by (apply Z.eqb_neq; lia).
  unfold scan_body.
  rewrite (ascii_get_char _ _ Hc), (ascii_next_char _ _ Hc).
  replace (byte_at text (p st) =? invalid_char) with false
    by (symmetry; apply Z.eqb_neq; unfold invalid_char; lia).
  cbn [andb].
  replace (byte_at text (p st) =? 0) with false by (symmetry; apply Z.eqb_neq; lia).
  unfold is_boundary in Hb. cbn [orb]. rewrite Hb. reflexivity.
Qed.

(** Over characters that are no boundary the loop only moves [p]. *)
Lemma scan_walk (line : list Z) :
  forall (text done rest : list Z) (st : scan_state) (fuel : nat),
    text = done ++ line ++ rest ->
    Forall (fun c => is_ascii c /\ is_boundary c = false) line ->
    p st = length done ->
    scan text (length line + fuel) st
    = scan text fuel (set_p st (length done + length line)).
Proof.
  induction line as [|c line IH]; intros text done rest st fuel Htext Hline Hp.
  - cbn [length Nat.add]. rewrite Nat.add_0_r, <- Hp. now destruct st.
  - destruct (Forall_inv Hline) as (Hc & Hb).
    assert (Hbyte : byte_at text (p st) = c)
      by (rewrite Hp, Htext; apply byte_at_app).
    cbn [length Nat.add]. rewrite scan_step_plain by now rewrite Hbyte.
    rewrite (IH text (done ++ [c]) rest).
    + cbn [set_p last_para paint_width result]. rewrite length_app. cbn [length].
      replace (length done + 1 + length line)%nat
        with (length done + S (length line))%nat by lia.
      reflexivity.
    + rewrite Htext, <- app_assoc. reflexivity.
    + exact (Forall_inv_tail Hline).
    + cbn [set_p p]. rewrite Hp, length_app. cbn [length]. lia.
Qed.

Lemma to_ucs4_ascii (line : list Z) :
  forall (text done rest : list Z) (fuel : nat),
    text = done ++ line ++ rest ->
    Forall is_ascii line ->
    (length line <= fuel)%nat ->
    to_ucs4_loop fuel text (length done + length line) (length done) = Some line.
Proof.
  induction line as [|c line IH]; intros text done rest fuel Htext Hline Hfuel.
  - destruct fuel; [reflexivity|]. cbn [to_ucs4_loop length].
    rewrite Nat.add_0_r, Nat.ltb_irrefl. reflexivity.
  - destruct fuel; [cbn in Hfuel; lia|].
    pose proof (Forall_inv Hline) as Hc.
    assert (Hbyte : byte_at text (length done) = c) by (rewrite Htext; apply byte_at_app).
    assert (Hc' : is_ascii (byte_at text (length done))) by now rewrite Hbyte.
    cbn [to_ucs4_loop length].
    replace (length done <? length done + S (length line))%nat with true
      by (symmetry; apply Nat.ltb_lt; lia).
    unfold char_accepted.
    rewrite (ascii_get_char _ _ Hc'), (ascii_next_char _ _ Hc'), Hbyte.
    unfold is_ascii in Hc.
    replace (c =? 0) with false by (symmetry; apply Z.eqb_neq; lia).
    replace (c =? invalid_char) with false
      by (symmetry; apply Z.eqb_neq; unfold invalid_char; lia).
    unfold utf8_min_code.
    replace (c <? 0x80) with true by (symmetry; apply Z.ltb_lt; lia).
    replace (0 <=? c) with true by (symmetry; apply Z.leb_le; lia).
    cbn [negb andb].
    specialize (IH text (done ++ [c]) rest fuel).
    rewrite length_app in IH. cbn [length] in IH.
    replace (length done + 1 + length line)%nat with (length done + S (length line))%nat
      in IH by lia.
    replace (length done + 1)%nat with (S (length done)) in IH by lia.
    rewrite IH; [reflexivity| |exact (Forall_inv_tail Hline)|cbn [length] in Hfuel; lia].
    rewrite Htext, <- app_assoc. reflexivity.
Qed.

Lemma strlen_loop_ascii (line2 : list Z) :
  forall (text done line1 rest : list Z) (fuel : nat) (len : Z),
    text = done ++ line1 ++ line2 ++ rest ->
    Forall is_ascii line2 ->
    (length line2 < fuel)%nat ->
    strlen_loop fuel text (length done) (Z.of_nat (length line1 + length line2))
                (length done + length line1) len
    = len + Z.of_nat (length line2) + 1.
Proof.
  induction line2 as [|c line2 IH]; intros text done line1 rest fuel len Htext Hline Hfuel;
    (destruct fuel; [cbn in Hfuel; lia|]); cbn [strlen_loop length].
  - rewrite Nat.add_0_r.
    replace (Z.of_nat (length done + length line1) - Z.of_nat (length done)
             <? Z.of_nat (length line1)) with false
      by (symmetry; apply Z.ltb_ge; lia).
    replace (Z.of_nat (length done + length line1) - Z.of_nat (length done)
             <=? Z.of_nat (length line1)) with true
      by (symmetry; apply Z.leb_le; lia).
    cbn [andb]. lia.
  - pose proof (Forall_inv Hline) as Hc.
    assert (Hbyte : byte_at text (length done + length line1) = c).
    { rewrite Htext, app_assoc, <- length_app. apply byte_at_app. }
    assert (Hc' : is_ascii (byte_at text (length done + length line1)))
      by now rewrite Hbyte.
    replace (Z.of_nat (length done + length line1) - Z.of_nat (length done)
             <? Z.of_nat (length line1 + S (length line2))) with true
      by (symmetry; apply Z.ltb_lt; lia).
    rewrite (ascii_next_char _ _ Hc'), Hbyte. unfold is_ascii in Hc.
    replace (c =? 0) with false by (symmetry; apply Z.eqb_neq; lia).
    cbn [negb andb].
    specialize (IH text done (line1 ++ [c]) rest fuel (len + 1)).
    rewrite length_app in IH. cbn [length] in IH.
    replace (length line1 + 1 + length line2)%nat with (length line1 + S (length line2))%nat
      in IH by lia.
    replace (length done + (length line1 + 1))%nat with (S (length done + length line1))
      in IH by lia.
    rewrite IH; [lia| |exact (Forall_inv_tail Hline)|cbn [length] in Hfuel; lia].
    rewrite Htext, <- !app_assoc. reflexivity.
Qed.

Lemma strlen_ascii (text done line rest : list Z) :
  text = done ++ line ++ rest ->
  Forall is_ascii line ->
  g_utf8_strlen text (length done) (Z.of_nat (length line)) = Z.of_nat (length line).
Proof.
  intros Htext Hline. unfold g_utf8_strlen.
  destruct line as [|c line]; [reflexivity|].
  pose proof (Forall_inv Hline) as Hc.
  assert (Hbyte : byte_at text (length done) = c) by (rewrite Htext; apply byte_at_app).
  assert (Hc' : is_ascii (byte_at text (length done))) by now rewrite Hbyte.
  rewrite (ascii_next_char _ _ Hc'), Hbyte. unfold is_ascii in Hc.
  replace (c =? 0) with false by (symmetry; apply Z.eqb_neq; lia).
  replace (Z.of_nat (length (c :: line)) =? 0) with false
    by (symmetry; apply Z.eqb_neq; cbn [length]; lia).
  cbn [orb]. rewrite Nat2Z.id.
  pose proof (strlen_loop_ascii line text done [c] rest (length (c :: line)) 0) as H.
  cbn [length] in H |- *.
  replace (length done + 1)%nat with (S (length done)) in H by lia.
  replace (1 + length line)%nat with (S (length line)) in H by lia.
  rewrite H; [lia| |exact (Forall_inv_tail Hline)|lia].
  rewrite Htext. reflexivity.
Qed.

Lemma wrap_prefix_nothing_fits (c : Z) (line : list Z) (col : Z) :
  col < wcwidth c -> col < 0 \/ 0 <= wcwidth c ->
  wrap_prefix wcwidth (c :: line) col 0 0 = 0%nat.
Proof.
  intros Hw Hs. cbn [wrap_prefix].
  destruct (0 <=? wcwidth c) eqn:E.
  - replace (col <? 0 + wcwidth c) with true by (symmetry; apply Z.ltb_lt; lia).
    reflexivity.
  - apply Z.leb_gt in E.
    replace (col <? 0) with true by (symmetry; apply Z.ltb_lt; lia). reflexivity.
Qed.

(** The boundary block when not even the first character of the paragraph
    fits the budget: the cut is the start of the paragraph itself. *)
Lemma emit_nothing_fits (text done line rest : list Z) (c b : Z) (st : scan_state) :
  text = done ++ (c :: line) ++ b :: rest ->
  Forall is_ascii (c :: line) ->
  p st = (length done + length (c :: line))%nat ->
  last_para st = length done ->
  cpi_columns page_layout < Z.of_nat (length (c :: line)) ->
  cpi_columns page_layout < wcwidth c ->
  cpi_columns page_layout < 0 \/ 0 <= wcwidth c ->
  emit_paragraph wcwidth layout_extents_width page_layout text st b
                 (g_utf8_next_char text (p st))
  = (q <- g_utf8_prev_char text (length done) ;;
     Ok (close_paragraph st (Z.quot (layout_extents_width []) PANGO_SCALE) 0
                         (cpi_layout page_layout []) (g_utf8_get_char text q)
                         (length done))).
Proof.
  intros Htext Hline Hp Hlast Hlen Hw Hs. unfold emit_paragraph.
  rewrite rewrap, Hp, Hlast.
  replace (Z.of_nat (length done + length (c :: line)) - Z.of_nat (length done))
    with (Z.of_nat (length (c :: line))) by lia.
  unfold g_utf8_to_ucs4. rewrite Nat2Z.id.
  rewrite (to_ucs4_ascii (c :: line) text done (b :: rest)) by (assumption || lia).
  rewrite (strlen_ascii text done (c :: line) (b :: rest)) by assumption.
  replace (cpi_columns page_layout <? Z.of_nat (length (c :: line))) with true
    by (symmetry; apply Z.ltb_lt; lia).
  rewrite wrap_prefix_nothing_fits by assumption.
  cbn [g_utf8_offset_to_pointer Nat.iter nat_rect].
  unfold slice. rewrite Nat.sub_diag. cbn [firstn]. reflexivity.
Qed.

End CpiScan.

Lemma boundary_is_ascii (b : Z) : is_boundary b = true -> is_ascii b.
Proof.
  unfold is_boundary, is_ascii, newline, formfeed_char. intros H.
  apply orb_true_iff in H. destruct H as [H|H]; apply Z.eqb_eq in H; lia.
Qed.

(** One turn of the loop at the boundary of a paragraph none of whose
    characters fits. *)
Lemma scan_at_boundary_nothing_fits
      (wcwidth : Z -> Z) (layout_extents_width : list Z -> Z)
      (page_layout : page_layout_t)
      (text done line rest : list Z) (c b : Z) (st : scan_state) (fuel : nat) :
  Qpositive (cpi page_layout) && do_wordwrap page_layout = true ->
  text = done ++ (c :: line) ++ b :: rest ->
  Forall is_ascii (c :: line) ->
  is_boundary b = true ->
  p st = (length done + length (c :: line))%nat ->
  last_para st = length done ->
  cpi_columns page_layout < Z.of_nat (length (c :: line)) ->
  cpi_columns page_layout < wcwidth c ->
  scan_loop wcwidth layout_extents_width page_layout text (S fuel) st
  = (ctl <- (q <- g_utf8_prev_char text (length done) ;;
             Ok (close_paragraph st (Z.quot (layout_extents_width []) PANGO_SCALE) 0
                                 (cpi_layout page_layout []) (g_utf8_get_char text q)
                                 (length done))) ;;
     match ctl with
     | Continue st' => scan_loop wcwidth layout_extents_width page_layout text fuel st'
     | Break st' => Ok (result st')
     end).
Proof.
  intros Hcpi Htext Hline Hb Hp Hlast Hlen Hw.
  pose proof (boundary_is_ascii b Hb) as Hascii.
  assert (Hbyte : byte_at text (p st) = b).
  { rewrite Hp, Htext, app_assoc, <- length_app. apply byte_at_app. }
  assert (Hb' : is_ascii (byte_at text (p st))) by now rewrite Hbyte.
  unfold is_ascii in Hascii.
  rewrite SegmenterFacts.scan_loop_turn by (rewrite Hbyte; apply Z.eqb_neq; lia).
  unfold scan_body.
  rewrite (ascii_get_char _ _ Hb'), Hbyte.
  replace (b =? invalid_char) with false
    by (symmetry; apply Z.eqb_neq; unfold invalid_char; lia).
  cbn [andb].
  replace (b =? 0) with false by (symmetry; apply Z.eqb_neq; lia).
  unfold is_boundary in Hb. cbn [orb]. rewrite Hb.
  rewrite (emit_nothing_fits wcwidth layout_extents_width page_layout Hcpi
                             text done line rest c b st); try assumption.
  - reflexivity.
  - lia.
Qed.

(** X7.  CPI re-wrapping, a first paragraph of one-byte characters.  When
    that paragraph is longer than the CPI budget and not even its first
    character fits, the cut falls on the start of the buffer and the scanner
    reads the byte in front of it ([g_utf8_prev_char] of the text pointer):
    the run is undefined. *)
Theorem rewrap_reads_before_the_buffer
        (wcwidth : Z -> Z) (layout_extents_width : list Z -> Z) (uninitialised : Z)
        (page_layout : page_layout_t) (c b : Z) (line rest : list Z)
        (fuel : nat) (paint_w : Z) :
  do_use_markup page_layout = false ->
  Qpositive (cpi page_layout) && do_wordwrap page_layout = true ->
  Forall (fun c => is_ascii c /\ is_boundary c = false) (c :: line) ->
  is_boundary b = true ->
  cpi_columns page_layout < Z.of_nat (length (c :: line)) ->
  cpi_columns page_layout < wcwidth c ->
  (length (c :: line) < fuel)%nat ->
  split_text_into_paragraphs wcwidth layout_extents_width uninitialised page_layout
                             ((c :: line) ++ b :: rest) fuel paint_w
  = Undefined.
Proof.
  intros Hmarkup Hcpi Hline Hb Hlen Hw Hfuel.
  unfold split_text_into_paragraphs. rewrite Hmarkup.
  replace fuel with (length (c :: line) + S (fuel - length (c :: line) - 1))%nat by lia.
  rewrite (scan_walk wcwidth layout_extents_width page_layout (c :: line)
                     ((c :: line) ++ b :: rest) [] (b :: rest));
    [|reflexivity|exact Hline|reflexivity].
  rewrite (scan_at_boundary_nothing_fits wcwidth layout_extents_width page_layout
             ((c :: line) ++ b :: rest) [] line rest c b);
    try assumption; try reflexivity.
  eapply Forall_impl; [|exact Hline]. cbn. tauto.
Qed.

Lemma rewrap_reads_before_the_buffer_witness :
  split_text_into_paragraphs wcwidth_utf8 Examples.no_extents 0 Examples.cpi_budget_zero
                             ([97; 98] ++ 10 :: []) 100 523
  = Undefined.
Proof.
  apply rewrap_reads_before_the_buffer;
    [reflexivity|reflexivity| |reflexivity|reflexivity|reflexivity|cbn; lia].
  repeat constructor.
Defined.





End SegmenterMore.

Module FlowMore.
Import Lines Flow TraceReading.

Lemma drawn_lines_app (t1 t2 : list call_record) :
  drawn_lines (t1 ++ t2) = drawn_lines t1 ++ drawn_lines t2.
Proof.
  induction t1 as [|r t1 IH]; [reflexivity|].
  cbn [app drawn_lines]. destruct (the_call r); rewrite IH; reflexivity.
Qed.

Lemma started_pages_app (t1 t2 : list call_record) :
  started_pages (t1 ++ t2) = started_pages t1 ++ started_pages t2.
Proof.
  induction t1 as [|r t1 IH]; [reflexivity|].
  cbn [app started_pages]. destruct (the_call r); rewrite IH; reflexivity.
Qed.

Lemma header_pages_app (t1 t2 : list call_record) :
  header_pages (t1 ++ t2) = header_pages t1 ++ header_pages t2.
Proof.
  induction t1 as [|r t1 IH]; [reflexivity|].
  cbn [app header_pages]. destruct (the_call r); rewrite IH; reflexivity.
Qed.

Lemma ejected_pages_app (t1 t2 : list call_record) :
  ejected_pages (t1 ++ t2) = (ejected_pages t1 + ejected_pages t2)%nat.
Proof.
  induction t1 as [|r t1 IH]; [reflexivity|].
  cbn [app ejected_pages]. destruct (the_call r); rewrite IH; reflexivity.
Qed.

Lemma pages_up_to_S (k : nat) :
  pages_up_to (S k) = pages_up_to k ++ [Z.of_nat (S k)].
Proof. unfold pages_up_to. rewrite seq_S, map_app. reflexivity. Qed.

Section Runs.

Variable output_format : output_format_t.
Variable header_line : Z -> Z -> PangoLayoutLine.
Variable need_header : bool.

#[local] Abbreviation place := (place_line output_format header_line need_header).
#[local] Abbreviation flow := (flow_lines output_format header_line need_header).
#[local] Abbreviation calls_of_break := (break_calls output_format header_line need_header).

(** What the calls of a break are. *)
Lemma break_calls_readings (st : flow_state) :
  drawn_lines (calls_of_break st) = []
  /\ started_pages (calls_of_break st)
     = (if column_idx st + 1 =? num_columns (layout st) then [page_idx st + 1] else [])
  /\ header_pages (calls_of_break st)
     = (if (column_idx st + 1 =? num_columns (layout st)) && need_header
        then [page_idx st + 1] else [])
  /\ ejected_pages (calls_of_break st)
     = (if column_idx st + 1 =? num_columns (layout st) then 1%nat else 0%nat).
Proof.
  unfold break_calls. destruct (column_idx st + 1 =? num_columns (layout st)).
  - destruct need_header; repeat split; reflexivity.
  - repeat split; reflexivity.
Qed.

Lemma flow_lines_drawn (pango_lines : list LineLink) :
  forall st,
    drawn_lines (trace (flow st pango_lines))
    = drawn_lines (trace st) ++ map pango_line pango_lines.
Proof.
  induction pango_lines as [|l rest IH]; intros st; cbn [flow_lines fold_left map].
  - now rewrite app_nil_r.
  - unfold flow_lines in IH. rewrite IH.
    pose proof (FlowFacts.place_line_trace output_format header_line need_header st l) as Ht.
    cbn zeta in Ht. rewrite Ht, !drawn_lines_app.
    destruct (break_calls_readings st) as (Hd & _).
    replace (drawn_lines (if needs_break st l then calls_of_break st else [])) with
      (@nil PangoLayoutLine) by (destruct (needs_break st l); [now rewrite Hd|reflexivity]).
    cbn [drawn_lines the_call app]. now rewrite <- app_assoc.
Qed.

Lemma place_line_pages (st : flow_state) (line_link : LineLink) (k : nat) :
  pages_so_far need_header st k -> exists k', pages_so_far need_header (place st line_link) k'.
Proof.
  intros (Hk & Hp & Hs & He & Hh).
  pose proof (FlowFacts.place_line_trace output_format header_line need_header
                                         st line_link) as Ht.
  destruct (FlowFacts.place_line_fields output_format header_line need_header
                                        st line_link) as (_ & _ & _ & Hc).
  cbn zeta in Ht, Hc.
  destruct (break_calls_readings st) as (_ & Bs & Bh & Be).
  destruct (needs_break st line_link).
  - destruct (column_idx st + 1 =? num_columns (layout st)).
    + exists (S k). unfold pages_so_far. destruct Hc as (_ & Hc). rewrite Hc, Ht.
      rewrite !started_pages_app, !ejected_pages_app, !header_pages_app, Bs, Bh, Be, Hs, He, Hh.
      rewrite pages_up_to_S, Hp. cbn [andb started_pages ejected_pages header_pages the_call].
      rewrite !app_nil_r.
      replace (Z.of_nat k + 1) with (Z.of_nat (S k)) by lia.
      repeat split; try lia; try (destruct need_header; reflexivity).
    + exists k. unfold pages_so_far. destruct Hc as (_ & Hc). rewrite Hc, Ht.
      rewrite !started_pages_app, !ejected_pages_app, !header_pages_app, Bs, Bh, Be, Hs, He, Hh.
      cbn [andb started_pages ejected_pages header_pages the_call].
      rewrite !app_nil_r. repeat split; try lia; try assumption.
  - exists k. unfold pages_so_far. destruct Hc as (_ & Hc). rewrite Hc, Ht.
    rewrite !started_pages_app, !ejected_pages_app, !header_pages_app, Hs, He, Hh.
    cbn [app started_pages ejected_pages header_pages the_call].
    rewrite !app_nil_r. repeat split; try lia; try assumption.
Qed.

Lemma flow_lines_pages (pango_lines : list LineLink) :
  forall st k, pages_so_far need_header st k ->
               exists k', pages_so_far need_header (flow st pango_lines) k'.
Proof.
  induction pango_lines as [|l rest IH]; intros st k H; [now exists k|].
  destruct (place_line_pages st l k H) as (k' & H'). exact (IH _ _ H').
Qed.

End Runs.

(** X9.  Every line of the stream is drawn once, and the lines are drawn in
    the order of the stream: none is left out, repeated or moved. *)
Theorem output_pages_draws_the_stream_in_order
        (output_format : output_format_t) (header_line : Z -> Z -> PangoLayoutLine)
        (pango_lines : list LineLink) (page_layout : page_layout_t)
        (need_header : bool) :
  drawn_lines (trace (output_pages output_format header_line pango_lines
                                   page_layout need_header))
  = map pango_line pango_lines.
Proof.
  unfold output_pages. cbn [record trace].
  rewrite drawn_lines_app, flow_lines_drawn. unfold initial_state.
  destruct need_header; cbn; now rewrite app_nil_r.
Qed.

(** X10.  The pages of a run are started in order, numbered from 1 without
    a gap up to the page count the function returns; every page that is
    started is ejected, once; and the header is drawn on every page when
    headers are wanted and on none when not.  A run has at least one page,
    also on an empty stream. *)
Theorem output_pages_pages_are_balanced
        (output_format : output_format_t) (header_line : Z -> Z -> PangoLayoutLine)
        (pango_lines : list LineLink) (page_layout : page_layout_t)
        (need_header : bool) :
  let run := output_pages output_format header_line pango_lines
                          page_layout need_header in
  exists n : nat,
    (1 <= n)%nat
    /\ page_idx run = Z.of_nat n
    /\ started_pages (trace run) = pages_up_to n
    /\ ejected_pages (trace run) = n
    /\ header_pages (trace run) = (if need_header then pages_up_to n else []).
Proof.
  cbn zeta. unfold output_pages.
  destruct (flow_lines_pages output_format header_line need_header pango_lines
              (initial_state output_format header_line page_layout need_header) 1)
    as (n & Hn & Hp & Hs & He & Hh).
  { unfold pages_so_far, initial_state. destruct need_header; cbn; repeat split; lia. }
  exists n. cbn [record trace page_idx].
  rewrite started_pages_app, ejected_pages_app, header_pages_app, Hs, He, Hh.
  cbn. rewrite !app_nil_r. repeat split; try assumption. lia.
Qed.

Lemma placed_states_forall
      (fmt : output_format_t) (hl : Z -> Z -> PangoLayoutLine) (nh : bool)
      (P : flow_state -> Prop) :
  (forall st l, P st -> P (place_line fmt hl nh st l)) ->
  forall pango_lines st, P st -> Forall P (placed_states fmt hl nh st pango_lines).
Proof.
  intros Hstep pango_lines; induction pango_lines as [|l rest IH]; intros st Hst;
    cbn [placed_states]; constructor.
  - now apply Hstep.
  - now apply IH, Hstep.
Qed.

Lemma assignments_of_run
      (fmt : output_format_t) (hl : Z -> Z -> PangoLayoutLine) (nh : bool)
      (pango_lines : list LineLink) (page_layout : page_layout_t) :
  assignments (trace (output_pages fmt hl pango_lines page_layout nh))
  = map assignment_of
        (placed_states fmt hl nh (initial_state fmt hl page_layout nh) pango_lines).
Proof.
  unfold output_pages. rewrite FlowFacts.assignments_eject_page.
  destruct (FlowFacts.initial_state_page fmt hl nh page_layout) as (Hp & Ha & _).
  cbn zeta in Hp, Ha.
  rewrite (FlowFacts.assignments_placed_states fmt hl nh pango_lines _ Hp), Ha.
  reflexivity.
Qed.

(** X11.  With at least one column, every line is placed on a page from 1
    on and in a column from 0 up to the number of columns, that number
    excluded: the cursor never leaves the columns of the page. *)
Theorem output_pages_stays_within_the_columns
        (output_format : output_format_t) (header_line : Z -> Z -> PangoLayoutLine)
        (pango_lines : list LineLink) (page_layout : page_layout_t)
        (need_header : bool) :
  1 <= num_columns page_layout ->
  Forall (fun place => 1 <= fst (fst place)
                       /\ 0 <= snd (fst place) < num_columns page_layout)
         (assignments (trace (output_pages output_format header_line pango_lines
                                           page_layout need_header))).
Proof.
  intros Hn. rewrite assignments_of_run. apply Forall_map.
  eapply Forall_impl;
    [|apply (placed_states_forall output_format header_line need_header
               (fun st => forget_header (layout st) = forget_header page_layout
                          /\ 1 <= page_idx st
                          /\ 0 <= column_idx st < num_columns page_layout))].
  - intros st (_ & Hp & Hc). exact (conj Hp Hc).
  - intros st l (Hl & Hp & Hc).
    destruct (FlowFacts.place_line_fields output_format header_line need_header st l)
      as (Hl' & _ & _ & Hc').
    cbn zeta in Hl', Hc'.
    destruct (FlowFacts.forget_header_fields _ _ Hl) as (_ & Hnum & _).
    split; [congruence|]. rewrite Hnum in Hc'.
    destruct (needs_break st l).
    + destruct (column_idx st + 1 =? num_columns page_layout) eqn:E;
        destruct Hc' as (-> & ->).
      * lia.
      * apply Z.eqb_neq in E. lia.
    + destruct Hc' as (-> & ->). lia.
  - destruct (FlowFacts.initial_state_page output_format header_line need_header
                                           page_layout)
      as (_ & _ & Hc & _ & Hp & _ & Hl).
    cbn zeta in Hc, Hp, Hl. rewrite Hc, Hp. split; [exact Hl|lia].
Qed.

Lemma output_pages_stays_within_the_columns_witness :
  1 <= num_columns (Examples.three_columns PANGO_DIRECTION_LTR) /\
  Forall (fun place => 1 <= fst (fst place) /\ 0 <= snd (fst place) < 3)
         (assignments (trace (output_pages FORMAT_PDF Examples.toy_header
                                [Examples.line_12pt_formfeed; Examples.line_12pt]
                                (Examples.three_columns PANGO_DIRECTION_LTR) false))).
Proof.
  assert (H : 1 <= num_columns (Examples.three_columns PANGO_DIRECTION_LTR))
    by (vm_compute; discriminate).
  split; [exact H|].
  exact (output_pages_stays_within_the_columns FORMAT_PDF Examples.toy_header
           [Examples.line_12pt_formfeed; Examples.line_12pt]
           (Examples.three_columns PANGO_DIRECTION_LTR) false H).
Defined.

Lemma Qtrunc_nonneg (q : Q) : (0 <= q)%Q -> 0 <= Qtrunc q.
Proof.
  destruct q as [n d]. unfold Qle, Qtrunc. cbn. intros H.
  apply Z.quot_pos; lia.
Qed.

Lemma line_advance_nonneg (page_layout : page_layout_t) (line_link : LineLink) :
  0 <= rect_height (logical_rect line_link) ->
  0 <= line_advance page_layout line_link.
Proof.
  intros H. unfold line_advance. destruct (Qpositive (lpi page_layout)) eqn:E.
  - apply Qtrunc_nonneg, FlowFacts.lpi_height_nonneg, E.
  - exact H.
Qed.

Lemma place_line_not_before
      (fmt : output_format_t) (hl : Z -> Z -> PangoLayoutLine) (nh : bool)
      (st : flow_state) (line_link : LineLink) :
  0 <= rect_height (logical_rect line_link) ->
  not_after (assignment_of st) (assignment_of (place_line fmt hl nh st line_link)).
Proof.
  intros H. pose proof (line_advance_nonneg (layout st) line_link H) as Hadv.
  destruct (FlowFacts.place_line_fields fmt hl nh st line_link) as (_ & _ & Hy & Hc).
  cbn zeta in Hy, Hc. unfold not_after, assignment_of.
  destruct (needs_break st line_link).
  - destruct (column_idx st + 1 =? num_columns (layout st)); destruct Hc as (-> & ->).
    + left. lia.
    + right. left. lia.
  - destruct Hc as (-> & ->). right. right. lia.
Qed.

Lemma placed_states_sorted
      (fmt : output_format_t) (hl : Z -> Z -> PangoLayoutLine) (nh : bool)
      (pango_lines : list LineLink) :
  forall st,
    Forall (fun l => 0 <= rect_height (logical_rect l)) pango_lines ->
    Sorted not_after (map assignment_of (placed_states fmt hl nh st pango_lines))
    /\ HdRel not_after (assignment_of st)
             (map assignment_of (placed_states fmt hl nh st pango_lines)).
Proof.
  induction pango_lines as [|l rest IH]; intros st Hh; cbn [placed_states map].
  - split; constructor.
  - destruct (IH (place_line fmt hl nh st l) (Forall_inv_tail Hh)) as (Hs & Hd).
    split; constructor; try assumption.
    apply place_line_not_before, (Forall_inv Hh).
Qed.

(** X12.  When no line has a negative height, the lines are placed in
    reading order: each line lies on a later page than the one before, or on
    the same page in a later column, or in the same column and not above
    it. *)
Theorem output_pages_places_in_reading_order
        (output_format : output_format_t) (header_line : Z -> Z -> PangoLayoutLine)
        (pango_lines : list LineLink) (page_layout : page_layout_t)
        (need_header : bool) :
  Forall (fun l => 0 <= rect_height (logical_rect l)) pango_lines ->
  Sorted not_after
         (assignments (trace (output_pages output_format header_line pango_lines
                                           page_layout need_header))).
Proof.
  intros Hh. rewrite assignments_of_run. now apply placed_states_sorted.
Qed.

Lemma output_pages_places_in_reading_order_witness :
  Sorted not_after
         (assignments (trace (output_pages FORMAT_PDF Examples.toy_header
                                [Examples.line_12pt_formfeed; Examples.line_12pt]
                                (Examples.three_columns PANGO_DIRECTION_LTR) false))).
Proof.
  apply output_pages_places_in_reading_order.
  repeat constructor; vm_compute; discriminate.
Defined.

Lemma half_gutter (k g : Z) :
  ((inject_Z k - (1 # 2)) * inject_Z g == (inject_Z (2 * k - 1) * inject_Z g) / 2)%Q.
Proof.
  unfold Z.sub. rewrite inject_Z_plus, inject_Z_mult, inject_Z_opp.
  change (inject_Z 2) with 2%Q. change (inject_Z 1) with 1%Q. field.
Qed.

Lemma twice_separator (a k g : Z) :
  (2 * (inject_Z a
        + (if k =? 1 then 1 * inject_Z g / 2 else (inject_Z k - (1 # 2)) * inject_Z g))
   == inject_Z (2 * a + (2 * k - 1) * g))%Q.
Proof.
  assert (H : ((if k =? 1 then 1 * inject_Z g / 2
                else (inject_Z k - (1 # 2)) * inject_Z g)
               == (inject_Z (2 * k - 1) * inject_Z g) / 2)%Q).
  { destruct (k =? 1) eqn:E; [|apply half_gutter].
    apply Z.eqb_eq in E. subst k. reflexivity. }
  rewrite H, inject_Z_plus, !inject_Z_mult. change (inject_Z 2) with 2%Q. field.
Qed.

(** X13.  The separation line is vertical and stands in the middle of the
    gutter between the column that is entered and the column before it:
    twice its x is the right edge of the one plus the left edge of the
    other, in both directions of the text.  Without the separation-line
    switch nothing is drawn. *)
Theorem eject_column_centres_the_separator
        (page_layout : page_layout_t) (i : Z) (line : PangoLayoutLine) :
  let width := Z.quot (rect_width (line_logical line)) PANGO_SCALE in
  (do_separation_line page_layout = false -> eject_column page_layout i = [])
  /\ (do_separation_line page_layout = true ->
      exists x y_top y_bot,
        eject_column page_layout i
        = [cairo_move_to x y_top; cairo_line_to x y_bot;
           cairo_set_line_width (1 # 10); cairo_stroke]
        /\ (pango_dir page_layout = PANGO_DIRECTION_LTR ->
            2 * x == inject_Z (line_x page_layout (i - 1) line + column_width page_layout)
                     + inject_Z (line_x page_layout i line))%Q
        /\ (pango_dir page_layout = PANGO_DIRECTION_RTL ->
            2 * x == inject_Z (line_x page_layout i line + width)
                     + inject_Z (line_x page_layout (i - 1) line + width
                                 - column_width page_layout))%Q).
Proof.
  cbn zeta. unfold eject_column. split; intros Hsep; rewrite Hsep; [reflexivity|].
  cbn [negb]. eexists. eexists. eexists. split; [reflexivity|].
  unfold separator_x, line_x, is_rtl.
  split; intros Hdir; rewrite Hdir; cbn [direction_eqb];
    rewrite twice_separator, <- inject_Z_plus;
    apply inject_Z_injective; nia.
Qed.

Lemma eject_column_centres_the_separator_witness :
  exists x y_top y_bot,
    eject_column (Examples.three_columns PANGO_DIRECTION_RTL) 1
    = [cairo_move_to x y_top; cairo_line_to x y_bot;
       cairo_set_line_width (1 # 10); cairo_stroke]
    /\ (2 * x == 792)%Q.
Proof.
  destruct (proj2 (eject_column_centres_the_separator
                     (Examples.three_columns PANGO_DIRECTION_RTL) 1
                     (Examples.shaped_line 51200 12288)) eq_refl)
    as (x & y_top & y_bot & Hops & _ & Hrtl).
  exists x, y_top, y_bot. split; [exact Hops|].
  rewrite (Hrtl eq_refl). reflexivity.
Defined.

End FlowMore.

Module LinesMore.
Import Lines Flow TraceReading.

Section Splitter.

Variable layout_lines : PangoLayout -> list PangoLayoutLine.

Lemma lines_loop_extents (para : Paragraph) (n : Z) (lines : list PangoLayoutLine) :
  forall i line_list max_height,
    Forall own_extents line_list ->
    Forall own_extents (fst (lines_loop para n lines i line_list max_height)).
Proof.
  induction lines as [|line rest IH]; intros i line_list max_height H; [exact H|].
  cbn [lines_loop]. apply IH. constructor; [split; reflexivity|exact H].
Qed.

Lemma paragraphs_loop_extents (paragraphs : list Paragraph) :
  forall line_list max_height,
    Forall own_extents line_list ->
    Forall own_extents (fst (paragraphs_loop layout_lines paragraphs line_list max_height)).
Proof.
  induction paragraphs as [|para rest IH]; intros line_list max_height H; [exact H|].
  cbn [paragraphs_loop].
  pose proof (lines_loop_extents para
                (Z.of_nat (length (layout_lines (para_layout para))))
                (layout_lines (para_layout para)) 0 line_list max_height H) as H1.
  destruct (lines_loop para _ (layout_lines (para_layout para)) 0 line_list max_height).
  apply IH, H1.
Qed.

(** X14.  The line stream holds the lines of the paragraphs, paragraph
    after paragraph and in the order of each layout, every one with its own
    extents; and the function changes nothing in the page layout but
    [scale_y], which it leaves alone too unless characters are stretched and
    [lpi] is set. *)
Theorem split_paragraphs_keeps_every_line
        (page_layout : page_layout_t) (paragraphs : list Paragraph) :
  let split := split_paragraphs_into_lines layout_lines page_layout paragraphs in
  map pango_line (snd split)
  = concat (map (fun para => layout_lines (para_layout para)) paragraphs)
  /\ Forall own_extents (snd split)
  /\ set_scale_y (fst split) (scale_y page_layout) = set_scale_y page_layout (scale_y page_layout)
  /\ (do_stretch_chars page_layout && Qpositive (lpi page_layout) = false ->
      fst split = page_layout).
Proof.
  cbn zeta.
  pose proof (FlowFacts.split_paragraphs_into_lines_spec layout_lines page_layout
                                                         paragraphs) as Hspec.
  pose proof (paragraphs_loop_extents paragraphs [] 0 (Forall_nil _)) as Hext.
  unfold split_paragraphs_into_lines in *.
  destruct (paragraphs_loop layout_lines paragraphs [] 0) as [line_list max_height].
  cbn [fst snd] in *. destruct Hspec as (_ & Hlines & _).
  split; [exact Hlines|]. split; [now apply Forall_rev|].
  destruct (do_stretch_chars page_layout && Qpositive (lpi page_layout));
    split; try reflexivity; discriminate.
Qed.

Lemma fold_max_ge (heights : list Z) :
  forall init, init <= fold_left Z.max heights init
               /\ Forall (fun h => h <= fold_left Z.max heights init) heights.
Proof.
  induction heights as [|h rest IH]; intros init; cbn [fold_left].
  - split; [lia|constructor].
  - destruct (IH (Z.max init h)) as (H1 & H2). split; [lia|].
    constructor; [lia|exact H2].
Qed.

Lemma fold_max_attained (heights : list Z) :
  forall init, fold_left Z.max heights init = init
               \/ In (fold_left Z.max heights init) heights.
Proof.
  induction heights as [|h rest IH]; intros init; cbn [fold_left]; [now left|].
  destruct (IH (Z.max init h)) as [H|H].
  - rewrite H. destruct (Z.max_spec init h) as [(_ & ->)|(_ & ->)]; [right; now left|now left].
  - right. now right.
Qed.

(** X15.  When characters are stretched, the scale fits the lines to the
    rows of [lpi]: no line, stretched, is higher than a row of
    72/lpi points, and the highest line fills its row exactly. *)
Theorem stretched_lines_fit_the_row
        (page_layout : page_layout_t) (paragraphs : list Paragraph) :
  let split := split_paragraphs_into_lines layout_lines page_layout paragraphs in
  let row := (1 / lpi page_layout * 72 * inject_Z PANGO_SCALE)%Q in
  do_stretch_chars page_layout = true ->
  Qpositive (lpi page_layout) = true ->
  (exists l, In l (snd split) /\ 0 < rect_height (logical_rect l)) ->
  Forall (fun l => (inject_Z (rect_height (logical_rect l)) * scale_y (fst split) <= row)%Q)
         (snd split)
  /\ exists l, In l (snd split)
               /\ (inject_Z (rect_height (logical_rect l)) * scale_y (fst split) == row)%Q.
Proof.
  cbn zeta. intros Hstretch Hlpi (tall & Hin & Htall).
  pose proof (FlowFacts.split_paragraphs_into_lines_spec layout_lines page_layout
                                                         paragraphs) as Hspec.
  destruct (split_paragraphs_into_lines layout_lines page_layout paragraphs)
    as [page_layout' pango_lines].
  cbn [fst snd] in *. destruct Hspec as (_ & _ & Hlayout).
  rewrite Hstretch, Hlpi in Hlayout. cbn [andb] in Hlayout. subst page_layout'.
  cbn [scale_y set_scale_y].
  set (heights := map (fun l => rect_height (logical_rect l)) pango_lines).
  set (M := fold_left Z.max heights 0).
  destruct (fold_max_ge heights 0) as (_ & Hge). fold M in Hge.
  assert (HM : 0 < M).
  { rewrite Forall_forall in Hge.
    specialize (Hge (rect_height (logical_rect tall)) (in_map _ _ _ Hin)). lia. }
  assert (HMq : ~ (inject_Z M == 0)%Q) by (unfold Qeq; cbn; lia).
  pose proof (FlowFacts.lpi_height_nonneg _ Hlpi) as Hrow.
  set (row := (1 / lpi page_layout * 72 * inject_Z PANGO_SCALE)%Q) in *.
  assert (Hscale : stretch_scale (lpi page_layout) M = (row / inject_Z M)%Q) by reflexivity.
  rewrite Hscale. split.
  - apply Forall_forall. intros l Hl.
    assert (Hh : rect_height (logical_rect l) <= M).
    { rewrite Forall_forall in Hge. apply Hge. unfold heights.
      exact (in_map (fun l => rect_height (logical_rect l)) _ _ Hl). }
    setoid_replace (inject_Z (rect_height (logical_rect l)) * (row / inject_Z M))%Q
      with ((inject_Z (rect_height (logical_rect l)) * row) / inject_Z M)%Q by (field; exact HMq).
    apply Qle_shift_div_r.
    + change 0%Q with (inject_Z 0). rewrite <- Zlt_Qlt. exact HM.
    + rewrite (Qmult_comm row). apply Qmult_le_compat_r; [|exact Hrow].
      rewrite <- Zle_Qle. exact Hh.
  - destruct (fold_max_attained heights 0) as [H0|Hatt]; fold M in H0 || fold M in Hatt.
    + lia.
    + unfold heights in Hatt. apply in_map_iff in Hatt as (l & Hl & Hinl).
      exists l. split; [exact Hinl|]. rewrite Hl. field. exact HMq.
Qed.

End Splitter.

Lemma split_paragraphs_keeps_every_line_witness :
  map pango_line
      (snd (split_paragraphs_into_lines Examples.toy_lines Examples.plain_layout
                                        Examples.paragraphs_10_14))
  = concat (map (fun para => Examples.toy_lines (para_layout para))
                Examples.paragraphs_10_14)
  /\ fst (split_paragraphs_into_lines Examples.toy_lines Examples.plain_layout
                                      Examples.paragraphs_10_14)
     = Examples.plain_layout.
Proof.
  destruct (split_paragraphs_keeps_every_line Examples.toy_lines Examples.plain_layout
                                              Examples.paragraphs_10_14)
    as (Hlines & _ & _ & Hsame).
  split; [exact Hlines|]. apply Hsame. reflexivity.
Defined.

Lemma stretched_lines_fit_the_row_witness :
  Forall (fun l => (inject_Z (rect_height (logical_rect l))
                    * scale_y (fst (split_paragraphs_into_lines
                                      Examples.toy_lines Examples.lpi_6_stretched
                                      Examples.paragraphs_10_14))
                    <= 1 / 6 * 72 * inject_Z PANGO_SCALE)%Q)
         (snd (split_paragraphs_into_lines Examples.toy_lines Examples.lpi_6_stretched
                                           Examples.paragraphs_10_14)).
Proof.
  refine (proj1 (stretched_lines_fit_the_row Examples.toy_lines Examples.lpi_6_stretched
                   Examples.paragraphs_10_14 eq_refl eq_refl _)).
  eexists. split; [left; reflexivity|reflexivity].
Defined.

End LinesMore.

Module GeometryMore.
Import Flow.

(** X16.  With at least one column: when the margins and gutters leave
    room, the columns [main] lays out fit into it, and less than one point
    for each column is left over: [column_width] is the room divided by the
    number of columns, rounded down. *)
Theorem main_columns_fit_between_the_margins
        (page_width : Q) (left_margin right_margin num_columns gutter_width : Z) :
  let room := (page_width - inject_Z left_margin - inject_Z right_margin
               - inject_Z (total_gutter_width num_columns gutter_width))%Q in
  let width := main_column_width page_width left_margin right_margin
                                 num_columns gutter_width in
  1 <= num_columns ->
  (0 <= room)%Q ->
  0 <= width
  /\ (inject_Z (width * num_columns) <= room)%Q
  /\ (room < inject_Z ((width + 1) * num_columns))%Q.
Proof.
  cbn zeta. intros Hn Hroom. unfold main_column_width.
  set (room := (page_width - inject_Z left_margin - inject_Z right_margin
                - inject_Z (total_gutter_width num_columns gutter_width))%Q) in *.
  assert (Hnq : (0 < inject_Z num_columns)%Q)
    by (change 0%Q with (inject_Z 0); rewrite <- Zlt_Qlt; lia).
  assert (Hn0 : ~ (inject_Z num_columns == 0)%Q)
    by (intros H; rewrite H in Hnq; discriminate).
  assert (Hx : (0 <= room / inject_Z num_columns)%Q).
  { apply Qle_shift_div_l; [exact Hnq|]. now rewrite Qmult_0_l. }
  rewrite (FlowFacts.Qtrunc_floor _ Hx).
  assert (Hback : (room / inject_Z num_columns * inject_Z num_columns == room)%Q)
    by (field; exact Hn0).
  split; [|split].
  - rewrite <- (FlowFacts.Qtrunc_floor _ Hx). now apply FlowMore.Qtrunc_nonneg.
  - apply Qle_trans with (room / inject_Z num_columns * inject_Z num_columns)%Q.
    + rewrite inject_Z_mult.
      apply Qmult_le_compat_r; [apply Qfloor_le|now apply Qlt_le_weak].
    + rewrite Hback. apply Qle_refl.
  - apply Qle_lt_trans with (room / inject_Z num_columns * inject_Z num_columns)%Q.
    + rewrite Hback. apply Qle_refl.
    + rewrite inject_Z_mult.
      apply Qmult_lt_compat_r; [exact Hnq|apply Qlt_floor].
Qed.

Lemma main_columns_fit_between_the_margins_witness :
  0 <= main_column_width (59528 # 100) 36 36 2 40
  /\ (inject_Z (main_column_width (59528 # 100) 36 36 2 40 * 2)
      <= (59528 # 100) - inject_Z 36 - inject_Z 36 - inject_Z (total_gutter_width 2 40))%Q
  /\ ((59528 # 100) - inject_Z 36 - inject_Z 36 - inject_Z (total_gutter_width 2 40)
      < inject_Z ((main_column_width (59528 # 100) 36 36 2 40 + 1) * 2))%Q.
Proof.
  apply (main_columns_fit_between_the_margins (59528 # 100) 36 36 2 40).
  - lia.
  - vm_compute. discriminate.
Defined.

(** X17.  The header of a page: the function writes the header height, a
    third of the height of the first line in whole points, and nothing else
    into the page layout; it shows the three lines on one base line, the
    first at the left margin, the second centred on the width of the page,
    the third ending at the right margin, and rules a line from margin to
    margin. *)
Theorem header_is_spread_over_the_page
        (header_line : Z -> Z -> PangoLayoutLine)
        (page_layout : page_layout_t) (page : Z) :
  let drawn := draw_page_header_line_to_page header_line false page_layout page in
  let points := fun i => inject_Z (Z.quot (rect_width (line_logical (header_line page i)))
                                          PANGO_SCALE) in
  forget_header (fst drawn) = forget_header page_layout
  /\ header_height (fst drawn)
     = Qtrunc (inject_Z (Z.quot (rect_height (line_logical (header_line page 0)))
                                PANGO_SCALE) / 3)
  /\ exists x_center x_right y line_pos,
      snd drawn
      = [cairo_move_to (inject_Z (left_margin page_layout)) y;
         pango_cairo_show_layout_line (header_line page 0);
         cairo_move_to x_center y;
         pango_cairo_show_layout_line (header_line page 1);
         cairo_move_to x_right y;
         pango_cairo_show_layout_line (header_line page 2);
         cairo_move_to (inject_Z (left_margin page_layout)) line_pos;
         cairo_line_to (page_width page_layout - inject_Z (right_margin page_layout))%Q
                       line_pos;
         cairo_set_line_width (1 # 10);
         cairo_stroke]
      /\ (x_center + points 1%Z / 2 == page_width page_layout / 2)%Q
      /\ (x_right + points 2%Z + inject_Z (right_margin page_layout)
          == page_width page_layout)%Q
      /\ y = inject_Z (top_margin page_layout + header_height (fst drawn))
      /\ line_pos = inject_Z (top_margin page_layout + header_height (fst drawn)
                              + Z.quot (header_sep page_layout) 2).
Proof.
  cbn zeta. unfold draw_page_header_line_to_page. cbn [fst snd].
  split; [reflexivity|]. split; [reflexivity|].
  eexists. eexists. eexists. eexists. split; [reflexivity|].
  split; [field|]. split; [ring|]. split; reflexivity.
Qed.

End GeometryMore.

Module OptionsMore.
Import Options.

Lemma tolower_nonzero (c : Z) : c <> 0 -> g_ascii_tolower c <> 0.
Proof.
  unfold g_ascii_tolower. intros H.
  destruct ((65 <=? c) && (c <=? 90)) eqn:E; [|exact H].
  apply andb_true_iff in E as (E1 & E2). apply Z.leb_le in E1. lia.
Qed.

(** Two C strings compare equal exactly when they agree up to the case of
    their letters. *)
Lemma strcasecmp_zero (s1 : list Z) :
  forall s2,
    Forall (fun c => c <> 0) s1 -> Forall (fun c => c <> 0) s2 ->
    ((g_ascii_strcasecmp s1 s2 =? 0) = true
     <-> map g_ascii_tolower s1 = map g_ascii_tolower s2).
Proof.
  induction s1 as [|c1 r1 IH]; intros [|c2 r2] H1 H2; cbn [g_ascii_strcasecmp map].
  - split; reflexivity.
  - pose proof (Forall_inv H2) as Hc. cbv beta in Hc. split; [|discriminate].
    intros E. apply Z.eqb_eq in E. lia.
  - pose proof (Forall_inv H1) as Hc. cbv beta in Hc. split; [|discriminate].
    intros E. apply Z.eqb_eq in E. lia.
  - destruct (g_ascii_tolower c1 =? g_ascii_tolower c2) eqn:E.
    + apply Z.eqb_eq in E. rewrite E, (IH r2 (Forall_inv_tail H1) (Forall_inv_tail H2)).
      split; [intros ->; reflexivity|intros H; now injection H].
    + apply Z.eqb_neq in E. split.
      * intros H. apply Z.eqb_eq in H. lia.
      * intros H. injection H as H _. contradiction.
Qed.

Lemma strcasecmp_test (s1 s2 : list Z) :
  Forall (fun c => c <> 0) s1 -> Forall (fun c => c <> 0) s2 ->
  map g_ascii_tolower s2 = s2 ->
  (map g_ascii_tolower s1 = s2 -> (g_ascii_strcasecmp s1 s2 =? 0) = true)
  /\ (map g_ascii_tolower s1 <> s2 -> (g_ascii_strcasecmp s1 s2 =? 0) = false).
Proof.
  intros H1 H2 Hlow. pose proof (strcasecmp_zero s1 s2 H1 H2) as Hiff.
  rewrite Hlow in Hiff. split; intros H.
  - now apply Hiff.
  - destruct (g_ascii_strcasecmp s1 s2 =? 0); [|reflexivity].
    exfalso. apply H. now apply Hiff.
Qed.

#[local] Ltac names_differ :=
  match goal with
  | H1 : map g_ascii_tolower ?v = _, H2 : map g_ascii_tolower ?v = _ |- _ =>
      rewrite H1 in H2; discriminate H2
  end.

#[local] Ltac test_name v name H :=
  let Hpos := fresh "Hyes" in
  let Hneg := fresh "Hno" in
  destruct (strcasecmp_test v name H ltac:(repeat constructor; discriminate) eq_refl)
    as (Hpos & Hneg).

(** X18.  The paper option takes the names legal, letter, a4 and a3 in any
    mix of upper and lower case, and nothing else: for any other value, the
    empty one and a missing one included, it answers FALSE and leaves the
    paper type as it was. *)
Theorem paper_option_takes_four_names (value : list Z) (paper_type : paper_type_t) :
  Forall (fun c => c <> 0) value ->
  let lower := map g_ascii_tolower value in
  (lower = str_legal ->
   _paps_arg_paper_cb (Some value) paper_type = (true, PAPER_TYPE_US_LEGAL))
  /\ (lower = str_letter ->
      _paps_arg_paper_cb (Some value) paper_type = (true, PAPER_TYPE_US_LETTER))
  /\ (lower = str_a4 ->
      _paps_arg_paper_cb (Some value) paper_type = (true, PAPER_TYPE_A4))
  /\ (lower = str_a3 ->
      _paps_arg_paper_cb (Some value) paper_type = (true, PAPER_TYPE_A3))
  /\ (~ In lower [str_legal; str_letter; str_a4; str_a3] ->
      _paps_arg_paper_cb (Some value) paper_type = (false, paper_type))
  /\ _paps_arg_paper_cb None paper_type = (false, paper_type).
Proof.
  intros Hnul. cbn zeta.
  destruct value as [|c v].
  - repeat split; try discriminate; try reflexivity.
  - set (value := c :: v) in *.
    test_name value str_legal Hnul. test_name value str_letter Hnul.
    test_name value str_a4 Hnul. test_name value str_a3 Hnul.
    assert (Hcb : _paps_arg_paper_cb (Some value) paper_type
                  = if g_ascii_strcasecmp value str_legal =? 0
                    then (true, PAPER_TYPE_US_LEGAL)
                    else if g_ascii_strcasecmp value str_letter =? 0
                         then (true, PAPER_TYPE_US_LETTER)
                         else if g_ascii_strcasecmp value str_a4 =? 0
                              then (true, PAPER_TYPE_A4)
                              else if g_ascii_strcasecmp value str_a3 =? 0
                                   then (true, PAPER_TYPE_A3)
                                   else (false, paper_type)) by reflexivity.
    rewrite Hcb. clear Hcb.
    split; [|split; [|split; [|split; [|split]]]].
    + intros H. now rewrite (Hyes H).
    + intros H. rewrite Hno by (intros H'; names_differ). now rewrite (Hyes0 H).
    + intros H. rewrite Hno, Hno0 by (intros H'; names_differ). now rewrite (Hyes1 H).
    + intros H. rewrite Hno, Hno0, Hno1 by (intros H'; names_differ).
      now rewrite (Hyes2 H).
    + intros H. rewrite Hno, Hno0, Hno1, Hno2; [reflexivity| | | |];
        intros H'; apply H; rewrite H'; cbn; tauto.
    + reflexivity.
Qed.

Lemma paper_option_takes_four_names_witness :
  (* "Letter" *)
  _paps_arg_paper_cb (Some [76; 101; 116; 116; 101; 114]) PAPER_TYPE_A4
  = (true, PAPER_TYPE_US_LETTER)
  (* "b5" *)
  /\ _paps_arg_paper_cb (Some [98; 53]) PAPER_TYPE_A3 = (false, PAPER_TYPE_A3).
Proof.
  split.
  - refine (proj1 (proj2 (paper_option_takes_four_names
                            [76; 101; 116; 116; 101; 114] PAPER_TYPE_A4 _)) eq_refl).
    repeat constructor; discriminate.
  - refine (proj1 (proj2 (proj2 (proj2 (proj2 (paper_option_takes_four_names
                            [98; 53] PAPER_TYPE_A3 _))))) _).
    + repeat constructor; discriminate.
    + cbn. intros [H|[H|[H|[H|[]]]]]; discriminate H.
Defined.

(** X19.  The format option takes pdf, svg, and ps or postscript for
    PostScript, in any mix of upper and lower case; for any other value, the
    empty one and a missing one included, it answers FALSE and leaves the
    output format as it was. *)
Theorem format_option_takes_four_names
        (value : list Z) (output_format : output_format_t) :
  Forall (fun c => c <> 0) value ->
  let lower := map g_ascii_tolower value in
  (lower = str_pdf -> _paps_arg_format_cb (Some value) output_format = (true, FORMAT_PDF))
  /\ (lower = str_ps \/ lower = str_postscript ->
      _paps_arg_format_cb (Some value) output_format = (true, FORMAT_POSTSCRIPT))
  /\ (lower = str_svg -> _paps_arg_format_cb (Some value) output_format = (true, FORMAT_SVG))
  /\ (~ In lower [str_pdf; str_ps; str_postscript; str_svg] ->
      _paps_arg_format_cb (Some value) output_format = (false, output_format))
  /\ _paps_arg_format_cb None output_format = (false, output_format).
Proof.
  intros Hnul. cbn zeta.
  destruct value as [|c v].
  - repeat split; try discriminate; try reflexivity;
      try (intros [H|H]; discriminate H).
  - set (value := c :: v) in *.
    test_name value str_pdf Hnul. test_name value str_ps Hnul.
    test_name value str_postscript Hnul. test_name value str_svg Hnul.
    assert (Hcb : _paps_arg_format_cb (Some value) output_format
                  = if g_ascii_strcasecmp value str_pdf =? 0 then (true, FORMAT_PDF)
                    else if (g_ascii_strcasecmp value str_ps =? 0)
                            || (g_ascii_strcasecmp value str_postscript =? 0)
                         then (true, FORMAT_POSTSCRIPT)
                         else if g_ascii_strcasecmp value str_svg =? 0
                              then (true, FORMAT_SVG)
                              else (false, output_format)) by reflexivity.
    rewrite Hcb. clear Hcb.
    split; [|split; [|split; [|split]]].
    + intros H. now rewrite (Hyes H).
    + intros [H|H]; rewrite Hno by (intros H'; names_differ).
      * now rewrite (Hyes0 H).
      * rewrite (Hyes1 H). now rewrite orb_true_r.
    + intros H. rewrite Hno, Hno0, Hno1 by (intros H'; names_differ).
      now rewrite (Hyes2 H).
    + intros H. rewrite Hno, Hno0, Hno1, Hno2; [reflexivity| | | |];
        intros H'; apply H; rewrite H'; cbn; tauto.
    + reflexivity.
Qed.

Lemma format_option_takes_four_names_witness :
  (* "PostScript" *)
  _paps_arg_format_cb (Some [80; 111; 115; 116; 83; 99; 114; 105; 112; 116]) FORMAT_SVG
  = (true, FORMAT_POSTSCRIPT).
Proof.
  refine (proj1 (proj2 (format_option_takes_four_names
                          [80; 111; 115; 116; 83; 99; 114; 105; 112; 116] FORMAT_SVG _))
                (or_intror eq_refl)).
  repeat constructor; discriminate.
Defined.

Lemma cut_at_prefix (c : Z) (lang : list Z) :
  exists rest,
    lang = cut_at c lang ++ rest
    /\ Forall (fun x => x <> c) (cut_at c lang)
    /\ (rest = [] \/ exists tail, rest = c :: tail).
Proof.
  induction lang as [|x lang (rest & Heq & Hfree & Hrest)]; cbn [cut_at].
  - exists []. repeat split; [constructor|now left].
  - destruct (x =? c) eqn:E.
    + apply Z.eqb_eq in E. subst x. exists (c :: lang).
      repeat split; [constructor|right; now exists lang].
    + apply Z.eqb_neq in E. exists rest. cbn [app]. rewrite <- Heq.
      repeat split; [constructor; assumption|exact Hrest].
Qed.

(** X20.  The language handed to Pango is the locale name up to its first
    dot or at sign, whichever comes first: a prefix of the name that holds
    neither, followed in the name by nothing or by one of the two. *)
Theorem get_language_cuts_codeset_and_modifier (locale : list Z) :
  exists rest,
    locale = get_language locale ++ rest
    /\ Forall (fun x => x <> 46 /\ x <> 64) (get_language locale)
    /\ (rest = [] \/ exists x tail, rest = x :: tail /\ (x = 46 \/ x = 64)).
Proof.
  unfold get_language.
  destruct (cut_at_prefix 46 locale) as (r1 & Heq1 & Hfree1 & Hrest1).
  destruct (cut_at_prefix 64 (cut_at 46 locale)) as (r2 & Heq2 & Hfree2 & Hrest2).
  exists (r2 ++ r1). split; [|split].
  - rewrite app_assoc, <- Heq2. exact Heq1.
  - rewrite Heq2 in Hfree1. apply Forall_app in Hfree1 as (Hfree1 & _).
    rewrite Forall_forall in *. intros x Hx. split; [now apply Hfree1|now apply Hfree2].
  - destruct Hrest2 as [->|(tail & ->)].
    + destruct Hrest1 as [->|(tail & ->)]; [now left|].
      right. exists 46, tail. split; [reflexivity|now left].
    + right. exists 64, (tail ++ r1). split; [reflexivity|now right].
Qed.

End OptionsMore.

Module PageSetupMore.
Import Options PageSetup.

Lemma paper_width_nonneg (paper_type : paper_type_t) :
  (0 <= fst (paper_sizes paper_type))%Q.
Proof. destruct paper_type; discriminate. Qed.

(** X21.  Landscape on a PDF or SVG surface: the surface gets the height
    and the width of the paper swapped as they are, while the page layout
    gets the old width in whole points as its height.  The two widths
    agree; the height of the layout is the height of the surface rounded
    down, less than one point below it. *)
Theorem landscape_layout_height_is_whole_points
        (page_width page_height : Q) (paper_type : paper_type_t)
        (output_format : output_format_t) :
  output_format <> FORMAT_POSTSCRIPT ->
  let size := main_page_size page_width page_height paper_type output_format true in
  layout_page_width size = surface_page_width size
  /\ layout_page_height size = inject_Z (Qfloor (surface_page_height size))
  /\ (layout_page_height size <= surface_page_height size)%Q
  /\ (surface_page_height size < layout_page_height size + 1)%Q.
Proof.
  intros Hfmt. cbn zeta. unfold main_page_size.
  set (w := if Qnum page_width <? 0 then fst (paper_sizes paper_type) else page_width).
  assert (Hw : (0 <= w)%Q).
  { subst w. destruct (Qnum page_width <? 0) eqn:E; [apply paper_width_nonneg|].
    apply Z.ltb_ge in E. destruct page_width as [n d]. unfold Qle. cbn in *. lia. }
  destruct output_format; [contradiction| |];
    cbn [layout_page_width layout_page_height surface_page_width surface_page_height];
    rewrite (FlowFacts.Qtrunc_floor w Hw);
    (split; [reflexivity|]); (split; [reflexivity|]);
    (split; [apply Qfloor_le|]);
    (apply Qlt_le_trans with (inject_Z (Qfloor w + 1)); [apply Qlt_floor|]);
    rewrite inject_Z_plus; apply Qle_refl.
Qed.

Lemma landscape_layout_height_is_whole_points_witness :
  let size := main_page_size (-1) (-1) PAPER_TYPE_A4 FORMAT_PDF true in
  surface_page_height size = 59528 # 100
  /\ layout_page_height size = inject_Z 595
  /\ layout_page_width size = surface_page_width size.
Proof.
  cbn zeta. split; [reflexivity|].
  assert (H : FORMAT_PDF <> FORMAT_POSTSCRIPT) by discriminate.
  pose proof (landscape_layout_height_is_whole_points (-1) (-1) PAPER_TYPE_A4
                FORMAT_PDF H) as (Hwidth & Hheight & _).
  split; [exact Hheight|exact Hwidth].
Defined.

End PageSetupMore.
